(** * Tracker simulator core: a shallow embedding and its properties

  The development follows the C++ sources of the simulated telemetry
  device module by module:

  - [Str], [Num]              the [std::string] operations and the machine
                              numbers the sources rely on
  - [Events]                  Event.hpp / Event.cpp
  - [Json], [JsonCodec]       JsonCodec.cpp over the part of nlohmann::json
                              it calls
  - [Ports]                   the interfaces of IClock, ITransport and
                              IPolicyEngine
  - [DefaultPolicies], [MockTransport]
  - [Domain]                  domain/EventBus.cpp, domain/DeviceStateMachine.cpp
  - [Pipeline]                domain/TelemetryPipeline.cpp
  - [Mqtt], [PahoMqttClient]  IMqttClient, and the client's publish with
                              its offline queue
  - [DpsProvisioning], [DpsConnectionManager], [TwinHandler]
  - [StateMachine], [Battery] the state machine and battery the Simulator owns
  - [Simulator]               Simulator.cpp

  The vocabulary of the statements and the example inputs follow the
  modules, and the properties follow those.

  Doubles are the kernel's binary64 floats, C++ integers are [Z] with
  the wrap-around of their width written out, [std::unordered_map] and
  JSON objects are finite maps.  A C++ exception is [None]. *)

From Stdlib Require Import ZArith Lia List Bool String Ascii Floats.
From stdpp Require Import gmap strings pretty.

#[local] Set Warnings "-register-all,-inexact-float".
#[local] Open Scope string_scope.
#[local] Open Scope list_scope.

(** ** std::string *)

Module Str.

(** [hay.find(needle, pos)]; [None] is [std::string::npos]. *)
Definition find (hay needle : string) (pos : nat) : option nat :=
  String.index pos needle hay.

(** The idiom [s.find(p) == 0] of the sources. *)
Definition starts_with (p s : string) : bool :=
  match find s p 0 with
  | Some 0 => true
  | _ => false
  end.

(** [s.substr(pos, len)] for [pos <= s.size()]. *)
Definition substr (s : string) (pos len : nat) : string :=
  String.substring pos len s.

End Str.

(** ** Machine numbers *)

Module Num.

#[local] Open Scope Z_scope.

(** [uint64_t] arithmetic is modulo 2^64. *)
Definition wrap_u64 (z : Z) : Z := z mod 2 ^ 64.

(** Conversion to [int] (32 bits, two's complement). *)
Definition wrap_i32 (z : Z) : Z := (z + 2 ^ 31) mod 2 ^ 32 - 2 ^ 31.

Definition in_i32 (z : Z) : Prop := - 2 ^ 31 <= z < 2 ^ 31.
Definition in_u64 (z : Z) : Prop := 0 <= z < 2 ^ 64.


(** The integral part of a double, rounded toward zero; [None] for NaN
    and the infinities. *)
Definition trunc (d : float) : option Z :=
  match Prim2SF d with
  | S754_zero _ => Some 0
  | S754_finite s m e =>
      let mag := if 0 <=? e then Z.shiftl (Z.pos m) e
                 else Z.shiftr (Z.pos m) (- e) in
      Some (if s then - mag else mag)
  | S754_infinity _ | S754_nan => None
  end.

(** [static_cast<int>(d)].  The cast is undefined when the integral
    part does not fit; the model returns what x86-64 returns (INT_MIN),
    and the theorems stay within the defined range. *)
Definition static_cast_int (d : float) : Z :=
  match trunc d with
  | Some z => if (- 2 ^ 31 <=? z) && (z <? 2 ^ 31) then z else - 2 ^ 31
  | None => - 2 ^ 31
  end.

(** [static_cast<long long>(d)], with the same proviso: INT64_MIN
    where the integral part does not fit. *)
Definition static_cast_long_long (d : float) : Z :=
  match trunc d with
  | Some z => if (- 2 ^ 63 <=? z) && (z <? 2 ^ 63) then z else - 2 ^ 63
  | None => - 2 ^ 63
  end.

(** [std::pow(2, n)] for an [int] exponent: the double 2^n, infinite
    from n = 1024 on. *)
Definition pow2 (n : Z) : float := Z.ldexp 1 n.

(** Integer to double, round to nearest even. *)
Definition Z_to_double (z : Z) : float :=
  SF2Prim (binary_normalize prec emax z 0 false).

End Num.

(** ** Event.hpp, Event.cpp *)

Module Events.

Inductive EventType : Set :=
  | Heartbeat
  | IgnitionOn
  | IgnitionOff
  | MotionStart
  | MotionStop
  | GeofenceEnter
  | GeofenceExit
  | SpeedOverLimit
  | LowBattery.

#[global] Instance EventType_eq_dec : EqDecision EventType.
Proof. solve_decision. Defined.

Definition all_event_types : list EventType :=
  [Heartbeat; IgnitionOn; IgnitionOff; MotionStart; MotionStop;
   GeofenceEnter; GeofenceExit; SpeedOverLimit; LowBattery].

Record Location : Set := mkLocation {
  lat : float;
  lon : float;
  alt : float;
  accuracy : float
}.

Record BatteryInfo : Set := mkBatteryInfo {
  percentage : float;
  voltage : float
}.

Record NetworkInfo : Set := mkNetworkInfo {
  rssi : Z;
  rat : string
}.

Record Event : Type := mkEvent {
  deviceId : string;
  timestamp : string;
  eventType : EventType;
  sequence : Z;
  location : Location;
  speedKph : float;
  heading : float;
  battery : BatteryInfo;
  network : NetworkInfo;
  extras : gmap string string
}.

(** The member initialisers of the structs. *)
Definition Location_default : Location := mkLocation 0 0 0 0.
Definition BatteryInfo_default : BatteryInfo := mkBatteryInfo 100 4.
Definition NetworkInfo_default : NetworkInfo := mkNetworkInfo (-70) "LTE".

(** [Event event; event.eventType = t;] *)
Definition Event_default (t : EventType) : Event :=
  mkEvent "" "" t 0 Location_default 0 0 BatteryInfo_default
          NetworkInfo_default ∅.

Definition with_extras (e : Event) (x : gmap string string) : Event :=
  mkEvent (deviceId e) (timestamp e) (eventType e) (sequence e) (location e)
          (speedKph e) (heading e) (battery e) (network e) x.

Definition with_timestamp (e : Event) (ts : string) : Event :=
  mkEvent (deviceId e) ts (eventType e) (sequence e) (location e)
          (speedKph e) (heading e) (battery e) (network e) (extras e).

Definition with_deviceId (e : Event) (d : string) : Event :=
  mkEvent d (timestamp e) (eventType e) (sequence e) (location e)
          (speedKph e) (heading e) (battery e) (network e) (extras e).

Definition with_percentage (e : Event) (p : float) : Event :=
  mkEvent (deviceId e) (timestamp e) (eventType e) (sequence e) (location e)
          (speedKph e) (heading e) (mkBatteryInfo p (voltage (battery e)))
          (network e) (extras e).

(** [std::unordered_map::find] over a table given by its initialiser list. *)
Fixpoint table_find {K V : Type} `{EqDecision K} (tbl : list (K * V)) (k : K) : option V :=
  match tbl with
  | [] => None
  | (k', v) :: rest => if decide (k' = k) then Some v else table_find rest k
  end.

Definition typeMap : list (EventType * string) :=
  [ (Heartbeat, "heartbeat");
    (IgnitionOn, "ignition_on");
    (IgnitionOff, "ignition_off");
    (MotionStart, "motion_start");
    (MotionStop, "motion_stop");
    (GeofenceEnter, "geofence_enter");
    (GeofenceExit, "geofence_exit");
    (SpeedOverLimit, "speed_over_limit");
    (LowBattery, "low_battery") ].

Definition eventTypeToString (type : EventType) : string :=
  match table_find typeMap type with
  | Some s => s
  | None => "unknown"
  end.

Definition stringMap : list (string * EventType) :=
  [ ("heartbeat", Heartbeat);
    ("ignition_on", IgnitionOn);
    ("ignition_off", IgnitionOff);
    ("motion_start", MotionStart);
    ("motion_stop", MotionStop);
    ("geofence_enter", GeofenceEnter);
    ("geofence_exit", GeofenceExit);
    ("speed_over_limit", SpeedOverLimit);
    ("low_battery", LowBattery) ].

Definition stringToEventType (str : string) : EventType :=
  match table_find stringMap str with
  | Some t => t
  | None => Heartbeat
  end.

(** The nine names [stringToEventType] recognises. *)
Definition recognized_names : list string := map fst stringMap.

(** The identifier of each enumerator, and the two spellings a
    CamelCase identifier has in lower case with a separator. *)
Definition kindName (t : EventType) : string :=
  match t with
  | Heartbeat => "Heartbeat"
  | IgnitionOn => "IgnitionOn"
  | IgnitionOff => "IgnitionOff"
  | MotionStart => "MotionStart"
  | MotionStop => "MotionStop"
  | GeofenceEnter => "GeofenceEnter"
  | GeofenceExit => "GeofenceExit"
  | SpeedOverLimit => "SpeedOverLimit"
  | LowBattery => "LowBattery"
  end.

Definition is_upper (c : ascii) : bool :=
  (65 <=? nat_of_ascii c)%nat && (nat_of_ascii c <=? 90)%nat.

Definition to_lower (c : ascii) : ascii :=
  if is_upper c then ascii_of_nat (nat_of_ascii c + 32) else c.

Fixpoint separated (sep : ascii) (first : bool) (s : string) : string :=
  match s with
  | EmptyString => EmptyString
  | String c s' =>
      if is_upper c && negb first
      then String sep (String (to_lower c) (separated sep false s'))
      else String (to_lower c) (separated sep false s')
  end.

Definition kebab_case (s : string) : string := separated "-" true s.
Definition snake_case (s : string) : string := separated "_" true s.

End Events.

(** ** nlohmann::json, as far as the sources use it

  Payloads are kept as JSON values.  [dump] and [parse], the
  library's text layer, are parameters where the sources call them;
  [reparse] tells what [parse] reads from a text [dump] printed. *)

Module Json.

Import Num.

Inductive json : Type :=
  | JNull
  | JBool (b : bool)
  | JInt (z : Z)            (* number_integer  *)
  | JUInt (n : Z)           (* number_unsigned *)
  | JFloat (d : float)      (* number_float    *)
  | JString (s : string)
  | JArray (l : list json)
  | JObject (m : gmap string json).

Definition is_null (j : json) : bool :=
  match j with JNull => true | _ => false end.
Definition is_string (j : json) : bool :=
  match j with JString _ => true | _ => false end.
Definition is_object (j : json) : bool :=
  match j with JObject _ => true | _ => false end.

(** [j.contains(key)]: false on anything but an object. *)
Definition contains (j : json) (key : string) : bool :=
  match j with
  | JObject m => bool_decide (is_Some (m !! key))
  | _ => false
  end.

(** [j[key]] on a const value: the key must be there. *)
Definition at_key (j : json) (key : string) : option json :=
  match j with
  | JObject m => m !! key
  | _ => None
  end.

(** [j.empty()]: null, and arrays and objects without elements. *)
Definition empty (j : json) : bool :=
  match j with
  | JNull => true
  | JArray l => bool_decide (l = [])
  | JObject m => bool_decide (m = ∅)
  | _ => false
  end.

(** [j.erase(key)]: a type_error on anything but an object. *)
Definition erase (j : json) (key : string) : option json :=
  match j with
  | JObject m => Some (JObject (delete key m))
  | _ => None
  end.

(** [get<T>()]; [None] is type_error 302. *)
Definition get_string (j : json) : option string :=
  match j with
  | JString s => Some s
  | _ => None
  end.

(** [get<unsigned long long>()], the type of the default [0ULL] that
    [value] is called with: where [unsigned long long] is not the
    library's [number_unsigned_t] ([std::uint64_t] is [unsigned long]
    on LP64), the conversion is the one of the arithmetic types, which
    also reads a boolean. *)
Definition get_uint64 (j : json) : option Z :=
  match j with
  | JUInt n => Some n
  | JInt z => Some (wrap_u64 z)
  | JFloat d =>
      match trunc d with
      | Some z => if (0 <=? z)%Z && (z <? 2 ^ 64)%Z then Some z else None
      | None => None
      end
  | JBool b => Some (if b then 1 else 0)%Z
  | _ => None
  end.

Definition get_int (j : json) : option Z :=
  match j with
  | JInt z => Some (wrap_i32 z)
  | JUInt n => Some (wrap_i32 n)
  | JFloat d => Some (static_cast_int d)
  | JBool b => Some (if b then 1 else 0)%Z
  | _ => None
  end.

Definition get_double (j : json) : option float :=
  match j with
  | JFloat d => Some d
  | JInt z => Some (Z_to_double z)
  | JUInt n => Some (Z_to_double n)
  | _ => None
  end.

(** [j.value(key, default)]: type_error 306 unless [j] is an object;
    the default when the key is absent; otherwise [get<T>()] of the
    member, which throws when the member has another type. *)
Definition value {T : Type} (get : json -> option T) (j : json)
    (key : string) (default : T) : option T :=
  match j with
  | JObject m =>
      match m !! key with
      | Some v => get v
      | None => Some default
      end
  | _ => None
  end.

(** What [parse] makes of the text [dump] printed for a value: the
    value itself, except that a number_integer that is not negative is
    read as a number_unsigned, and that NaN and the infinities, printed
    as null, are read as null. *)
Fixpoint reparse (j : json) : json :=
  match j with
  | JInt z => if (0 <=? z)%Z then JUInt z else JInt z
  | JFloat d => if is_finite d then JFloat d else JNull
  | JArray l => JArray (map reparse l)
  | JObject m => JObject (reparse <$> m)
  | _ => j
  end.

End Json.

(** ** JsonCodec.cpp *)

Module JsonCodec.

Import Num Events Json.

Definition locationToJson (l : Location) : json :=
  JObject (<["acc" := JFloat (accuracy l)]>
          (<["alt" := JFloat (alt l)]>
          (<["lon" := JFloat (lon l)]>
          (<["lat" := JFloat (lat l)]> ∅)))).

Definition jsonToLocation (j : json) : option Location :=
  la ← value get_double j "lat" 0%float;
  lo ← value get_double j "lon" 0%float;
  al ← value get_double j "alt" 0%float;
  ac ← value get_double j "acc" 0%float;
  Some (mkLocation la lo al ac).

Definition batteryToJson (b : BatteryInfo) : json :=
  JObject (<["voltage" := JFloat (voltage b)]>
          (<["pct" := JInt (static_cast_int (percentage b))]> ∅)).

Definition jsonToBattery (j : json) : option BatteryInfo :=
  p ← value get_double j "pct" 100%float;
  v ← value get_double j "voltage" 4%float;
  Some (mkBatteryInfo p v).

Definition networkToJson (n : NetworkInfo) : json :=
  JObject (<["rat" := JString (rat n)]>
          (<["rssi" := JInt (rssi n)]> ∅)).

Definition jsonToNetwork (j : json) : option NetworkInfo :=
  r ← value get_int j "rssi" (-70)%Z;
  t ← value get_string j "rat" "LTE";
  Some (mkNetworkInfo r t).

(** The member written for one entry of [extras]. *)
Definition extraToJson (v : string) : json :=
  if decide (v = "") then JNull else JString v.

(** The loop [for (const auto& [key, value] : event.extras)]. *)
Definition extrasToJson (x : gmap string string) : gmap string json :=
  map_fold (fun key v acc => <[key := extraToJson v]> acc) ∅ x.

Definition eventToJson (e : Event) : json :=
  let j : gmap string json :=
    <["network" := networkToJson (network e)]>
    (<["battery" := batteryToJson (battery e)]>
    (<["heading" := JFloat (heading e)]>
    (<["speedKph" := JFloat (speedKph e)]>
    (<["loc" := locationToJson (location e)]>
    (<["seq" := JUInt (sequence e)]>
    (<["eventType" := JString (eventTypeToString (eventType e))]>
    (<["ts" := JString (timestamp e)]>
    (<["deviceId" := JString (deviceId e)]> ∅)))))))) in
  if decide (extras e = ∅) then JObject j
  else JObject (<["extras" := JObject (extrasToJson (extras e))]> j).

Section Decode.

(** [value.dump()] for a member of [extras] that is neither null nor
    a string: the library's printer. *)
Variable dump : json -> string.

Definition jsonToExtra (v : json) : string :=
  match v with
  | JNull => ""
  | JString s => s
  | _ => dump v
  end.

(** The loop over [json["extras"].items()]. *)
Definition jsonToExtras (m : gmap string json) : gmap string string :=
  map_fold (fun key v acc => <[key := jsonToExtra v]> acc) ∅ m.

Definition jsonToEvent (j : json) : option Event :=
  did ← value get_string j "deviceId" "";
  ts ← value get_string j "ts" "";
  ty ← value get_string j "eventType" "heartbeat";
  seq ← value get_uint64 j "seq" 0%Z;
  loc ← (if contains j "loc"
         then l ← at_key j "loc"; jsonToLocation l
         else Some Location_default);
  spd ← value get_double j "speedKph" 0%float;
  hdg ← value get_double j "heading" 0%float;
  bat ← (if contains j "battery"
         then b ← at_key j "battery"; jsonToBattery b
         else Some BatteryInfo_default);
  net ← (if contains j "network"
         then n ← at_key j "network"; jsonToNetwork n
         else Some NetworkInfo_default);
  let ext :=
    match at_key j "extras" with
    | Some (JObject x) => jsonToExtras x
    | _ => ∅
    end in
  Some (mkEvent did ts (stringToEventType ty) seq loc spd hdg bat net ext).

End Decode.

Section Text.

(** The library's text layer: [dump j] is the text of [j], [None] when
    the printer throws (type_error 316 on a string that is not UTF-8),
    and [parse] reads a text, [None] when it throws. *)
Variable dump : json -> option string.
Variable parse : string -> option json.

Definition serialize (e : Event) : option string := dump (eventToJson e).

(** The text printed for [j] is read back by [parse], as [reparse]
    tells. *)
Definition reads_back (j : json) : Prop :=
  forall text, dump j = Some text -> parse text = Some (reparse j).

(** [value.dump()] inside [jsonToEvent]: the value came out of [parse],
    so its strings are UTF-8 and the printer has a text for it. *)
Definition dump_parsed (v : json) : string :=
  match dump v with
  | Some text => text
  | None => ""
  end.

Definition deserialize (text : string) : option Event :=
  j ← parse text; jsonToEvent dump_parsed j.

End Text.

(** An event whose fields are values of their C++ types and that the
    text layer can carry: [rssi] is an [int], [sequence] a [uint64_t],
    the battery percentage casts to [int], and no double is NaN or
    infinite. *)
Definition finite_location (l : Location) : Prop :=
  is_finite (lat l) = true /\ is_finite (lon l) = true /\
  is_finite (alt l) = true /\ is_finite (accuracy l) = true.

Definition well_formed (e : Event) : Prop :=
  in_i32 (rssi (network e)) /\ in_u64 (sequence e) /\
  (exists z, trunc (percentage (battery e)) = Some z /\ in_i32 z) /\
  finite_location (location e) /\
  is_finite (speedKph e) = true /\ is_finite (heading e) = true /\
  is_finite (percentage (battery e)) = true /\
  is_finite (voltage (battery e)) = true.

(** A JSON object whose members, where present, have the type the
    decoder reads them as; [eventType] is left to the claim at hand. *)
Definition member_ok {T : Type} (get : json -> option T)
    (m : gmap string json) (key : string) : Prop :=
  forall v, m !! key = Some v -> is_Some (get v).

Definition well_formed_object (m : gmap string json) : Prop :=
  member_ok get_string m "deviceId" /\
  member_ok get_string m "ts" /\
  member_ok get_uint64 m "seq" /\
  member_ok jsonToLocation m "loc" /\
  member_ok get_double m "speedKph" /\
  member_ok get_double m "heading" /\
  member_ok jsonToBattery m "battery" /\
  member_ok jsonToNetwork m "network".

(** [eventType] is absent, or a string outside the nine names. *)
Definition unknown_or_missing_type (m : gmap string json) : Prop :=
  m !! "eventType" = None \/
  exists s, m !! "eventType" = Some (JString s) /\ s ∉ recognized_names.

End JsonCodec.

(** ** ports/ITransport.hpp, ports/IPolicyEngine.hpp

    Points of [std::chrono::steady_clock] are integers (nanoseconds);
    every operation that reads a clock takes the reading as an argument. *)

Module Ports.

Definition time_point : Set := Z.

Definition milliseconds (n : Z) : Z := (n * 1000000)%Z.
Definition seconds (n : Z) : Z := (n * 1000000000)%Z.
Definition minutes (n : Z) : Z := seconds (60 * n).

(** [ITransport], for a transport whose state has type [T]: the two
    calls the telemetry pipeline makes. *)
Class ITransport (T : Type) : Type := {
  isConnected : T -> bool;
  publish : T -> string -> string -> Z -> bool * T
}.

(** [IPolicyEngine] with its [RetryPolicy] and [ReportingPolicy]
    (delays in milliseconds, intervals in seconds, as in the
    interface). *)
Record PolicyEngine : Type := mkPolicyEngine {
  getBackoffDelay : Z -> Z;
  shouldRetry : Z -> bool;
  getHeartbeatInterval : bool -> Z;
  shouldReportMotionChange : bool;
  shouldReportBatteryLevel : float -> float -> bool
}.

End Ports.

(** ** adapters/DefaultPolicies.hpp *)

Module DefaultPolicies.

Import Ports.

#[local] Open Scope Z_scope.

(** [ExponentialBackoffRetryPolicy] at its default arguments: the
    delay is computed in doubles, cast to [long long] and then capped.
    From attempt 55 on the double no longer fits the cast. *)
Definition baseDelay_ : Z := 1000.
Definition maxDelay_ : Z := 5 * 60 * 1000.
Definition maxAttempts_ : Z := 5.

Definition backoffDelay (attemptCount : Z) : Z :=
  let delay :=
    Num.static_cast_long_long
      (PrimFloat.mul (Num.Z_to_double baseDelay_) (Num.pow2 (attemptCount - 1))) in
  Z.min delay maxDelay_.

(** [AdaptiveReportingPolicy] at its default arguments. *)
Definition heartbeatInterval (inMotion : bool) : Z :=
  if inMotion then 60 else 5 * 60.

Definition reportBatteryLevel (currentPct lastReportedPct : float) : bool :=
  PrimFloat.leb 5 (PrimFloat.abs (PrimFloat.sub currentPct lastReportedPct)).

Definition DefaultPolicyEngine : PolicyEngine :=
  mkPolicyEngine backoffDelay (fun n => n <? maxAttempts_)
                 heartbeatInterval true reportBatteryLevel.

End DefaultPolicies.

(** ** sim/MockTransport.cpp (the message timestamp is left out) *)

Module MockTransport.

Import Ports.

Record MockMessage : Set := mkMockMessage {
  topic : string;
  payload : string;
  qos : Z
}.

Record t : Set := mk {
  connected_ : bool;
  failPublish_ : bool;
  publishedMessages_ : list MockMessage;
  subscriptions_ : list string
}.

Definition init : t := mk false false [] [].

Definition mock_publish (tr : t) (tp pl : string) (q : Z) : bool * t :=
  if negb (connected_ tr) || failPublish_ tr then (false, tr)
  else (true, mk (connected_ tr) (failPublish_ tr)
                 (publishedMessages_ tr ++ [mkMockMessage tp pl q])
                 (subscriptions_ tr)).

Definition setConnected (c : bool) (tr : t) : t :=
  mk c (failPublish_ tr) (publishedMessages_ tr) (subscriptions_ tr).

Definition setFailPublish (f : bool) (tr : t) : t :=
  mk (connected_ tr) f (publishedMessages_ tr) (subscriptions_ tr).

#[global] Instance MockTransport_ITransport : ITransport t := {
  isConnected := connected_;
  publish := mock_publish
}.

End MockTransport.

(** ** domain/EventBus.cpp, domain/DeviceStateMachine.cpp *)

Module Domain.

Import Events Ports.

(** The one kind of handler the core subscribes: the lambda of
    [TelemetryPipeline::start], which calls [onEvent]. *)
Inductive Handler : Set := PipelineOnEvent.

Record EventBus : Type := mkEventBus {
  handlers_ : EventType -> list Handler;
  eventQueue_ : list Event;
  processing_ : bool
}.

Definition EventBus_init : EventBus := mkEventBus (fun _ => []) [] false.

Definition bus_publish (event : Event) (bus : EventBus) : EventBus :=
  mkEventBus (handlers_ bus) (eventQueue_ bus ++ [event]) (processing_ bus).

Definition bus_subscribe (ty : EventType) (h : Handler) (bus : EventBus) : EventBus :=
  mkEventBus (fun ty' => if decide (ty' = ty) then handlers_ bus ty' ++ [h]
                         else handlers_ bus ty')
             (eventQueue_ bus) (processing_ bus).

Definition bus_unsubscribe (ty : EventType) (bus : EventBus) : EventBus :=
  mkEventBus (fun ty' => if decide (ty' = ty) then [] else handlers_ bus ty')
             (eventQueue_ bus) (processing_ bus).

Module DeviceState.
Inductive t : Set := Idle | Driving | Parked | LowBattery | Offline.
End DeviceState.

Module DeviceEvent.
Inductive t : Set :=
  | IgnitionOn
  | IgnitionOff
  | MotionDetected
  | MotionStopped
  | BatteryLow
  | BatteryNormal
  | ConnectionLost
  | ConnectionRestored
  | ParkingTimerExpired.
End DeviceEvent.

#[global] Instance DeviceState_eq_dec : EqDecision DeviceState.t.
Proof. solve_decision. Defined.

#[global] Instance DeviceEvent_eq_dec : EqDecision DeviceEvent.t.
Proof. solve_decision. Defined.

(** What the machine reads from its clock during one call. *)
Record Clock : Set := mkClock {
  now : time_point;
  getIsoTimestamp : string
}.

Record DeviceStateMachine : Set := mkDeviceStateMachine {
  currentState_ : DeviceState.t;
  ignitionOn_ : bool;
  inMotion_ : bool;
  connected_ : bool;
  batteryPercentage_ : float;
  motionStoppedTime_ : time_point
}.

Definition DeviceStateMachine_init : DeviceStateMachine :=
  mkDeviceStateMachine DeviceState.Idle false false true 100 0%Z.

Definition PARKING_TIMEOUT : Z := minutes 2.
Definition LOW_BATTERY_THRESHOLD : float := 15.

Definition set_state (s : DeviceState.t) (sm : DeviceStateMachine) : DeviceStateMachine :=
  mkDeviceStateMachine s (ignitionOn_ sm) (inMotion_ sm) (connected_ sm)
                       (batteryPercentage_ sm) (motionStoppedTime_ sm).

Definition set_motionStoppedTime (tp : time_point) (sm : DeviceStateMachine) : DeviceStateMachine :=
  mkDeviceStateMachine (currentState_ sm) (ignitionOn_ sm) (inMotion_ sm) (connected_ sm)
                       (batteryPercentage_ sm) tp.

Definition emitTrackerEvent (clk : Clock) (ty : EventType)
    (extras : gmap string string) (bus : EventBus) : EventBus :=
  bus_publish (with_extras (with_timestamp (Event_default ty) (getIsoTimestamp clk)) extras) bus.

Definition startParkingTimer (clk : Clock) (sm : DeviceStateMachine) : DeviceStateMachine :=
  set_motionStoppedTime (now clk) sm.

Definition stopParkingTimer (sm : DeviceStateMachine) : DeviceStateMachine :=
  set_motionStoppedTime 0%Z sm.

Definition isParkingTimerExpired (clk : Clock) (sm : DeviceStateMachine) : bool :=
  if decide (motionStoppedTime_ sm = 0%Z) then false
  else (PARKING_TIMEOUT <=? now clk - motionStoppedTime_ sm)%Z.

Definition transitionTo (clk : Clock) (newState : DeviceState.t)
    (sm : DeviceStateMachine) (bus : EventBus) : DeviceStateMachine * EventBus :=
  let oldState := currentState_ sm in
  let sm' := set_state newState sm in
  let bus' :=
    match newState with
    | DeviceState.Driving =>
        if decide (oldState <> DeviceState.Driving)
        then emitTrackerEvent clk (if ignitionOn_ sm then IgnitionOn else MotionStart) ∅ bus
        else bus
    | DeviceState.Parked =>
        if decide (oldState = DeviceState.Driving)
        then emitTrackerEvent clk (if ignitionOn_ sm then MotionStop else IgnitionOff) ∅ bus
        else bus
    | DeviceState.Idle =>
        if decide (oldState <> DeviceState.Idle)
        then emitTrackerEvent clk MotionStop ∅ bus
        else bus
    | DeviceState.LowBattery => emitTrackerEvent clk LowBattery ∅ bus
    | DeviceState.Offline => bus
    end in
  (sm', bus').

Definition is_low (pct : float) : bool := PrimFloat.ltb pct LOW_BATTERY_THRESHOLD.

(** The [switch] of [processEvent]: the new state, and the machine
    after the parking-timer calls of the branch taken. *)
Definition next_state (clk : Clock) (event : DeviceEvent.t)
    (sm : DeviceStateMachine) : DeviceState.t * DeviceStateMachine :=
  match currentState_ sm with
  | DeviceState.Idle =>
      match event with
      | DeviceEvent.IgnitionOn => (DeviceState.Driving, sm)
      | DeviceEvent.BatteryLow => (DeviceState.LowBattery, sm)
      | DeviceEvent.ConnectionLost => (DeviceState.Offline, sm)
      | _ => (DeviceState.Idle, sm)
      end
  | DeviceState.Driving =>
      match event with
      | DeviceEvent.IgnitionOff | DeviceEvent.MotionStopped =>
          (DeviceState.Parked, startParkingTimer clk sm)
      | DeviceEvent.BatteryLow => (DeviceState.LowBattery, sm)
      | DeviceEvent.ConnectionLost => (DeviceState.Offline, sm)
      | _ => (DeviceState.Driving, sm)
      end
  | DeviceState.Parked =>
      match event with
      | DeviceEvent.IgnitionOn | DeviceEvent.MotionDetected =>
          (DeviceState.Driving, stopParkingTimer sm)
      | DeviceEvent.ParkingTimerExpired => (DeviceState.Idle, sm)
      | DeviceEvent.BatteryLow => (DeviceState.LowBattery, sm)
      | DeviceEvent.ConnectionLost => (DeviceState.Offline, sm)
      | _ => (DeviceState.Parked, sm)
      end
  | DeviceState.LowBattery =>
      match event with
      | DeviceEvent.BatteryNormal =>
          (if ignitionOn_ sm then DeviceState.Driving else DeviceState.Idle, sm)
      | DeviceEvent.ConnectionLost => (DeviceState.Offline, sm)
      | _ => (DeviceState.LowBattery, sm)
      end
  | DeviceState.Offline =>
      match event with
      | DeviceEvent.ConnectionRestored =>
          (if is_low (batteryPercentage_ sm) then DeviceState.LowBattery
           else if ignitionOn_ sm && inMotion_ sm then DeviceState.Driving
           else if ignitionOn_ sm || inMotion_ sm then DeviceState.Parked
           else DeviceState.Idle, sm)
      | _ => (DeviceState.Offline, sm)
      end
  end.

Definition processEvent (clk : Clock) (event : DeviceEvent.t)
    (sm : DeviceStateMachine) (bus : EventBus) : DeviceStateMachine * EventBus :=
  let '(newState, sm1) := next_state clk event sm in
  if decide (newState <> currentState_ sm1)
  then transitionTo clk newState sm1 bus
  else (sm1, bus).

Definition setIgnition (clk : Clock) (on : bool)
    (sm : DeviceStateMachine) (bus : EventBus) : DeviceStateMachine * EventBus :=
  let sm1 := mkDeviceStateMachine (currentState_ sm) on (inMotion_ sm) (connected_ sm)
               (batteryPercentage_ sm) (motionStoppedTime_ sm) in
  processEvent clk (if on then DeviceEvent.IgnitionOn else DeviceEvent.IgnitionOff) sm1 bus.

Definition setMotion (clk : Clock) (inMotion : bool)
    (sm : DeviceStateMachine) (bus : EventBus) : DeviceStateMachine * EventBus :=
  let sm1 := mkDeviceStateMachine (currentState_ sm) (ignitionOn_ sm) inMotion (connected_ sm)
               (batteryPercentage_ sm) (motionStoppedTime_ sm) in
  if inMotion then processEvent clk DeviceEvent.MotionDetected sm1 bus
  else processEvent clk DeviceEvent.MotionStopped (set_motionStoppedTime (now clk) sm1) bus.

Definition setBatteryLevel (clk : Clock) (percentage : float)
    (sm : DeviceStateMachine) (bus : EventBus) : DeviceStateMachine * EventBus :=
  let wasLow := is_low (batteryPercentage_ sm) in
  let sm1 := mkDeviceStateMachine (currentState_ sm) (ignitionOn_ sm) (inMotion_ sm)
               (connected_ sm) percentage (motionStoppedTime_ sm) in
  let isLow := is_low percentage in
  if negb wasLow && isLow then processEvent clk DeviceEvent.BatteryLow sm1 bus
  else if wasLow && negb isLow then processEvent clk DeviceEvent.BatteryNormal sm1 bus
  else (sm1, bus).

Definition setConnectionStatus (clk : Clock) (connected : bool)
    (sm : DeviceStateMachine) (bus : EventBus) : DeviceStateMachine * EventBus :=
  let wasConnected := connected_ sm in
  let sm1 := mkDeviceStateMachine (currentState_ sm) (ignitionOn_ sm) (inMotion_ sm)
               connected (batteryPercentage_ sm) (motionStoppedTime_ sm) in
  if wasConnected && negb connected then processEvent clk DeviceEvent.ConnectionLost sm1 bus
  else if negb wasConnected && connected then processEvent clk DeviceEvent.ConnectionRestored sm1 bus
  else (sm1, bus).

End Domain.

(** ** domain/TelemetryPipeline.cpp *)

Module Pipeline.

Import Events Ports Domain.

#[local] Open Scope Z_scope.

Record PendingMessage : Type := mkPendingMessage {
  event : Event;
  topic : string;
  payload : string;
  attempts : Z;
  nextRetry : time_point
}.

Record TelemetryPipeline : Type := mkTelemetryPipeline {
  deviceId_ : string;
  running_ : bool;
  retryQueue_ : list PendingMessage;
  lastHeartbeat_ : time_point;
  lastReportedBatteryPct_ : float;
  lastMotionState_ : bool
}.

Definition TelemetryPipeline_init : TelemetryPipeline :=
  mkTelemetryPipeline "" false [] 0 100 false.

(** [retryQueue_.push(msg)] *)
Definition push (msg : PendingMessage) (p : TelemetryPipeline) : TelemetryPipeline :=
  mkTelemetryPipeline (deviceId_ p) (running_ p) (retryQueue_ p ++ [msg])
    (lastHeartbeat_ p) (lastReportedBatteryPct_ p) (lastMotionState_ p).

Definition set_retryQueue (q : list PendingMessage) (p : TelemetryPipeline) : TelemetryPipeline :=
  mkTelemetryPipeline (deviceId_ p) (running_ p) q
    (lastHeartbeat_ p) (lastReportedBatteryPct_ p) (lastMotionState_ p).

Definition set_lastMotionState (b : bool) (p : TelemetryPipeline) : TelemetryPipeline :=
  mkTelemetryPipeline (deviceId_ p) (running_ p) (retryQueue_ p)
    (lastHeartbeat_ p) (lastReportedBatteryPct_ p) b.

Definition set_lastHeartbeat (tp : time_point) (p : TelemetryPipeline) : TelemetryPipeline :=
  mkTelemetryPipeline (deviceId_ p) (running_ p) (retryQueue_ p)
    tp (lastReportedBatteryPct_ p) (lastMotionState_ p).

Definition buildTopic (deviceId : string) (ev : Event) : string :=
  "devices/" +:+ deviceId +:+ "/messages/events/".

Section WithCollaborators.

Context {T : Type} {transport_ops : ITransport T}.

(** [policyEngine_], and [codec_.encode]: the codec's header declares
    no member of that name, so the encoder is a parameter. *)
Variable policyEngine_ : PolicyEngine.
Variable encode : Event -> string.

Definition sendTelemetry (now : time_point) (ev : Event)
    (p : TelemetryPipeline) (tr : T) : TelemetryPipeline * T :=
  if negb (isConnected tr)
  then (push (mkPendingMessage ev (buildTopic (deviceId_ p) ev) (encode ev) 0 now) p, tr)
  else
    let tp := buildTopic (deviceId_ p) ev in
    let pl := encode ev in
    let '(ok, tr') := publish tr tp pl 1 in
    if negb ok
    then (push (mkPendingMessage ev tp pl 1
                  (now + milliseconds (getBackoffDelay policyEngine_ 1))) p, tr')
    else (p, tr').

Definition shouldPublish (ev : Event) (p : TelemetryPipeline) : bool :=
  match eventType ev with
  | Heartbeat => true
  | MotionStart | MotionStop => shouldReportMotionChange policyEngine_
  | LowBattery =>
      shouldReportBatteryLevel policyEngine_ (percentage (battery ev))
                               (lastReportedBatteryPct_ p)
  | _ => true
  end.

Definition onEvent (now : time_point) (ev : Event)
    (p : TelemetryPipeline) (tr : T) : TelemetryPipeline * T :=
  if negb (running_ p) || negb (shouldPublish ev p) then (p, tr)
  else
    let '(p1, tr1) := sendTelemetry now ev p tr in
    match eventType ev with
    | MotionStart => (set_lastMotionState true p1, tr1)
    | MotionStop => (set_lastMotionState false p1, tr1)
    | _ => (p1, tr1)
    end.

(** The [while] loop of [retryFailedMessages] over the queue. *)
Fixpoint retry_loop (now : time_point) (q : list PendingMessage) (tr : T)
    : list PendingMessage * T :=
  match q with
  | [] => ([], tr)
  | msg :: rest =>
      if now <? nextRetry msg then (q, tr)
      else if negb (shouldRetry policyEngine_ (attempts msg))
      then retry_loop now rest tr
      else
        let '(ok, tr') := publish tr (topic msg) (payload msg) 1 in
        if ok then retry_loop now rest tr'
        else
          let n := attempts msg + 1 in
          (mkPendingMessage (event msg) (topic msg) (payload msg) n
             (now + milliseconds (getBackoffDelay policyEngine_ n)) :: rest, tr')
  end.

Definition retryFailedMessages (now : time_point)
    (p : TelemetryPipeline) (tr : T) : TelemetryPipeline * T :=
  match retryQueue_ p with
  | [] => (p, tr)
  | _ :: _ =>
      if negb (isConnected tr) then (p, tr)
      else let '(q, tr') := retry_loop now (retryQueue_ p) tr in
           (set_retryQueue q p, tr')
  end.

(** The heartbeat [processEvents] hands to the bus. *)
Definition heartbeat_event (p : TelemetryPipeline) : Event :=
  with_deviceId (Event_default Heartbeat) (deviceId_ p).

Definition processEvents (now : time_point)
    (p : TelemetryPipeline) (tr : T) (bus : EventBus)
    : TelemetryPipeline * T * EventBus :=
  if negb (running_ p) then (p, tr, bus)
  else
    let '(p1, tr1) := retryFailedMessages now p tr in
    let heartbeatInterval :=
      seconds (getHeartbeatInterval policyEngine_ (lastMotionState_ p1)) in
    if heartbeatInterval <=? now - lastHeartbeat_ p1
    then (set_lastHeartbeat now p1, tr1, bus_publish (heartbeat_event p1) bus)
    else (p1, tr1, bus).

Definition start (deviceId : string) (now : time_point)
    (p : TelemetryPipeline) (bus : EventBus) : TelemetryPipeline * EventBus :=
  (mkTelemetryPipeline deviceId true (retryQueue_ p) now
     (lastReportedBatteryPct_ p) (lastMotionState_ p),
   fold_left (fun b ty => bus_subscribe ty PipelineOnEvent b) all_event_types bus).

Definition stop (p : TelemetryPipeline) (bus : EventBus) : TelemetryPipeline * EventBus :=
  (mkTelemetryPipeline (deviceId_ p) false (retryQueue_ p) (lastHeartbeat_ p)
     (lastReportedBatteryPct_ p) (lastMotionState_ p),
   fold_left (fun b ty => bus_unsubscribe ty b) all_event_types bus).

(** [EventBus::processEvents]: the queue is drained in order and every
    event goes to the handlers of its type.  The handlers of the core
    publish nothing on the bus, so the loop is a pass over the queue. *)
Definition dispatch (now : time_point) (ev : Event) (hs : list Handler)
    (pt : TelemetryPipeline * T) : TelemetryPipeline * T :=
  fold_left (fun acc h => match h with
                          | PipelineOnEvent => onEvent now ev (fst acc) (snd acc)
                          end) hs pt.

Definition bus_processEvents (now : time_point) (bus : EventBus)
    (p : TelemetryPipeline) (tr : T) : EventBus * TelemetryPipeline * T :=
  if processing_ bus then (bus, p, tr)
  else
    let '(p', tr') :=
      fold_left (fun acc ev => dispatch now ev (handlers_ bus (eventType ev)) acc)
                (eventQueue_ bus) (p, tr) in
    (mkEventBus (handlers_ bus) [] false, p', tr').

End WithCollaborators.

End Pipeline.

(** ** IMqttClient.hpp *)

Module Mqtt.

Record MqttMessage : Set := mkMqttMessage {
  topic : string;
  payload : string;
  qos : Z;
  retained : bool
}.

Record TlsConfig : Set := mkTlsConfig {
  certPath : string;
  keyPath : string;
  caPath : string;
  verifyServer : bool
}.

(** [IMqttClient], for a client whose state has type [M].  A call
    returns the client after the call next to its result; callbacks
    reach the core as inputs of their own. *)
Class IMqttClient (M : Type) : Type := {
  connect : M -> string -> Z -> string -> string -> string -> bool * M;
  connectWithTls : M -> string -> Z -> string -> string -> TlsConfig -> bool * M;
  disconnect : M -> M;
  isConnected : M -> bool;
  publish : M -> string -> string -> Z -> bool -> bool * M;
  subscribe : M -> string -> Z -> bool * M;
  unsubscribe : M -> string -> bool * M;
  processEvents : M -> M
}.

End Mqtt.

(** ** net/mqtt/PahoMqttClient.cpp: the offline queue *)

Module PahoMqttClient.

Import Mqtt.

Definition kMaxOfflineQueueSize : nat := 100.

(** [queueMessage]: one [pop] when the queue is full, then [push]. *)
Definition queueMessage (msg : MqttMessage) (offlineQueue_ : list MqttMessage)
    : list MqttMessage :=
  (if (kMaxOfflineQueueSize <=? length offlineQueue_)%nat
   then tail offlineQueue_ else offlineQueue_) ++ [msg].

Record t : Set := mk {
  connected_ : bool;
  offlineQueue_ : list MqttMessage
}.

(** [publish] while disconnected stores the message and reports
    failure; [sent] is what MQTTAsync_sendMessage answers otherwise. *)
Definition paho_publish (sent : bool) (tp pl : string) (q : Z) (r : bool) (c : t) : bool * t :=
  if negb (connected_ c)
  then (false, mk false (queueMessage (mkMqttMessage tp pl q r) (offlineQueue_ c)))
  else (sent, c).

(** The topic [publish] hands to the library: a topic that contains
    "messages/events" gets the content type and encoding properties. *)
Definition iotHubTopic (tp : string) : string :=
  match Str.find tp "messages/events" 0 with
  | Some _ => tp +:+ "$.ct=application%2Fjson&$.ce=utf-8"
  | None => tp
  end.

(** The client over the library: [sendMessage_] holds the messages
    handed to MQTTAsync_sendMessage, oldest first, and [rc n] tells
    whether the library accepts the message handed to it after [n]
    others. *)
Record wire : Set := mkWire {
  client_ : t;
  sendMessage_ : list MqttMessage
}.

Definition publish (rc : nat -> bool) (tp pl : string) (q : Z) (r : bool) (w : wire)
    : bool * wire :=
  let '(ok, c) := paho_publish (rc (length (sendMessage_ w))) tp pl q r (client_ w) in
  (ok, mkWire c (if connected_ (client_ w)
                 then sendMessage_ w ++ [mkMqttMessage (iotHubTopic tp) pl q r]
                 else sendMessage_ w)).

(** The [while] loop of [flushOfflineQueue] over the queue [q] of [w]:
    [publish] on the front message, then [pop]. *)
Fixpoint flush_loop (rc : nat -> bool) (q : list MqttMessage) (w : wire) : wire :=
  match q with
  | [] => w
  | msg :: rest =>
      if connected_ (client_ w)
      then
        let w1 := snd (publish rc (topic msg) (payload msg) (qos msg) (retained msg) w) in
        flush_loop rc rest (mkWire (mk (connected_ (client_ w1)) rest) (sendMessage_ w1))
      else w
  end.

Definition flushOfflineQueue (rc : nat -> bool) (w : wire) : wire :=
  flush_loop rc (offlineQueue_ (client_ w)) w.

Definition publish_all (rc : nat -> bool) (msgs : list MqttMessage) (w : wire) : wire :=
  fold_left (fun acc m => snd (publish rc (topic m) (payload m) (qos m) (retained m) acc))
            msgs w.

(** [onConnected]: the flag, the connection callback, the flush.  What
    the callback does to the client is publish [callback_publishes]. *)
Definition onConnected (rc : nat -> bool) (callback_publishes : list MqttMessage)
    (w : wire) : wire :=
  flushOfflineQueue rc
    (publish_all rc callback_publishes
       (mkWire (mk true (offlineQueue_ (client_ w))) (sendMessage_ w))).

(** [onConnectFailure], [connectionLost] and [onDisconnected] *)
Definition connectionLost (w : wire) : wire :=
  mkWire (mk false (offlineQueue_ (client_ w))) (sendMessage_ w).

End PahoMqttClient.

(** A client that records the calls made on it and answers them from
    two flags; the concrete client of the examples. *)

Module RecordingClient.

Import Mqtt.

Inductive Call : Set :=
  | CConnect (host : string) (port : Z) (clientId username : string)
  | CDisconnect
  | CPublish (tp pl : string) (q : Z) (r : bool)
  | CSubscribe (tp : string) (q : Z)
  | CUnsubscribe (tp : string).

Record t : Set := mk {
  connected_ : bool;
  accepts_ : bool;
  calls_ : list Call
}.

Definition record (c : Call) (m : t) : t :=
  mk (connected_ m) (accepts_ m) (calls_ m ++ [c]).

#[global] Instance RecordingClient_IMqttClient : IMqttClient t := {
  connect m h p cid u _ := (accepts_ m, record (CConnect h p cid u) m);
  connectWithTls m h p cid u _ := (accepts_ m, record (CConnect h p cid u) m);
  disconnect m := mk false (accepts_ m) (calls_ m ++ [CDisconnect]);
  isConnected := connected_;
  publish m tp pl q r := (accepts_ m, record (CPublish tp pl q r) m);
  subscribe m tp q := (accepts_ m, record (CSubscribe tp q) m);
  unsubscribe m tp := (accepts_ m, record (CUnsubscribe tp) m);
  processEvents m := m
}.

End RecordingClient.

(** ** DpsProvisioning.cpp *)

Module DpsProvisioning.

Import Ports Mqtt.

#[local] Open Scope Z_scope.

Inductive State : Set :=
  | Idle
  | ConnectingToDps
  | SendingRegistration
  | WaitingForAssignment
  | Completed
  | Failed.

#[global] Instance State_eq_dec : EqDecision State.
Proof. solve_decision. Defined.

Record DpsConfig : Set := mkDpsConfig {
  idScope : string;
  registrationId : string;
  globalEndpoint : string;
  port : Z;
  tlsConfig : TlsConfig;
  timeout : Z                         (* seconds *)
}.

Record ProvisioningResult : Set := mkProvisioningResult {
  success : bool;
  assignedHub : string;
  deviceId : string;
  errorMessage : string;
  enrollmentGroupId : string
}.

(** [ProvisioningResult result; result.success = false;
     result.errorMessage = msg;] *)
Definition failure (msg : string) : ProvisioningResult :=
  mkProvisioningResult false "" "" msg "".

Definition kDpsApiVersion : string := "2019-03-31".
Definition kPollingInterval : Z := seconds 2.

(** The double-quote character, for the JSON text the engine builds
    and searches. *)
Definition dquote : string := String (ascii_of_nat 34) EmptyString.

Section WithClient.

Context {M : Type} {client_ops : IMqttClient M}.

(** The engine.  [callback_] is the completion callback: whether one
    was given, and [delivered_], the results it has been called with,
    oldest first. *)
Record t : Type := mk {
  mqttClient_ : M;
  state_ : State;
  config_ : DpsConfig;
  callback_ : bool;
  delivered_ : list ProvisioningResult;
  operationId_ : string;
  startTime_ : time_point;
  lastPoll_ : time_point
}.

Definition set_client (m : M) (d : t) : t :=
  mk m (state_ d) (config_ d) (callback_ d) (delivered_ d)
     (operationId_ d) (startTime_ d) (lastPoll_ d).

Definition set_state (s : State) (d : t) : t :=
  mk (mqttClient_ d) s (config_ d) (callback_ d) (delivered_ d)
     (operationId_ d) (startTime_ d) (lastPoll_ d).

Definition completeProvisioning (result : ProvisioningResult) (d : t) : t :=
  mk (disconnect (mqttClient_ d))
     (if success result then Completed else Failed)
     (config_ d) (callback_ d)
     (if callback_ d then delivered_ d ++ [result] else delivered_ d)
     (operationId_ d) (startTime_ d) (lastPoll_ d).

Definition startProvisioning (now : time_point) (config : DpsConfig)
    (callback : bool) (d : t) : t :=
  let username := idScope config +:+ "/registrations/" +:+ registrationId config
                  +:+ "/api-version=" +:+ kDpsApiVersion in
  let '(connected, m) :=
    connectWithTls (mqttClient_ d) (globalEndpoint config) (port config)
                   (registrationId config) username (tlsConfig config) in
  let d1 := mk m ConnectingToDps config callback (delivered_ d)
               (operationId_ d) now now in
  if negb connected
  then completeProvisioning (failure "Failed to initiate connection to DPS") d1
  else d1.

Definition isTimedOut (now : time_point) (d : t) : bool :=
  match state_ d with
  | Idle | Completed | Failed => false
  | _ => seconds (timeout (config_ d)) <? now - startTime_ d
  end.

Definition buildRegistrationTopic : string :=
  "$dps/registrations/PUT/iotdps-register/?$rid=1".

Definition buildPollingTopic (d : t) : string :=
  "$dps/registrations/GET/iotdps-get-operationstatus/?$rid=2&operationId="
  +:+ operationId_ d.

Definition pollAssignmentStatus (d : t) : t :=
  if negb (bool_decide (state_ d = WaitingForAssignment))
     || bool_decide (operationId_ d = "")
  then d
  else set_client (snd (publish (mqttClient_ d) (buildPollingTopic d) "" 1 false)) d.

Definition processEvents (now : time_point) (d : t) : t :=
  let d1 := set_client (Mqtt.processEvents (mqttClient_ d)) d in
  if isTimedOut now d1
  then completeProvisioning (failure "Provisioning timeout") d1
  else if bool_decide (state_ d1 = WaitingForAssignment)
  then
    if kPollingInterval <=? now - lastPoll_ d1
    then let d2 := pollAssignmentStatus d1 in
         mk (mqttClient_ d2) (state_ d2) (config_ d2) (callback_ d2)
            (delivered_ d2) (operationId_ d2) (startTime_ d2) now
    else d1
  else d1.

Definition cancel (d : t) : t :=
  match state_ d with
  | Idle | Completed | Failed => d
  | _ => set_state Failed (set_client (disconnect (mqttClient_ d)) d)
  end.

Definition onDpsConnected (connected : bool) (reason : string) (d : t) : t :=
  if negb (bool_decide (state_ d = ConnectingToDps)) then d
  else if connected then
    let m1 := snd (subscribe (mqttClient_ d) "$dps/registrations/res/#" 1) in
    let registrationPayload :=
      "{" +:+ dquote +:+ "registrationId" +:+ dquote +:+ ":" +:+ dquote
      +:+ registrationId (config_ d) +:+ dquote +:+ "}" in
    let '(published, m2) := publish m1 buildRegistrationTopic registrationPayload 1 false in
    let d1 := set_client m2 d in
    if published then set_state SendingRegistration d1
    else completeProvisioning (failure "Failed to send registration request") d1
  else completeProvisioning (failure ("Failed to connect to DPS: " +:+ reason)) d.

Definition extractJsonValue (json key : string) : string :=
  let searchKey := dquote +:+ key +:+ dquote +:+ ":" +:+ dquote in
  match Str.find json searchKey 0 with
  | None => ""
  | Some start =>
      let start := (start + String.length searchKey)%nat in
      match Str.find json dquote start with
      | None => ""
      | Some e => Str.substr json start (e - start)
      end
  end.

Definition handleAssignmentResponse (pl : string) (d : t) : t :=
  let status := extractJsonValue pl "status" in
  if bool_decide (status = "assigned") then
    let hub := extractJsonValue pl "assignedHub" in
    let dev := extractJsonValue pl "deviceId" in
    if negb (bool_decide (hub = "")) && negb (bool_decide (dev = ""))
    then completeProvisioning (mkProvisioningResult true hub dev "" "") d
    else completeProvisioning (failure "Assignment response missing required fields") d
  else if bool_decide (status = "assigning") then d
  else completeProvisioning (failure ("Assignment failed with status: " +:+ status)) d.

Definition handleRegistrationResponse (pl : string) (d : t) : t :=
  let status := extractJsonValue pl "status" in
  if bool_decide (status = "assigning") then
    mk (mqttClient_ d) WaitingForAssignment (config_ d) (callback_ d)
       (delivered_ d) (extractJsonValue pl "operationId")
       (startTime_ d) (lastPoll_ d)
  else if bool_decide (status = "assigned") then handleAssignmentResponse pl d
  else completeProvisioning (failure ("Registration failed with status: " +:+ status)) d.

Definition onDpsMessage (message : MqttMessage) (d : t) : t :=
  if Str.starts_with "$dps/registrations/res/" (Mqtt.topic message) then
    match state_ d with
    | SendingRegistration | WaitingForAssignment =>
        handleRegistrationResponse (Mqtt.payload message) d
    | _ => d
    end
  else d.

(** What can happen to an engine after [startProvisioning]: the
    driver's calls and the client's callbacks, in any order. *)
Inductive Input : Set :=
  | ProcessEvents (now : time_point)
  | Cancel
  | OnDpsConnected (connected : bool) (reason : string)
  | OnDpsMessage (message : MqttMessage).

Definition step (d : t) (i : Input) : t :=
  match i with
  | ProcessEvents now => processEvents now d
  | Cancel => cancel d
  | OnDpsConnected c r => onDpsConnected c r d
  | OnDpsMessage m => onDpsMessage m d
  end.

Definition idle (m : M) (config : DpsConfig) : t :=
  mk m Idle config false [] "" 0 0.

(** One provisioning run: a fresh engine over client [m], started at
    [now] with a callback, then fed [inputs]. *)
Definition run (m : M) (now : time_point) (config : DpsConfig) (inputs : list Input) : t :=
  fold_left step inputs (startProvisioning now config true (idle m config)).

Definition is_cancel (i : Input) : bool :=
  match i with Cancel => true | _ => false end.

End WithClient.

Arguments t M : clear implicits.

End DpsProvisioning.

(** ** DpsConnectionManager.cpp: the operations on the hub client *)

Module DpsConnectionManager.

Import Mqtt.

Inductive ConnectionState : Set :=
  | Disconnected
  | Provisioning
  | ConnectingToHub
  | Connected
  | Failed.

#[global] Instance ConnectionState_eq_dec : EqDecision ConnectionState.
Proof. solve_decision. Defined.

Section WithClient.

Context {M : Type} {client_ops : IMqttClient M}.

(** [hubClient_] is a shared pointer, null as [None]. *)
Record t : Type := mk {
  hubClient_ : option M;
  state_ : ConnectionState;
  assignedHub_ : string;
  deviceId_ : string
}.

Definition set_hub (m : M) (c : t) : t :=
  mk (Some m) (state_ c) (assignedHub_ c) (deviceId_ c).

Definition isConnected (c : t) : bool :=
  bool_decide (state_ c = Connected) &&
  match hubClient_ c with
  | Some hub => Mqtt.isConnected hub
  | None => false
  end.

Definition buildDeviceTelemetryTopic (c : t) : string :=
  "devices/" +:+ deviceId_ c +:+ "/messages/events/".

Definition buildDeviceCommandTopic (c : t) : string :=
  "devices/" +:+ deviceId_ c +:+ "/messages/devicebound/#".

(** The call on the hub client that [publish], [subscribe] and
    [unsubscribe] end with; [isConnected] has checked the pointer. *)
Definition on_hub (call : M -> bool * M) (c : t) : bool * t :=
  match hubClient_ c with
  | Some hub => let '(r, hub') := call hub in (r, set_hub hub' c)
  | None => (false, c)
  end.

Definition publish (tp pl : string) (q : Z) (r : bool) (c : t) : bool * t :=
  if negb (isConnected c) then (false, c)
  else
    let fullTopic := if negb (Str.starts_with "devices/" tp)
                     then buildDeviceTelemetryTopic c +:+ tp else tp in
    on_hub (fun hub => Mqtt.publish hub fullTopic pl q r) c.

Definition subscribe (tp : string) (q : Z) (c : t) : bool * t :=
  if negb (isConnected c) then (false, c)
  else
    let fullTopic := if negb (Str.starts_with "devices/" tp)
                     then buildDeviceCommandTopic c else tp in
    on_hub (fun hub => Mqtt.subscribe hub fullTopic q) c.

Definition unsubscribe (tp : string) (c : t) : bool * t :=
  if negb (isConnected c) then (false, c)
  else on_hub (fun hub => Mqtt.unsubscribe hub tp) c.

End WithClient.

Arguments t M : clear implicits.

(** *** The connection workflow *)

Record DeviceConfig : Set := mkDeviceConfig {
  imei : string;
  idScope : string;
  deviceCertPath : string;
  deviceKeyPath : string;
  deviceChainPath : string;
  rootCaPath : string;
  verifyServerCert : bool;
  timeout : Z                         (* seconds *)
}.

(** [fs_exists] is [std::filesystem::exists]. *)
Definition validateCertificatePaths (fs_exists : string -> bool) (config : DeviceConfig)
    : bool :=
  if negb (fs_exists (deviceCertPath config)) then false
  else if negb (fs_exists (deviceKeyPath config)) then false
  else if negb (fs_exists (rootCaPath config)) then false
  else true.

Definition tls_of (config : DeviceConfig) : TlsConfig :=
  mkTlsConfig (deviceCertPath config) (deviceKeyPath config) (rootCaPath config)
              (verifyServerCert config).

(** [DpsConfig dpsConfig;] with the four members [connectToIotHub]
    assigns; the others keep the defaults of the struct. *)
Definition dpsConfig_of (config : DeviceConfig) : DpsProvisioning.DpsConfig :=
  DpsProvisioning.mkDpsConfig (idScope config) (imei config)
    "global.azure-devices-provisioning.net" 8883 (tls_of config) 120.

Section Workflow.

Context {M : Type} {client_ops : IMqttClient M}.

(** The manager.  [core_] holds the hub client and the state,
    [provisioningClient_] is the client the engines share, and
    [dpsProvisioning_] the engine, null as [None].  A connection
    callback is known by a number, an empty one is [None];
    [callbackCalls_] lists the calls made to callbacks, oldest first.
    [hubCallback_] tells whether the hub client has been given the
    manager's connection callback. *)
Record manager : Type := mkManager {
  core_ : t M;
  provisioningClient_ : M;
  dpsProvisioning_ : option (DpsProvisioning.t M);
  config_ : DeviceConfig;
  connectionCallback_ : option nat;
  callbackCalls_ : list (nat * bool * string);
  hubCallback_ : bool
}.

Definition set_core (c : t M) (m : manager) : manager :=
  mkManager c (provisioningClient_ m) (dpsProvisioning_ m) (config_ m)
            (connectionCallback_ m) (callbackCalls_ m) (hubCallback_ m).

Definition set_connection_state (s : ConnectionState) (m : manager) : manager :=
  set_core (mk (hubClient_ (core_ m)) s (assignedHub_ (core_ m)) (deviceId_ (core_ m))) m.

(** [if (callback) callback(connected, reason);] *)
Definition call (callback : option nat) (connected : bool) (reason : string)
    (m : manager) : manager :=
  match callback with
  | Some k =>
      mkManager (core_ m) (provisioningClient_ m) (dpsProvisioning_ m) (config_ m)
                (connectionCallback_ m) (callbackCalls_ m ++ [(k, connected, reason)])
                (hubCallback_ m)
  | None => m
  end.

(** The engine after one of its operations; the client it works on is
    the shared one. *)
Definition set_engine (e : option (DpsProvisioning.t M)) (m : manager) : manager :=
  mkManager (core_ m)
            (match e with
             | Some e => DpsProvisioning.mqttClient_ e
             | None => provisioningClient_ m
             end)
            e (config_ m) (connectionCallback_ m) (callbackCalls_ m) (hubCallback_ m).

Definition onProvisioningComplete (result : DpsProvisioning.ProvisioningResult)
    (m : manager) : manager :=
  let m1 :=
    if DpsProvisioning.success result then
      let c1 := mk (hubClient_ (core_ m)) ConnectingToHub
                   (DpsProvisioning.assignedHub result) (DpsProvisioning.deviceId result) in
      let m0 := mkManager c1 (provisioningClient_ m) (dpsProvisioning_ m) (config_ m)
                          (connectionCallback_ m) (callbackCalls_ m) true in
      let username := assignedHub_ c1 +:+ "/" +:+ deviceId_ c1 +:+ "/?api-version=2021-04-12" in
      let '(connectionStarted, c2) :=
        on_hub (fun hub => connectWithTls hub (assignedHub_ c1) 8883 (deviceId_ c1)
                                          username (tls_of (config_ m))) c1 in
      if negb connectionStarted
      then call (connectionCallback_ m) false "Failed to initiate connection to IoT Hub"
                (set_connection_state Failed (set_core c2 m0))
      else set_core c2 m0
    else
      call (connectionCallback_ m) false
           ("DPS provisioning failed: " +:+ DpsProvisioning.errorMessage result)
           (set_connection_state Failed m) in
  set_engine None m1.

(** The manager after the engine has run one operation: the engine's
    completion callback is [onProvisioningComplete], called last in the
    operation. *)
Definition after_engine (e : DpsProvisioning.t M) (m : manager) : manager :=
  fold_left (fun acc result => onProvisioningComplete result acc)
            (DpsProvisioning.delivered_ e) (set_engine (Some e) m).

Definition connectToIotHub (fs_exists : string -> bool) (now : Ports.time_point)
    (config : DeviceConfig) (callback : option nat) (m : manager) : manager :=
  if negb (bool_decide (state_ (core_ m) = Disconnected))
  then call callback false "Connection already in progress or established" m
  else if negb (validateCertificatePaths fs_exists config)
  then call callback false "Invalid certificate paths" m
  else
    let m1 := mkManager (mk (hubClient_ (core_ m)) Provisioning
                            (assignedHub_ (core_ m)) (deviceId_ (core_ m)))
                        (provisioningClient_ m) (dpsProvisioning_ m) config
                        callback (callbackCalls_ m) (hubCallback_ m) in
    let engine := DpsProvisioning.idle (provisioningClient_ m1) (dpsConfig_of config) in
    after_engine (DpsProvisioning.startProvisioning now (dpsConfig_of config) true engine) m1.

Definition disconnect (m : manager) : manager :=
  let m1 := set_engine (option_map DpsProvisioning.cancel (dpsProvisioning_ m)) m in
  let hub := match hubClient_ (core_ m1) with
             | Some hub => Some (if Mqtt.isConnected hub then Mqtt.disconnect hub else hub)
             | None => None
             end in
  set_core (mk hub Disconnected "" "") m1.

Definition processEvents (now : Ports.time_point) (m : manager) : manager :=
  match dpsProvisioning_ m, state_ (core_ m) with
  | Some e, Provisioning => after_engine (DpsProvisioning.processEvents now e) m
  | _, (ConnectingToHub | Connected) =>
      match hubClient_ (core_ m) with
      | Some hub =>
          set_core (mk (Some (Mqtt.processEvents hub)) (state_ (core_ m))
                       (assignedHub_ (core_ m)) (deviceId_ (core_ m))) m
      | None => m
      end
  | _, _ => m
  end.

Definition onHubConnected (connected : bool) (reason : string) (m : manager) : manager :=
  if connected then
    let m1 := set_connection_state Connected m in
    let c2 := snd (on_hub (fun hub => Mqtt.subscribe hub (buildDeviceCommandTopic (core_ m1)) 1)
                          (core_ m1)) in
    call (connectionCallback_ m) true "Connected to IoT Hub via DPS" (set_core c2 m1)
  else
    call (connectionCallback_ m) false ("Failed to connect to IoT Hub: " +:+ reason)
         (set_connection_state Failed m).

(** The calls on a manager and the callbacks of its two clients.  The
    callbacks of the provisioning client belong to the engine and reach
    it while there is one; the hub client calls back once it has been
    given the callback. *)
Inductive Input : Type :=
  | ConnectToIotHub (fs_exists : string -> bool) (now : Ports.time_point)
                    (config : DeviceConfig) (callback : option nat)
  | Disconnect
  | ProcessEvents (now : Ports.time_point)
  | OnDpsConnected (connected : bool) (reason : string)
  | OnDpsMessage (message : MqttMessage)
  | OnHubConnected (connected : bool) (reason : string)
  | Publish (tp pl : string) (q : Z) (r : bool)
  | Subscribe (tp : string) (q : Z)
  | Unsubscribe (tp : string).

Definition step (m : manager) (i : Input) : manager :=
  match i with
  | ConnectToIotHub fs_exists now config callback =>
      connectToIotHub fs_exists now config callback m
  | Disconnect => disconnect m
  | ProcessEvents now => processEvents now m
  | OnDpsConnected connected reason =>
      match dpsProvisioning_ m with
      | Some e => after_engine (DpsProvisioning.onDpsConnected connected reason e) m
      | None => m
      end
  | OnDpsMessage message =>
      match dpsProvisioning_ m with
      | Some e => after_engine (DpsProvisioning.onDpsMessage message e) m
      | None => m
      end
  | OnHubConnected connected reason =>
      if hubCallback_ m then onHubConnected connected reason m else m
  | Publish tp pl q r => set_core (snd (publish tp pl q r (core_ m))) m
  | Subscribe tp q => set_core (snd (subscribe tp q (core_ m))) m
  | Unsubscribe tp => set_core (snd (unsubscribe tp (core_ m))) m
  end.

(** [DpsConnectionManager(mqttClient)]: the hub client is made here. *)
Definition make (mqttClient hubClient : M) : manager :=
  mkManager (mk (Some hubClient) Disconnected "" "") mqttClient None
            (mkDeviceConfig "" "" "" "" "" "" true 120) None [] false.

Definition is_disconnect (i : Input) : bool :=
  match i with Disconnect => true | _ => false end.

End Workflow.

Arguments manager M : clear implicits.
Arguments Input : clear implicits.

End DpsConnectionManager.

(** ** TwinHandler.cpp: applying desired properties *)

Module TwinHandler.

Import Json.

Inductive TwinStatus : Set :=
  | Success
  | JsonParseError
  | FileWriteError
  | MqttError
  | InvalidResponse.

Record TwinUpdateResult : Set := mkTwinUpdateResult {
  status : TwinStatus;
  errorMessage : string;
  configVersion : string;
  appliedAt : string;
  hasChanges : bool
}.

Definition kConfigFilePath : string := "./config_applied.json".

(** The handler's configuration state, with the configuration the
    file it writes holds: the JSON value stands for its pretty-printed
    text, and [None] is a file that holds no configuration, before the
    first write and after a write that failed once the file was open,
    which has truncated it. *)
Record t : Type := mk {
  deviceId_ : string;
  initialized_ : bool;
  currentConfigVersion_ : string;
  configFile_ : option json
}.

Definition getConfigVersion (h : t) : string := currentConfigVersion_ h.

(** [std::to_string] of an [int]. *)
Definition to_string (z : Z) : string := pretty z.

(** The version the desired properties carry; [None] is the type_error
    of [get<int>()]. *)
Definition extract_version (desired : json) : option string :=
  if contains desired "$version" then
    v ← at_key desired "$version";
    z ← get_int v;
    Some (to_string z)
  else if contains desired "config" &&
          match at_key desired "config" with
          | Some cfg => contains cfg "config_version"
          | None => false
          end then
    cfg ← at_key desired "config";
    v ← at_key cfg "config_version";
    z ← get_int v;
    Some (to_string z)
  else Some "unknown".

(** What the handler reads from its surroundings during one apply:
    the timestamp, whether the configuration file opens for writing,
    whether the text then written reaches the file, and the text of a
    type_error. *)
Record Env : Set := mkEnv {
  getCurrentTimestamp : string;
  file_opens : bool;
  file_writes : bool;
  what : string
}.

Definition applyDesiredAndWriteFile (env : Env) (desired : json) (h : t)
    : TwinUpdateResult * t :=
  let at_ := getCurrentTimestamp env in
  match extract_version desired with
  | None =>
      (mkTwinUpdateResult JsonParseError
         ("JSON type error in desired properties: " +:+ what env) "" at_ false, h)
  | Some version =>
      let changed := negb (bool_decide (currentConfigVersion_ h = version)) in
      let h1 := mk (deviceId_ h) (initialized_ h)
                   (if changed then version else currentConfigVersion_ h)
                   (configFile_ h) in
      match (c1 ← erase desired "$version"; erase c1 "$metadata") with
      | None =>
          (mkTwinUpdateResult JsonParseError
             ("JSON type error in desired properties: " +:+ what env)
             version at_ changed, h1)
      | Some cleanConfig =>
          if negb (file_opens env)
          then (mkTwinUpdateResult FileWriteError
                  ("Failed to open configuration file: " +:+ kConfigFilePath)
                  version at_ changed, h1)
          else (mkTwinUpdateResult Success "" version at_ changed,
                mk (deviceId_ h1) (initialized_ h1) (currentConfigVersion_ h1)
                   (if file_writes env then Some cleanConfig else None))
      end
  end.

#[global] Instance TwinStatus_eq_dec : EqDecision TwinStatus.
Proof. solve_decision. Defined.

Definition kErrorFilePath : string := "./config_error.json".
Definition kTwinResponseTopic : string := "$iothub/twin/res/".
Definition kTwinPatchTopic : string := "$iothub/twin/PATCH/properties/desired/".
Definition kTwinGetTopic : string := "$iothub/twin/GET/".
Definition kTwinReportedTopic : string := "$iothub/twin/PATCH/properties/reported/".

(** [{{"applied_at", result.appliedAt}, {"status", ... ? "ok" : "error"}}] *)
Definition ack_header (result : TwinUpdateResult) : gmap string json :=
  <["status" := JString (if decide (status result = Success) then "ok" else "error")]>
  (<["applied_at" := JString (appliedAt result)]> ∅).

(** [{{"applied_at", result.appliedAt}, {"status", "ok"}}] *)
Definition section_ack (result : TwinUpdateResult) : json :=
  JObject (<["status" := JString "ok"]> (<["applied_at" := JString (appliedAt result)]> ∅)).

(** [if (src.contains(key)) dst[key] = src[key];] *)
Definition copy_member (key : string) (src : json) (dst : gmap string json)
    : gmap string json :=
  match at_key src key with
  | Some v => <[key := v]> dst
  | None => dst
  end.

Definition createDefaultReportedAck (appliedConfig : json) (result : TwinUpdateResult)
    : json :=
  let reportedAck : gmap string json :=
    match at_key appliedConfig "config" with
    | Some cfg =>
        let a0 := ack_header result in
        let a1 := if negb (bool_decide (configVersion result = "")) &&
                     negb (bool_decide (configVersion result = "unknown"))
                  then <["config_version" := JString (configVersion result)]> a0
                  else a0 in
        let a2 := copy_member "reporting_interval_sec" cfg a1 in
        let a3 := copy_member "feature_high_rate" cfg a2 in
        <["config" := JObject a3]> ∅
    | None =>
        let r0 := <["config_version" := JString (configVersion result)]> (ack_header result) in
        let r1 := if contains appliedConfig "reporting"
                  then <["reporting_ack" := section_ack result]> r0 else r0 in
        let r2 := if contains appliedConfig "modes"
                  then <["modes_ack" := section_ack result]> r1 else r1 in
        if contains appliedConfig "ota"
        then <["ota_ack" := section_ack result]> r2 else r2
    end in
  JObject (if decide (status result = Success) then reportedAck
           else <["error" := JString (errorMessage result)]> reportedAck).

Section WithClient.

Context {M : Type} {client_ops : Mqtt.IMqttClient M}.

(** The adapter with its client: the configuration state, the two
    callbacks (whether set, and the calls made to them, oldest first)
    and the text of the error file ([None] until one is written). *)
Record adapter : Type := mkAdapter {
  state_ : t;
  mqttClient_ : M;
  configUpdateCallback_ : bool;
  configUpdates_ : list (TwinUpdateResult * json);
  twinResponseCallback_ : bool;
  twinResponses_ : list (TwinStatus * string);
  errorFile_ : option string
}.

Definition set_client (m : M) (a : adapter) : adapter :=
  mkAdapter (state_ a) m (configUpdateCallback_ a) (configUpdates_ a)
            (twinResponseCallback_ a) (twinResponses_ a) (errorFile_ a).

Definition set_state (h : t) (a : adapter) : adapter :=
  mkAdapter h (mqttClient_ a) (configUpdateCallback_ a) (configUpdates_ a)
            (twinResponseCallback_ a) (twinResponses_ a) (errorFile_ a).

Definition initializeSubscriptions (a : adapter) : bool * adapter :=
  if negb (Mqtt.isConnected (mqttClient_ a)) then (false, a)
  else
    let '(ok1, m1) := Mqtt.subscribe (mqttClient_ a) (kTwinResponseTopic +:+ "#") 0 in
    if negb ok1 then (false, set_client m1 a)
    else
      let '(ok2, m2) := Mqtt.subscribe m1 (kTwinPatchTopic +:+ "#") 0 in
      if negb ok2 then (false, set_client m2 a)
      else (true, set_state (mk (deviceId_ (state_ a)) true
                                (currentConfigVersion_ (state_ a))
                                (configFile_ (state_ a)))
                            (set_client m2 a)).

Definition requestFullTwin (requestId : string) (a : adapter) : bool * adapter :=
  if negb (initialized_ (state_ a)) then (false, a)
  else if negb (Mqtt.isConnected (mqttClient_ a)) then (false, a)
  else
    let '(ok, m) := Mqtt.publish (mqttClient_ a) (kTwinGetTopic +:+ "?$rid=" +:+ requestId)
                                 "" 0 false in
    (ok, set_client m a).

(** [dump indent j] is the library's printer, [None] when it throws
    (a string that is not UTF-8); [-1] is the default indentation. *)
Definition sendReportedAck (dump : Z -> json -> option string) (requestId : string)
    (reportedProperties : json) (a : adapter) : bool * adapter :=
  if negb (Mqtt.isConnected (mqttClient_ a)) then (false, a)
  else
    match dump (-1)%Z reportedProperties with
    | None => (false, a)
    | Some payload =>
        let '(ok, m) :=
          Mqtt.publish (mqttClient_ a) (kTwinReportedTopic +:+ "?$rid=" +:+ requestId)
                       payload 0 false in
        (ok, set_client m a)
    end.

Definition errorJson (env : Env) (rawPayload errorMessage : string) (a : adapter) : json :=
  JObject (<["rawPayload" := JString rawPayload]>
          (<["error" := JString errorMessage]>
          (<["deviceId" := JString (deviceId_ (state_ a))]>
          (<["timestamp" := JString (getCurrentTimestamp env)]> ∅)))).

(** [error_file_opens]: whether the error file opens for writing.  The
    file is truncated when it opens; the text goes in if printing it
    does not throw. *)
Definition writeErrorFile (env : Env) (dump : Z -> json -> option string)
    (error_file_opens : bool) (rawPayload errorMessage : string) (a : adapter) : adapter :=
  if error_file_opens
  then mkAdapter (state_ a) (mqttClient_ a) (configUpdateCallback_ a) (configUpdates_ a)
         (twinResponseCallback_ a) (twinResponses_ a)
         (Some (match dump 2%Z (errorJson env rawPayload errorMessage a) with
                | Some text => text
                | None => ""
                end))
  else a.

(** [processDesiredPatch] on a payload and what the library's parser
    makes of it: [Some] value, or [None] with the text of the
    parse_error.  The callback, when set, returns normally. *)
Definition processDesiredPatch (env : Env) (dump : Z -> json -> option string)
    (error_file_opens : bool) (payload : string) (parsed : option json)
    (parse_what : string) (a : adapter) : adapter :=
  match parsed with
  | None =>
      writeErrorFile env dump error_file_opens payload
        ("Invalid JSON in desired properties PATCH: " +:+ parse_what) a
  | Some desiredPatch =>
      let '(result, h) := applyDesiredAndWriteFile env desiredPatch (state_ a) in
      let a1 := set_state h a in
      let a2 := if decide (status result = Success)
                then snd (sendReportedAck dump "3"
                            (createDefaultReportedAck desiredPatch result) a1)
                else a1 in
      if configUpdateCallback_ a2
      then mkAdapter (state_ a2) (mqttClient_ a2) true
                     (configUpdates_ a2 ++ [(result, desiredPatch)])
                     (twinResponseCallback_ a2) (twinResponses_ a2) (errorFile_ a2)
      else a2
  end.

End WithClient.

Arguments adapter M : clear implicits.

End TwinHandler.
(** ** StateMachine.cpp, Battery.cpp *)

Module StateMachine.

Import Num Events.

Module DeviceState.
Inductive t : Set := Idle | Driving | Parked | LowBattery.
End DeviceState.

#[global] Instance DeviceState_eq_dec : EqDecision DeviceState.t.
Proof. solve_decision. Defined.

Record t : Set := mk {
  currentState_ : DeviceState.t;
  ignitionOn_ : bool;
  inMotion_ : bool;
  batteryPercentage_ : float;
  currentGeofences_ : list string
}.

Definition init : t := mk DeviceState.Idle false false 100 [].

(** A call of [eventEmitter_]: the type and the extras of the event
    handed to it.  Every operation returns the calls it makes, in
    order. *)
Definition Emission : Type := EventType * gmap string string.

Definition transitionTo (s : DeviceState.t) (sm : t) : t :=
  mk s (ignitionOn_ sm) (inMotion_ sm) (batteryPercentage_ sm) (currentGeofences_ sm).

Definition low (pct : float) : bool := PrimFloat.leb pct 20.

(** The state both [processIgnition] and [processMotion] move to. *)
Definition settle (sm : t) : t :=
  if low (batteryPercentage_ sm) then transitionTo DeviceState.LowBattery sm
  else if ignitionOn_ sm && inMotion_ sm then transitionTo DeviceState.Driving sm
  else if ignitionOn_ sm then transitionTo DeviceState.Parked sm
  else transitionTo DeviceState.Idle sm.

Definition processIgnition (on : bool) (sm : t) : t * list Emission :=
  if bool_decide (ignitionOn_ sm = on) then (sm, [])
  else
    let sm1 := mk (currentState_ sm) on (inMotion_ sm)
                  (batteryPercentage_ sm) (currentGeofences_ sm) in
    (settle sm1, [(if on then IgnitionOn else IgnitionOff, ∅)]).

Definition processMotion (moving : bool) (sm : t) : t * list Emission :=
  if bool_decide (inMotion_ sm = moving) then (sm, [])
  else
    let sm1 := mk (currentState_ sm) (ignitionOn_ sm) moving
                  (batteryPercentage_ sm) (currentGeofences_ sm) in
    (settle sm1, [(if moving then MotionStart else MotionStop, ∅)]).

Definition processBatteryLevel (percentage : float) (sm : t) : t * list Emission :=
  let wasLowBattery := low (batteryPercentage_ sm) in
  let sm1 := mk (currentState_ sm) (ignitionOn_ sm) (inMotion_ sm)
                percentage (currentGeofences_ sm) in
  let isLowBattery := low percentage in
  if negb wasLowBattery && isLowBattery
  then (transitionTo DeviceState.LowBattery sm1, [(LowBattery, ∅)])
  else if wasLowBattery && negb isLowBattery
  then (if ignitionOn_ sm1 && inMotion_ sm1 then transitionTo DeviceState.Driving sm1
        else if ignitionOn_ sm1 then transitionTo DeviceState.Parked sm1
        else transitionTo DeviceState.Idle sm1, [])
  else (sm1, []).

(** [std::find] then [erase]: the first occurrence goes. *)
Fixpoint remove_first (x : string) (l : list string) : list string :=
  match l with
  | [] => []
  | y :: l' => if decide (y = x) then l' else y :: remove_first x l'
  end.

Definition processGeofenceChange (entered : bool) (geofenceId : string) (sm : t)
    : t * list Emission :=
  if entered
  then (mk (currentState_ sm) (ignitionOn_ sm) (inMotion_ sm) (batteryPercentage_ sm)
           (currentGeofences_ sm ++ [geofenceId]),
        [(GeofenceEnter, {[ "geofenceId" := geofenceId ]})])
  else if bool_decide (geofenceId ∈ currentGeofences_ sm)
  then (mk (currentState_ sm) (ignitionOn_ sm) (inMotion_ sm) (batteryPercentage_ sm)
           (remove_first geofenceId (currentGeofences_ sm)),
        [(GeofenceExit, {[ "geofenceId" := geofenceId ]})])
  else (sm, []).

Definition processSpeedLimit (currentSpeed limit : float) (sm : t) : t * list Emission :=
  if PrimFloat.ltb limit currentSpeed
  then (sm, [(SpeedOverLimit,
              <["measured" := pretty (static_cast_int currentSpeed)]>
              {[ "limit" := pretty (static_cast_int limit) ]})])
  else (sm, []).

End StateMachine.

Module Battery.

Import Events.

Definition IDLE_DRAIN_PER_HOUR : float := 0.5.
Definition DRIVING_DRAIN_PER_HOUR : float := 2.
Definition MIN_VOLTAGE : float := 3.2.
Definition MAX_VOLTAGE : float := 4.2.

(** [std::clamp(v, lo, hi)] *)
Definition clamp (v lo hi : float) : float :=
  if PrimFloat.ltb v lo then lo else if PrimFloat.ltb hi v then hi else v.

(** The battery is its percentage; [uniform] is the draw of [rng_]. *)
Definition tick (uniform : float -> float -> float) (deltaSeconds : float)
    (isDriving : bool) (percentage_ : float) : float :=
  let drainRate := if isDriving then DRIVING_DRAIN_PER_HOUR else IDLE_DRAIN_PER_HOUR in
  let baseDrain := (drainRate / 3600 * deltaSeconds)%float in
  let jitter := uniform (-0.1)%float 0.1%float in
  let actualDrain := (baseDrain * (1 + jitter))%float in
  clamp (percentage_ - actualDrain)%float 0 100.

Definition getInfo (uniform : float -> float -> float) (percentage_ : float) : BatteryInfo :=
  let voltageRange := (MAX_VOLTAGE - MIN_VOLTAGE)%float in
  let v := (MIN_VOLTAGE + percentage_ / 100 * voltageRange)%float in
  let jitter := uniform (-0.05)%float 0.05%float in
  mkBatteryInfo percentage_ (clamp (v + jitter)%float MIN_VOLTAGE MAX_VOLTAGE).

Definition setPercentage (pct : float) : float := clamp pct 0 100.

End Battery.

(** ** Simulator.cpp *)

Module Simulator.

Import Num Events Json Ports.

#[local] Open Scope Z_scope.

Record SimulatorConfig : Set := mkSimulatorConfig {
  deviceId : string;
  idScope : string;
  imei : string;
  deviceCertPath : string;
  deviceKeyPath : string;
  rootCaPath : string;
  iotHubHost : string;
  deviceKeyBase64 : string;
  startLocation : Location;
  speedLimitKph : float;
  heartbeatSeconds : Z;
  has_route : bool                     (* !route.empty() *)
}.

Definition nonempty (s : string) : bool := negb (bool_decide (s = "")).

Definition hasDpsConfig (c : SimulatorConfig) : bool :=
  nonempty (idScope c) && nonempty (imei c) && nonempty (deviceCertPath c)
  && nonempty (deviceKeyPath c) && nonempty (rootCaPath c).

(** The member groups of the class, as the header lays them out. *)
Record Runtime : Set := mkRuntime {
  running_ : bool;
  connected_ : bool
}.

Record TelemetryData : Set := mkTelemetryData {
  currentLocation_ : Location;
  currentSpeed_ : float;
  currentHeading_ : float;
  networkInfo_ : NetworkInfo
}.

Record Sequencing : Set := mkSequencing {
  sequenceNumber_ : Z;                 (* uint64_t *)
  lastHeartbeat_ : time_point;
  lastTick_ : time_point
}.

Record RouteFollowing : Set := mkRouteFollowing {
  routeProgress_ : float;
  followingRoute_ : bool;
  driveStartTime_ : time_point;
  driveDurationSeconds_ : float
}.

Record Connectivity : Set := mkConnectivity {
  shouldReconnect_ : bool;
  lastReconnectAttempt_ : time_point;
  reconnectAttempts_ : Z               (* int *)
}.

Definition MAX_RECONNECT_ATTEMPTS : Z := 10.

(** What a run of the simulator does that can be seen from outside:
    the events handed to [emitEvent], each with the client it was
    published through when the simulator was connected, and the calls
    of [connectToIoTHub], those made by [attemptReconnection] with the
    attempt counter and the delay they waited for. *)
Inductive Channel : Set := ViaDps | ViaMqtt (topic : string).

Inductive Effect : Type :=
  | Emitted (event : Event) (published : option Channel)
  | Connect
  | Reconnect (attempt delaySeconds : Z).

Record t : Type := mk {
  config_ : SimulatorConfig;
  stateMachine_ : StateMachine.t;
  battery_ : float;
  runtime : Runtime;
  telemetry : TelemetryData;
  sequencing : Sequencing;
  currentGeofenceIds_ : list string;
  route : RouteFollowing;
  d2cTopic_ : string;
  c2dTopic_ : string;
  connectivity : Connectivity;
  trace_ : list Effect
}.

Definition with_config (c : SimulatorConfig) (s : t) : t :=
  mk c (stateMachine_ s) (battery_ s) (runtime s) (telemetry s) (sequencing s)
     (currentGeofenceIds_ s) (route s) (d2cTopic_ s) (c2dTopic_ s) (connectivity s) (trace_ s).
Definition with_stateMachine (m : StateMachine.t) (s : t) : t :=
  mk (config_ s) m (battery_ s) (runtime s) (telemetry s) (sequencing s)
     (currentGeofenceIds_ s) (route s) (d2cTopic_ s) (c2dTopic_ s) (connectivity s) (trace_ s).
Definition with_battery (b : float) (s : t) : t :=
  mk (config_ s) (stateMachine_ s) b (runtime s) (telemetry s) (sequencing s)
     (currentGeofenceIds_ s) (route s) (d2cTopic_ s) (c2dTopic_ s) (connectivity s) (trace_ s).
Definition with_runtime (r : Runtime) (s : t) : t :=
  mk (config_ s) (stateMachine_ s) (battery_ s) r (telemetry s) (sequencing s)
     (currentGeofenceIds_ s) (route s) (d2cTopic_ s) (c2dTopic_ s) (connectivity s) (trace_ s).
Definition with_telemetry (d : TelemetryData) (s : t) : t :=
  mk (config_ s) (stateMachine_ s) (battery_ s) (runtime s) d (sequencing s)
     (currentGeofenceIds_ s) (route s) (d2cTopic_ s) (c2dTopic_ s) (connectivity s) (trace_ s).
Definition with_sequencing (q : Sequencing) (s : t) : t :=
  mk (config_ s) (stateMachine_ s) (battery_ s) (runtime s) (telemetry s) q
     (currentGeofenceIds_ s) (route s) (d2cTopic_ s) (c2dTopic_ s) (connectivity s) (trace_ s).
Definition with_geofenceIds (g : list string) (s : t) : t :=
  mk (config_ s) (stateMachine_ s) (battery_ s) (runtime s) (telemetry s) (sequencing s)
     g (route s) (d2cTopic_ s) (c2dTopic_ s) (connectivity s) (trace_ s).
Definition with_route (r : RouteFollowing) (s : t) : t :=
  mk (config_ s) (stateMachine_ s) (battery_ s) (runtime s) (telemetry s) (sequencing s)
     (currentGeofenceIds_ s) r (d2cTopic_ s) (c2dTopic_ s) (connectivity s) (trace_ s).
Definition with_topics (d2c c2d : string) (s : t) : t :=
  mk (config_ s) (stateMachine_ s) (battery_ s) (runtime s) (telemetry s) (sequencing s)
     (currentGeofenceIds_ s) (route s) d2c c2d (connectivity s) (trace_ s).
Definition with_connectivity (c : Connectivity) (s : t) : t :=
  mk (config_ s) (stateMachine_ s) (battery_ s) (runtime s) (telemetry s) (sequencing s)
     (currentGeofenceIds_ s) (route s) (d2cTopic_ s) (c2dTopic_ s) c (trace_ s).
Definition log (e : Effect) (s : t) : t :=
  mk (config_ s) (stateMachine_ s) (battery_ s) (runtime s) (telemetry s) (sequencing s)
     (currentGeofenceIds_ s) (route s) (d2cTopic_ s) (c2dTopic_ s) (connectivity s)
     (trace_ s ++ [e]).

(** What the collaborators answer during one call of the simulator:
    the clocks, the random source, the geometry of Geo.cpp (over the
    route and the geofences of the configuration), [std::fmod], the
    connection manager, and whether [connectToIoTHub] learns of a
    failure before it returns. *)
Record Env : Type := mkEnv {
  steady_now : time_point;
  iso8601 : string;
  uniform : float -> float -> float;
  normal : float -> float -> float;
  uniformInt : nat -> Z;
  interpolateRoute : float -> Location;
  moveLocation : Location -> float -> float -> Location;
  checkGeofences : Location -> list string;
  fmod : float -> float -> float;
  dps_isConnected : bool;
  connect_fails_at_once : bool
}.

(** The simulator as the constructor and [configure] leave it. *)
Definition configure (config : SimulatorConfig) : t :=
  mk config StateMachine.init (Battery.setPercentage 100)
     (mkRuntime false false)
     (mkTelemetryData (startLocation config) 0 0 (mkNetworkInfo (-72) "LTE"))
     (mkSequencing 0 0 0) []
     (mkRouteFollowing 0 (has_route config) 0 0)
     ("devices/" +:+ deviceId config +:+ "/messages/events/")
     ("devices/" +:+ deviceId config +:+ "/messages/devicebound/#")
     (mkConnectivity false 0 0) [].

Definition createBaseEvent (env : Env) (type : EventType) (s : t) : Event * t :=
  let n := wrap_u64 (sequenceNumber_ (sequencing s) + 1) in
  let event :=
    mkEvent (deviceId (config_ s)) (iso8601 env) type n
            (currentLocation_ (telemetry s)) (currentSpeed_ (telemetry s))
            (currentHeading_ (telemetry s))
            (Battery.getInfo (uniform env) (battery_ s))
            (networkInfo_ (telemetry s)) ∅ in
  (event,
   with_sequencing (mkSequencing n (lastHeartbeat_ (sequencing s))
                                 (lastTick_ (sequencing s))) s).

(** [emitEvent], once [JsonCodec::serialize] has printed the event:
    the event is handed to one client when [connected_] is set, the
    connection manager or the legacy client, and to none otherwise. *)
Definition emitEvent (env : Env) (event : Event) (s : t) : t :=
  log (Emitted event
         (if connected_ (runtime s)
          then Some (if hasDpsConfig (config_ s) && dps_isConnected env
                     then ViaDps else ViaMqtt (d2cTopic_ s))
          else None)) s.

(** The emitter the constructor installs in the state machine. *)
Definition emitter (env : Env) (em : StateMachine.Emission) (s : t) : t :=
  let '(fullEvent, s1) := createBaseEvent env (fst em) s in
  emitEvent env (with_extras fullEvent (snd em)) s1.

(** A call into the state machine, its emissions passed to the emitter
    in the order they are made. *)
Definition drive (env : Env) (op : StateMachine.t -> StateMachine.t * list StateMachine.Emission)
    (s : t) : t :=
  let '(m, ems) := op (stateMachine_ s) in
  fold_left (fun acc em => emitter env em acc) ems (with_stateMachine m s).

Definition onDpsConnectionComplete (connected : bool) (dpsDeviceId dpsHub : string) (s : t) : t :=
  if connected then
    let c := config_ s in
    let c' := mkSimulatorConfig dpsDeviceId (idScope c) (imei c) (deviceCertPath c)
                (deviceKeyPath c) (rootCaPath c) dpsHub (deviceKeyBase64 c)
                (startLocation c) (speedLimitKph c) (heartbeatSeconds c) (has_route c) in
    with_connectivity
      (mkConnectivity false (lastReconnectAttempt_ (connectivity s)) 0)
      (with_topics ("devices/" +:+ dpsDeviceId +:+ "/messages/events/")
                   ("devices/" +:+ dpsDeviceId +:+ "/messages/devicebound/#")
         (with_config c' (with_runtime (mkRuntime (running_ (runtime s)) true) s)))
  else
    with_connectivity
      (mkConnectivity true (lastReconnectAttempt_ (connectivity s))
                      (reconnectAttempts_ (connectivity s)))
      (with_runtime (mkRuntime (running_ (runtime s)) false) s).

Definition validateLegacyConfiguration (c : SimulatorConfig) : bool :=
  nonempty (iotHubHost c) && nonempty (deviceId c) && nonempty (deviceKeyBase64 c).

(** [connectToIoTHub] as far as the simulator's own state goes: the
    connection manager or the legacy client is asked to connect, and a
    failure known at once asks for reconnection. *)
Definition connectToIoTHub (env : Env) (s : t) : t :=
  let s1 := log Connect s in
  if hasDpsConfig (config_ s1) then
    if connect_fails_at_once env then onDpsConnectionComplete false "" "" s1 else s1
  else if negb (validateLegacyConfiguration (config_ s1)) then s1
  else if connect_fails_at_once env
  then with_connectivity
         (mkConnectivity true (lastReconnectAttempt_ (connectivity s1))
                         (reconnectAttempts_ (connectivity s1))) s1
  else s1.

Definition start (env : Env) (s : t) : t :=
  if running_ (runtime s) then s
  else
    connectToIoTHub env
      (with_sequencing (mkSequencing (sequenceNumber_ (sequencing s))
                                     (steady_now env) (steady_now env))
         (with_runtime (mkRuntime true (connected_ (runtime s))) s)).

Definition stop (s : t) : t :=
  with_runtime (mkRuntime false (connected_ (runtime s))) s.

(** [std::min(60, static_cast<int>(std::pow(2, reconnectAttempts_)))].
    The power fits an [int] up to an attempt counter of 30. *)
Definition delaySeconds (attempts : Z) : Z :=
  Z.min 60 (static_cast_int (pow2 attempts)).

Definition attemptReconnection (env : Env) (s : t) : t :=
  let c := connectivity s in
  let elapsed := (steady_now env - lastReconnectAttempt_ c) ÷ 1000000000 in
  if delaySeconds (reconnectAttempts_ c) <=? elapsed then
    if reconnectAttempts_ c <? MAX_RECONNECT_ATTEMPTS then
      let s1 := connectToIoTHub env
                  (log (Reconnect (reconnectAttempts_ c)
                                  (delaySeconds (reconnectAttempts_ c))) s) in
      with_connectivity
        (mkConnectivity (shouldReconnect_ (connectivity s1)) (steady_now env)
                        (reconnectAttempts_ (connectivity s1) + 1)) s1
    else
      with_connectivity
        (mkConnectivity false (lastReconnectAttempt_ c) (reconnectAttempts_ c)) s
  else s.

Definition setIgnition (env : Env) (on : bool) (s : t) : t :=
  drive env (StateMachine.processIgnition on) s.

Definition setSpeed (env : Env) (speedKph : float) (s : t) : t :=
  let wasMoving := PrimFloat.ltb 0 (currentSpeed_ (telemetry s)) in
  let isMoving := PrimFloat.ltb 0 speedKph in
  let d := telemetry s in
  let s1 := with_telemetry
              (mkTelemetryData (currentLocation_ d) speedKph (currentHeading_ d)
                               (networkInfo_ d)) s in
  let s2 := if negb (eqb wasMoving isMoving)
            then drive env (StateMachine.processMotion isMoving) s1 else s1 in
  if PrimFloat.ltb (speedLimitKph (config_ s2)) speedKph
  then drive env (StateMachine.processSpeedLimit speedKph (speedLimitKph (config_ s2))) s2
  else s2.

Definition setBatteryPercentage (pct : float) (s : t) : t :=
  with_battery (Battery.setPercentage pct) s.

Definition startDriving (env : Env) (durationMinutes : float) (s : t) : t :=
  let s1 := setIgnition env true s in
  let s2 := setSpeed env (45 + uniform env (-15) 15)%float s1 in
  let r := route s2 in
  with_route
    (if has_route (config_ s2)
     then mkRouteFollowing 0 true (steady_now env) (durationMinutes * 60)%float
     else mkRouteFollowing (routeProgress_ r) (followingRoute_ r)
                           (steady_now env) (durationMinutes * 60)%float) s2.

Definition spike_types : list EventType :=
  [MotionStart; MotionStop; IgnitionOn; IgnitionOff; Heartbeat].

Fixpoint generateSpike_from (env : Env) (i eventCount : nat) (s : t) : t :=
  match eventCount with
  | O => s
  | S n =>
      let typeIndex := uniformInt env i in
      let '(event, s1) :=
        createBaseEvent env (nth (Z.to_nat typeIndex) spike_types Heartbeat) s in
      generateSpike_from env (S i) n (emitEvent env event s1)
  end.

Definition generateSpike (env : Env) (eventCount : nat) (s : t) : t :=
  generateSpike_from env 0 eventCount s.

Definition updateLocation (env : Env) (s : t) : t :=
  let d := telemetry s in
  if followingRoute_ (route s) && has_route (config_ s)
  then with_telemetry
         (mkTelemetryData (interpolateRoute env (routeProgress_ (route s)))
                          (currentSpeed_ d) (currentHeading_ d) (networkInfo_ d)) s
  else if PrimFloat.ltb 0 (currentSpeed_ d) then
    let speedMs := (currentSpeed_ d / 3.6)%float in
    let distance := (speedMs * 1)%float in
    let h := fmod env (currentHeading_ d + normal env 0 5 + 360)%float 360%float in
    with_telemetry
      (mkTelemetryData (moveLocation env (currentLocation_ d) h distance)
                       (currentSpeed_ d) h (networkInfo_ d)) s
  else s.

(** The two loops of [checkGeofences]. *)
Fixpoint enter_fences (env : Env) (insideIds : list string) (s : t) : t :=
  match insideIds with
  | [] => s
  | id :: rest =>
      if bool_decide (id ∈ currentGeofenceIds_ s) then enter_fences env rest s
      else
        let s1 := drive env (StateMachine.processGeofenceChange true id) s in
        enter_fences env rest (with_geofenceIds (currentGeofenceIds_ s1 ++ [id]) s1)
  end.

Fixpoint exit_fences (env : Env) (insideIds : list string)
    (kept todo : list string) (s : t) : t :=
  match todo with
  | [] => with_geofenceIds kept s
  | id :: rest =>
      if bool_decide (id ∈ insideIds)
      then exit_fences env insideIds (kept ++ [id]) rest s
      else exit_fences env insideIds kept rest
             (drive env (StateMachine.processGeofenceChange false id) s)
  end.

Definition checkGeofencesStep (env : Env) (s : t) : t :=
  let insideIds := checkGeofences env (currentLocation_ (telemetry s)) in
  let s1 := enter_fences env insideIds s in
  exit_fences env insideIds [] (currentGeofenceIds_ s1) s1.

Definition checkHeartbeat (env : Env) (s : t) : t :=
  let elapsed := (steady_now env - lastHeartbeat_ (sequencing s)) ÷ 1000000000 in
  if heartbeatSeconds (config_ s) <=? elapsed then
    let '(event, s1) := createBaseEvent env Heartbeat s in
    let s2 := emitEvent env event s1 in
    with_sequencing (mkSequencing (sequenceNumber_ (sequencing s2)) (steady_now env)
                                  (lastTick_ (sequencing s2))) s2
  else s.

Definition tick (env : Env) (s : t) : t :=
  if negb (running_ (runtime s)) then s
  else
    let deltaSeconds :=
      (Z_to_double (steady_now env - lastTick_ (sequencing s)) / 1000000000)%float in
    let s1 := with_sequencing
                (mkSequencing (sequenceNumber_ (sequencing s))
                              (lastHeartbeat_ (sequencing s)) (steady_now env)) s in
    let isDriving :=
      bool_decide (StateMachine.currentState_ (stateMachine_ s1) = StateMachine.DeviceState.Driving) in
    let s2 := with_battery (Battery.tick (uniform env) deltaSeconds isDriving (battery_ s1)) s1 in
    let s3 := drive env (StateMachine.processBatteryLevel (battery_ s2)) s2 in
    let s4 := updateLocation env s3 in
    let s5 := checkGeofencesStep env s4 in
    let s6 := checkHeartbeat env s5 in
    let s7 := if shouldReconnect_ (connectivity s6) then attemptReconnection env s6 else s6 in
    if followingRoute_ (route s7) && PrimFloat.ltb 0 (currentSpeed_ (telemetry s7)) then
      let routeSpeedMs := (currentSpeed_ (telemetry s7) / 3.6)%float in
      let progress :=
        (routeProgress_ (route s7) + routeSpeedMs * deltaSeconds / 1000)%float in
      let r := route s7 in
      if PrimFloat.leb 1 progress
      then
        let s8 := setSpeed env 0
                    (with_route (mkRouteFollowing 1 (followingRoute_ r)
                                   (driveStartTime_ r) (driveDurationSeconds_ r)) s7) in
        with_route (mkRouteFollowing (routeProgress_ (route s8)) false
                      (driveStartTime_ (route s8)) (driveDurationSeconds_ (route s8))) s8
      else with_route (mkRouteFollowing progress (followingRoute_ r)
                         (driveStartTime_ r) (driveDurationSeconds_ r)) s7
    else s7.

Definition onMqttConnection (env : Env) (connected : bool) (s : t) : t :=
  let s1 := with_runtime (mkRuntime (running_ (runtime s)) connected) s in
  if connected
  then with_connectivity
         (mkConnectivity false (lastReconnectAttempt_ (connectivity s1)) 0) s1
  else if running_ (runtime s1)
  then with_connectivity
         (mkConnectivity true (steady_now env) (reconnectAttempts_ (connectivity s1))) s1
  else s1.

(** The cloud-to-device commands [onMqttMessage] acts on. *)
Inductive Command : Set :=
  | SetHeartbeatSeconds (value : Z)
  | SetSpeedLimit (value : float)
  | Reboot.

Definition onCommand (env : Env) (cmd : Command) (s : t) : t :=
  let c := config_ s in
  match cmd with
  | SetHeartbeatSeconds v =>
      with_config (mkSimulatorConfig (deviceId c) (idScope c) (imei c) (deviceCertPath c)
                     (deviceKeyPath c) (rootCaPath c) (iotHubHost c) (deviceKeyBase64 c)
                     (startLocation c) (speedLimitKph c) v (has_route c)) s
  | SetSpeedLimit v =>
      with_config (mkSimulatorConfig (deviceId c) (idScope c) (imei c) (deviceCertPath c)
                     (deviceKeyPath c) (rootCaPath c) (iotHubHost c) (deviceKeyBase64 c)
                     (startLocation c) v (heartbeatSeconds c) (has_route c)) s
  | Reboot => start env (stop s)
  end.

(** The entry points of the simulator: the driver's calls and the
    callbacks of its clients. *)
Inductive Call : Type :=
  | Start
  | Stop
  | Tick
  | SetIgnition (on : bool)
  | SetSpeed (speedKph : float)
  | SetBatteryPercentage (pct : float)
  | StartDriving (durationMinutes : float)
  | GenerateSpike (eventCount : nat)
  | OnMqttConnection (connected : bool)
  | OnDpsConnectionComplete (connected : bool) (dpsDeviceId dpsHub : string)
  | OnCommand (cmd : Command).

Definition step (s : t) (ec : Env * Call) : t :=
  let env := fst ec in
  match snd ec with
  | Start => start env s
  | Stop => stop s
  | Tick => tick env s
  | SetIgnition on => setIgnition env on s
  | SetSpeed v => setSpeed env v s
  | SetBatteryPercentage p => setBatteryPercentage p s
  | StartDriving m => startDriving env m s
  | GenerateSpike n => generateSpike env n s
  | OnMqttConnection c => onMqttConnection env c s
  | OnDpsConnectionComplete c d h => onDpsConnectionComplete c d h s
  | OnCommand cmd => onCommand env cmd s
  end.

Definition run (config : SimulatorConfig) (calls : list (Env * Call)) : t :=
  fold_left step calls (configure config).

(** The sequence numbers of the events of a trace, and its reconnect
    attempts. *)
Definition emitted_sequences (tr : list Effect) : list Z :=
  omap (fun e => match e with Emitted ev _ => Some (sequence ev) | _ => None end) tr.

Definition reconnects (tr : list Effect) : list (Z * Z) :=
  omap (fun e => match e with Reconnect k d => Some (k, d) | _ => None end) tr.


End Simulator.

(** * Vocabulary of the statements and example inputs *)

Section CodecExamples.
Import Num Events Json JsonCodec.

(** The event the round-trip counterexample and witness use: a heartbeat
    with the battery at 19.5 %. *)
Definition ev_half : Event :=
  with_percentage (Event_default Heartbeat) 19.5%float.

(** An object with an unknown type name, and one whose type is a
    number. *)
Definition obj_teleport : gmap string json :=
  <["eventType" := JString "teleport"]> (<["seq" := JUInt 7]> ∅).

Definition obj_numeric_type : gmap string json :=
  <["eventType" := JUInt 3]> (<["seq" := JUInt 7]> ∅).

End CodecExamples.

Section DomainExamples.
Import Events Ports Domain.

(** The clock reading the examples use. *)
Definition clk0 : Clock := mkClock 0%Z "1970-01-01T00:00:00.000Z".

(** A machine brought to Driving by switching the ignition on. *)
Definition driving_machine : DeviceStateMachine * EventBus :=
  setIgnition clk0 true DeviceStateMachine_init EventBus_init.

End DomainExamples.

Section QueueExamples.
Import Events Ports Domain Pipeline.

(** A started pipeline with [n] heartbeat events waiting on the bus. *)
Definition bus_with_heartbeats (n : nat) : TelemetryPipeline * EventBus :=
  let '(p, bus) := start "dev" 0%Z TelemetryPipeline_init EventBus_init in
  (p, Nat.iter n (bus_publish (Event_default Heartbeat)) bus).

(** The pipeline after the bus has delivered those events while the
    mock transport is disconnected. *)
Definition offline_pipeline (n : nat) : TelemetryPipeline :=
  let '(p, bus) := bus_with_heartbeats n in
  snd (fst (bus_processEvents DefaultPolicies.DefaultPolicyEngine (fun _ => "")
              0%Z bus p MockTransport.init)).

End QueueExamples.

Section DpsStatements.
Import Ports Mqtt DpsProvisioning.

Context {M : Type} {client_ops : IMqttClient M}.

Definition inflight (s : State) : Prop :=
  s = ConnectingToDps \/ s = SendingRegistration \/ s = WaitingForAssignment.

Definition terminal (s : State) : Prop := s = Completed \/ s = Failed.

(** What a delivered result looks like, given the state it left the
    engine in. *)
Definition result_ok (s : State) (r : ProvisioningResult) : Prop :=
  if success r
  then assignedHub r <> "" /\ deviceId r <> "" /\ s = Completed
  else errorMessage r <> "" /\ s = Failed.

(** The three situations of a started engine. *)
Definition InFlight (d : DpsProvisioning.t M) : Prop :=
  callback_ d = true /\ inflight (state_ d) /\ delivered_ d = [].

Definition Done (d : DpsProvisioning.t M) : Prop :=
  callback_ d = true /\ exists r, delivered_ d = [r] /\ result_ok (state_ d) r.

Definition Cancelled (d : DpsProvisioning.t M) : Prop :=
  callback_ d = true /\ state_ d = Failed /\ delivered_ d = [].

End DpsStatements.

Section DpsExamples.
Import Ports Mqtt DpsProvisioning.

(** A client that accepts every call, the configuration of a device
    with the default deadline of 120 s, and the two responses of the
    provisioning service. *)
Definition client0 : RecordingClient.t := RecordingClient.mk false true [].

Definition config0 : DpsConfig :=
  mkDpsConfig "0ne00000000" "356938035643809"
              "global.azure-devices-provisioning.net" 8883
              (mkTlsConfig "device.cert.pem" "device.key.pem" "root.pem" true) 120.

Definition member (k v : string) : string :=
  dquote +:+ k +:+ dquote +:+ ":" +:+ dquote +:+ v +:+ dquote.

Definition assigning_payload : string :=
  "{" +:+ member "status" "assigning" +:+ "," +:+ member "operationId" "op-1" +:+ "}".

Definition assigned_payload : string :=
  "{" +:+ member "status" "assigned" +:+ "," +:+ member "assignedHub" "h1"
  +:+ "," +:+ member "deviceId" "d1" +:+ "}".

Definition response (pl : string) : Input :=
  OnDpsMessage (mkMqttMessage "$dps/registrations/res/200/?$rid=1" pl 1 false).

(** Registration is answered with "assigning" and then nothing more. *)
Definition stalled_run : list Input :=
  [OnDpsConnected true "Connected successfully"; response assigning_payload;
   ProcessEvents (seconds 3)].

End DpsExamples.

Section ConnectionManagerExamples.
Import Mqtt DpsConnectionManager.

(** A manager attached to the hub as device d1. *)
Definition attached : DpsConnectionManager.t RecordingClient.t :=
  DpsConnectionManager.mk (Some (RecordingClient.mk true true [])) Connected
                          "h1.azure-devices.net" "d1".

End ConnectionManagerExamples.

Section TwinExamples.
Import Json TwinHandler.

(** A handler that has applied nothing yet, desired properties at
    version 7, and surroundings in which the configuration file cannot
    be opened. *)
Definition fresh_handler : TwinHandler.t := TwinHandler.mk "d1" true "" None.

Definition desired7 : json :=
  JObject (<["$version" := JUInt 7]>
          (<["config" := JObject (<["reporting_interval_sec" := JUInt 30]> ∅)]> ∅)).

Definition read_only_disk : Env := mkEnv "2025-08-21T14:30:15Z" false false "".

End TwinExamples.

Section SimulatorStatements.
Import Num Events Ports Domain Pipeline Simulator.

#[local] Open Scope Z_scope.

(** Two observations of a simulator carry the claims about it: the
    sequence counter with the sequence numbers emitted so far, and the
    attempt counter with the reconnect attempts made so far. *)
Definition Inv (P : Z -> list Z -> Prop) (Q : Z -> list (Z * Z) -> Prop)
    (s : Simulator.t) : Prop :=
  P (sequenceNumber_ (sequencing s)) (emitted_sequences (trace_ s)) /\
  Q (reconnectAttempts_ (connectivity s)) (reconnects (trace_ s)).





(** A device configured for the legacy connection, and the answers of
    its collaborators at second [sec] of the steady clock. *)
Definition config_legacy : SimulatorConfig :=
  mkSimulatorConfig "SIM-001" "" "" "" "" "" "hub.example.net" "a2V5"
    (mkLocation (-26.2041) 28.0473 1720 12.5) 90 60 false.

Definition env_at (sec : Z) : Env :=
  mkEnv (seconds sec) "2025-01-01T00:00:00.000Z" (fun _ _ => 0%float)
        (fun _ _ => 0%float) (fun _ => 0) (fun _ => Location_default)
        (fun l _ _ => l) (fun _ => []) (fun x _ => x) false false.


(** The sequence numbers of the events of a trace that were handed to a
    client, and a run whose connection is down while the speed changes. *)
Definition published_sequences (tr : list Effect) : list Z :=
  omap (fun e => match e with
                 | Emitted ev (Some _) => Some (sequence ev)
                 | _ => None
                 end) tr.

Definition gap_calls : list (Env * Call) :=
  [(env_at 0, Start); (env_at 0, OnMqttConnection true);
   (env_at 1, SetIgnition true); (env_at 2, OnMqttConnection false);
   (env_at 2, SetSpeed 120); (env_at 3, OnMqttConnection true);
   (env_at 61, Tick)].



End SimulatorStatements.


(** ** Vocabulary for the battery and the two state machines *)

Section RangeStatements.

(** [lo <= x <= hi] on doubles, and the two cases [std::clamp] leaves:
    a value within the bounds, or the NaN it was given. *)
Definition within (lo hi x : float) : bool :=
  PrimFloat.leb lo x && PrimFloat.leb x hi.

Definition nan_or_within (lo hi x : float) : Prop :=
  is_nan x = true \/ within lo hi x = true.

End RangeStatements.

Section LegacyMachineStatements.
Import Events StateMachine.

(** The entry points of the legacy state machine, and a run of calls
    with the emissions it makes, in order. *)
Inductive Op : Type :=
  | ProcessIgnition (on : bool)
  | ProcessMotion (moving : bool)
  | ProcessBatteryLevel (percentage : float)
  | ProcessGeofenceChange (entered : bool) (geofenceId : string)
  | ProcessSpeedLimit (currentSpeed limit : float).

Definition apply_op (op : Op) (sm : StateMachine.t) : StateMachine.t * list Emission :=
  match op with
  | ProcessIgnition on => processIgnition on sm
  | ProcessMotion moving => processMotion moving sm
  | ProcessBatteryLevel p => processBatteryLevel p sm
  | ProcessGeofenceChange entered id => processGeofenceChange entered id sm
  | ProcessSpeedLimit v l => processSpeedLimit v l sm
  end.

Fixpoint run_ops (ops : list Op) (sm : StateMachine.t) : StateMachine.t * list Emission :=
  match ops with
  | [] => (sm, [])
  | op :: rest =>
      let '(sm1, ems1) := apply_op op sm in
      let '(sm2, ems2) := run_ops rest sm1 in
      (sm2, ems1 ++ ems2)
  end.

(** The state the three inputs of the machine call for. *)
Definition state_for (lowBattery ignitionOn inMotion : bool) : DeviceState.t :=
  if lowBattery then DeviceState.LowBattery
  else if ignitionOn && inMotion then DeviceState.Driving
  else if ignitionOn then DeviceState.Parked
  else DeviceState.Idle.

Definition settled (sm : StateMachine.t) : Prop :=
  currentState_ sm =
    state_for (low (batteryPercentage_ sm)) (ignitionOn_ sm) (inMotion_ sm).

(** The downward crossings of the threshold in the levels a run
    reports, the level before the run being [prev]. *)
Fixpoint crossings (prev : float) (ops : list Op) : nat :=
  match ops with
  | [] => 0
  | ProcessBatteryLevel p :: rest =>
      (if negb (low prev) && low p then 1 else 0) + crossings p rest
  | _ :: rest => crossings prev rest
  end.

Definition count_type (ty : EventType) (ems : list Emission) : nat :=
  length (filter (fun em => fst em = ty) ems).

(** The emissions of one kind of a pair, [on] first, take turns. *)
Fixpoint take_turns (on off : EventType) (expect_on : bool) (ems : list Emission) : Prop :=
  match ems with
  | [] => True
  | em :: rest =>
      if decide (fst em = on) then expect_on = true /\ take_turns on off false rest
      else if decide (fst em = off) then expect_on = false /\ take_turns on off true rest
      else take_turns on off expect_on rest
  end.

End LegacyMachineStatements.

Section DeviceMachineStatements.
Import Events Ports Domain.

(** The four setters of the device state machine, each called with the
    clock reading of its moment, and a run of them over the machine and
    its bus. *)
Inductive Setter : Set :=
  | SetIgnition (on : bool)
  | SetMotion (inMotion : bool)
  | SetBatteryLevel (percentage : float)
  | SetConnectionStatus (connected : bool).

Definition apply_setter (clk : Clock) (c : Setter)
    (st : DeviceStateMachine * EventBus) : DeviceStateMachine * EventBus :=
  match c with
  | SetIgnition on => setIgnition clk on (fst st) (snd st)
  | SetMotion m => setMotion clk m (fst st) (snd st)
  | SetBatteryLevel p => setBatteryLevel clk p (fst st) (snd st)
  | SetConnectionStatus c => setConnectionStatus clk c (fst st) (snd st)
  end.

Definition run_setters (calls : list (Clock * Setter))
    (st : DeviceStateMachine * EventBus) : DeviceStateMachine * EventBus :=
  fold_left (fun acc cc => apply_setter (fst cc) (snd cc) acc) calls st.

(** A call that leaves the connection up and the level below the
    threshold: ignition and motion as they come, a level only when it
    is below 15, a connection status only when it is connected. *)
Definition keeps_low (c : Setter) : bool :=
  match c with
  | SetIgnition _ | SetMotion _ => true
  | SetBatteryLevel percentage => is_low percentage
  | SetConnectionStatus connected => connected
  end.

(** Offline is the state of a machine that is not connected, and
    LowBattery the state of a connected one whose level is low. *)
Definition coherent (sm : DeviceStateMachine) : Prop :=
  (currentState_ sm = DeviceState.Offline <-> connected_ sm = false) /\
  (connected_ sm = true ->
   (currentState_ sm = DeviceState.LowBattery <-> is_low (batteryPercentage_ sm) = true)).

End DeviceMachineStatements.

Section CodecStatements.

(** The members of an event object that [jsonToEvent] reads. *)
Definition member_names : list string :=
  ["deviceId"; "ts"; "eventType"; "seq"; "loc"; "speedKph"; "heading";
   "battery"; "network"; "extras"].

End CodecStatements.

Section WorkflowStatements.
Import Mqtt DpsConnectionManager.

(** A manager over recording clients whose broker refuses the
    connection, after one connection attempt. *)
Definition refusing_client : RecordingClient.t := RecordingClient.mk false false [].

Definition device_config : DeviceConfig :=
  mkDeviceConfig "356938035643809" "0ne00ABCDEF" "cert.pem" "key.pem" "chain.pem"
                 "root.pem" true 120.

Definition failed_manager : manager RecordingClient.t :=
  connectToIotHub (fun _ => true) 0%Z device_config (Some 0%nat)
                  (make refusing_client refusing_client).

End WorkflowStatements.

Section ExtractStatements.
Import DpsProvisioning.

(** [searchKey] of [extractJsonValue]: the key in quotes, a colon, and
    the opening quote of the value. *)
Definition searchKey (key : string) : string :=
  dquote +:+ key +:+ dquote +:+ ":" +:+ dquote.

(** The registration payload [onDpsConnected] builds. *)
Definition registrationPayload (registrationId : string) : string :=
  "{" +:+ dquote +:+ "registrationId" +:+ dquote +:+ ":" +:+ dquote
  +:+ registrationId +:+ dquote +:+ "}".

End ExtractStatements.

Section PahoStatements.
Import Mqtt PahoMqttClient.

(** The message the library is handed for a published message. *)
Definition wire_message (m : MqttMessage) : MqttMessage :=
  mkMqttMessage (iotHubTopic (topic m)) (payload m) (qos m) (retained m).

(** The last [n] elements of a list. *)
Definition lastn {A : Type} (n : nat) (l : list A) : list A :=
  skipn (length l - n) l.

Definition offline_client : wire := mkWire (mk false []) [].

Definition numbered (n : nat) : MqttMessage :=
  mkMqttMessage "devices/d1/messages/events/" (pretty (Z.of_nat n)) 1 false.

End PahoStatements.

Section PipelineStatements.
Import Events Ports Domain Pipeline.

(** What the default reporting policy lets through, for a pipeline
    whose last reported battery level is [last]: everything but a
    LowBattery event whose level is within 5 points of it. *)
Definition passes_default_policy (last : float) (ev : Event) : bool :=
  match eventType ev with
  | LowBattery => DefaultPolicies.reportBatteryLevel (percentage (battery ev)) last
  | _ => true
  end.

(** The message the mock transport records for an event. *)
Definition mock_message (encode : Event -> string) (deviceId : string) (ev : Event)
    : MockTransport.MockMessage :=
  MockTransport.mkMockMessage (buildTopic deviceId ev) (encode ev) 1.

(** What identifies a pending message: all but its attempt count and
    its retry time. *)
Definition content (msg : PendingMessage) : Event * string * string :=
  (event msg, topic msg, payload msg).

Definition due (now : time_point) (msg : PendingMessage) : bool :=
  (nextRetry msg <=? now)%Z.

End PipelineStatements.

Section SimulatorRunStatements.
Import Num Events Ports Simulator.

(** What [emitEvent] and the emitter leave alone: everything but the
    sequence counter and the trace. *)
Definition same_but_emissions (s s' : Simulator.t) : Prop :=
  config_ s' = config_ s /\ stateMachine_ s' = stateMachine_ s /\
  battery_ s' = battery_ s /\ runtime s' = runtime s /\ telemetry s' = telemetry s /\
  currentGeofenceIds_ s' = currentGeofenceIds_ s /\ route s' = route s /\
  d2cTopic_ s' = d2cTopic_ s /\ c2dTopic_ s' = c2dTopic_ s /\
  connectivity s' = connectivity s.

(** The events of a trace, oldest first. *)
Definition emitted_events (tr : list Effect) : list Event :=
  omap (fun e => match e with Emitted ev _ => Some ev | _ => None end) tr.

(** A battery reading within the bounds of Battery.hpp. *)
Definition battery_ok (b : BatteryInfo) : Prop :=
  nan_or_within 0 100 (percentage b) /\
  nan_or_within Battery.MIN_VOLTAGE Battery.MAX_VOLTAGE (voltage b).

(** The two topics of a device, and an event sent through the legacy
    client on the events topic of the device it names. *)
Definition events_topic (deviceId : string) : string :=
  "devices/" +:+ deviceId +:+ "/messages/events/".

Definition commands_topic (deviceId : string) : string :=
  "devices/" +:+ deviceId +:+ "/messages/devicebound/#".

Definition sent_on_own_topic (e : Effect) : Prop :=
  match e with
  | Emitted ev (Some (ViaMqtt tp)) => tp = events_topic (Events.deviceId ev)
  | _ => True
  end.

End SimulatorRunStatements.
(** * Properties *)

(** ** Strings, numbers and the event-type tables *)

Section BasicFacts.
Import Str Num Events.

Lemma starts_with_prefix (p s : string) :
  starts_with p s = String.prefix p s.
Proof.
  unfold starts_with, find.
  destruct s as [|c s]; simpl.
  - destruct p; reflexivity.
  - destruct p as [|a p]; [reflexivity|].
    simpl.
    destruct (ascii_dec a c) as [->|Hne].
    + destruct (String.prefix p s); [reflexivity|].
      destruct (String.index 0 (String c p) s); reflexivity.
    + destruct (String.index 0 (String a p) s); reflexivity.
Qed.

Lemma starts_with_app (p s : string) : starts_with p (p +:+ s) = true.
Proof.
  rewrite starts_with_prefix.
  induction p as [|a p IH]; simpl.
  - destruct s; reflexivity.
  - destruct (ascii_dec a a); [exact IH | congruence].
Qed.


Lemma wrap_i32_id z : in_i32 z -> wrap_i32 z = z.
Proof.
  unfold in_i32, wrap_i32. intros H.
  rewrite Z.mod_small; lia.
Qed.



(** Beyond that the conversion is out of range. *)
Lemma static_cast_int_pow2_31 : static_cast_int (pow2 31) = (- 2 ^ 31)%Z.
Proof. vm_compute. reflexivity. Qed.

(** Distinct floats are told apart by the primitive comparison. *)
Lemma float_neq (x y : float) : PrimFloat.eqb x y = false -> PrimFloat.eqb x x = true -> x <> y.
Proof. intros Hxy Hxx E. rewrite <- E in Hxy. congruence. Qed.


Lemma table_find_None {K V : Type} `{EqDecision K} (tbl : list (K * V)) (k : K) :
  k ∉ map fst tbl -> table_find tbl k = None.
Proof.
  induction tbl as [|[k' v] tbl IH]; simpl; intros Hk; [reflexivity|].
  destruct (decide (k' = k)) as [->|Hne].
  - exfalso. apply Hk. left.
  - apply IH. intros Hin. apply Hk. right. exact Hin.
Qed.

Lemma stringToEventType_unrecognized (s : string) :
  s ∉ recognized_names -> stringToEventType s = Heartbeat.
Proof.
  intros Hs. unfold stringToEventType.
  now rewrite (table_find_None stringMap s Hs).
Qed.

Lemma stringToEventType_eventTypeToString (t : EventType) :
  stringToEventType (eventTypeToString t) = t.
Proof. destruct t; reflexivity. Qed.

Lemma eventTypeToString_snake (t : EventType) :
  eventTypeToString t = snake_case (kindName t).
Proof. destruct t; reflexivity. Qed.


End BasicFacts.

(** ** The JSON codec *)

Section CodecFacts.
Import Num Events Json JsonCodec.

(** A loop that stores [f v] under every key of a map computes [f <$> m]. *)
Lemma map_fold_insert_fmap {A B : Type} (f : A -> B) (m : gmap string A) :
  map_fold (fun key v acc => <[key := f v]> acc) ∅ m = f <$> m.
Proof.
  apply (map_fold_weak_ind (fun r m => r = f <$> m)).
  - now rewrite fmap_empty.
  - intros k v m' r Hk ->. now rewrite fmap_insert.
Qed.

Lemma extrasToJson_fmap (x : gmap string string) :
  extrasToJson x = extraToJson <$> x.
Proof. apply map_fold_insert_fmap. Qed.

Lemma jsonToExtras_fmap dump (m : gmap string json) :
  jsonToExtras dump m = jsonToExtra dump <$> m.
Proof. apply map_fold_insert_fmap. Qed.

Lemma jsonToExtra_extraToJson dump (v : string) :
  jsonToExtra dump (extraToJson v) = v.
Proof.
  unfold extraToJson. destruct (decide (v = "")) as [->|]; reflexivity.
Qed.

Lemma extras_roundtrip dump (x : gmap string string) :
  jsonToExtras dump (extrasToJson x) = x.
Proof.
  rewrite jsonToExtras_fmap, extrasToJson_fmap, <- map_fmap_compose.
  rewrite <- (map_fmap_id x) at 2.
  apply map_fmap_ext. intros k v _. apply jsonToExtra_extraToJson.
Qed.

Lemma jsonToLocation_locationToJson (l : Location) :
  jsonToLocation (locationToJson l) = Some l.
Proof. destruct l. reflexivity. Qed.

Lemma jsonToNetwork_networkToJson (n : NetworkInfo) :
  jsonToNetwork (networkToJson n) = Some (mkNetworkInfo (wrap_i32 (rssi n)) (rat n)).
Proof. destruct n. reflexivity. Qed.

Lemma jsonToBattery_batteryToJson (b : BatteryInfo) :
  jsonToBattery (batteryToJson b) =
  Some (mkBatteryInfo (Z_to_double (static_cast_int (percentage b))) (voltage b)).
Proof. destruct b. reflexivity. Qed.

(** Decoding what [eventToJson] builds, before any arithmetic: every
    member is found and read back with the conversion of its C++ type. *)
Lemma jsonToEvent_eventToJson_raw dump (e : Event) :
  jsonToEvent dump (eventToJson e) =
  Some (mkEvent (deviceId e) (timestamp e)
          (stringToEventType (eventTypeToString (eventType e)))
          (sequence e) (location e) (speedKph e) (heading e)
          (mkBatteryInfo (Z_to_double (static_cast_int (percentage (battery e))))
                         (voltage (battery e)))
          (mkNetworkInfo (wrap_i32 (rssi (network e))) (rat (network e)))
          (if decide (extras e = ∅) then ∅
           else jsonToExtras dump (extrasToJson (extras e)))).
Proof.
  destruct e as [did ts ty sq [la lo al ac] sp hd [pc vo] [rs ra] ex].
  unfold eventToJson. simpl extras.
  destruct (decide (ex = ∅)); reflexivity.
Qed.

Lemma reparse_extraToJson (v : string) : reparse (extraToJson v) = extraToJson v.
Proof. unfold extraToJson. now destruct (decide (v = "")). Qed.

Lemma reparse_extrasToJson (x : gmap string string) :
  reparse <$> extrasToJson x = extrasToJson x.
Proof.
  rewrite extrasToJson_fmap, <- map_fmap_compose.
  apply map_fmap_ext. intros k v _. apply reparse_extraToJson.
Qed.

(** Decoding the value [parse] reads from the text of [eventToJson e]
    gives what decoding [eventToJson e] itself gives. *)
Lemma jsonToEvent_reparse dump (e : Event) :
  well_formed e ->
  jsonToEvent dump (reparse (eventToJson e)) = jsonToEvent dump (eventToJson e).
Proof.
  intros (_ & _ & _ & (Hla & Hlo & Hal & Hac) & Hsp & Hhd & _ & Hvo).
  rewrite jsonToEvent_eventToJson_raw.
  destruct e as [did ts ty sq [la lo al ac] sp hd [pc vo] [rs ra] ex].
  cbn [lat lon alt accuracy speedKph heading battery voltage percentage network rssi rat
       location deviceId timestamp eventType sequence extras] in *.
  unfold eventToJson.
  cbn [lat lon alt accuracy speedKph heading battery voltage percentage network rssi rat
       location deviceId timestamp eventType sequence extras].
  unfold locationToJson, batteryToJson, networkToJson.
  cbn [lat lon alt accuracy voltage percentage rssi rat].
  destruct (decide (ex = ∅)) as [->|Hex].
  - cbn [reparse]. rewrite !fmap_insert, fmap_empty. cbn [reparse].
    rewrite !fmap_insert, !fmap_empty. cbn [reparse].
    rewrite Hla, Hlo, Hal, Hac, Hsp, Hhd, Hvo.
    destruct (0 <=? static_cast_int pc)%Z, (0 <=? rs)%Z; reflexivity.
  - cbn [reparse]. rewrite !fmap_insert, fmap_empty. cbn [reparse].
    rewrite !fmap_insert, !fmap_empty. cbn [reparse].
    rewrite reparse_extrasToJson.
    rewrite Hla, Hlo, Hal, Hac, Hsp, Hhd, Hvo.
    destruct (0 <=? static_cast_int pc)%Z, (0 <=? rs)%Z; reflexivity.
Qed.

End CodecFacts.

(** ** The order of doubles *)

Section FloatOrder.

Lemma SFcompare_antisym (a b : spec_float) :
  SFcompare a b = option_map CompOpp (SFcompare b a).
Proof.
  destruct a as [s1|s1| |s1 m1 e1], b as [s2|s2| |s2 m2 e2]; simpl;
    try reflexivity;
    try (destruct s1; reflexivity); try (destruct s2; reflexivity);
    try (destruct s1, s2; reflexivity).
  rewrite (Z.compare_antisym e1 e2).
  destruct s1, s2; simpl; try reflexivity;
    destruct (e1 ?= e2)%Z; simpl; try reflexivity;
    rewrite ?Pos.compare_cont_antisym; simpl;
    destruct (Pos.compare_cont Eq m1 m2); reflexivity.
Qed.

Lemma is_nan_spec (x : float) :
  is_nan x = match Prim2SF x with S754_nan => true | _ => false end.
Proof.
  unfold is_nan. rewrite FloatAxioms.eqb_spec. unfold SFeqb.
  destruct (Prim2SF x) as [s|s| |s m e]; simpl; try reflexivity;
    try (destruct s; reflexivity).
  destruct s; rewrite Z.compare_refl, Pos.compare_cont_refl; reflexivity.
Qed.

Lemma is_nan_false_compare (x y : float) :
  is_nan x = false -> is_nan y = false ->
  exists c, SFcompare (Prim2SF x) (Prim2SF y) = Some c.
Proof.
  rewrite !is_nan_spec.
  destruct (Prim2SF x) as [s1|s1| |s1 m1 e1], (Prim2SF y) as [s2|s2| |s2 m2 e2];
    simpl; intros Hx Hy; try discriminate; eexists; reflexivity.
Qed.

(** On doubles that are not NaN, [not (x < y)] is [y <= x]. *)
Lemma ltb_false_leb (x y : float) :
  is_nan x = false -> is_nan y = false ->
  PrimFloat.ltb x y = false -> PrimFloat.leb y x = true.
Proof.
  intros Hx Hy. destruct (is_nan_false_compare x y Hx Hy) as [c Hc].
  rewrite FloatAxioms.ltb_spec, FloatAxioms.leb_spec. unfold SFltb, SFleb.
  rewrite (SFcompare_antisym (Prim2SF y)), Hc. simpl.
  destruct c; simpl; congruence.
Qed.

Lemma leb_true_not_nan (x y : float) :
  PrimFloat.leb x y = true -> is_nan x = false /\ is_nan y = false.
Proof.
  rewrite FloatAxioms.leb_spec, !is_nan_spec. unfold SFleb.
  destruct (Prim2SF x) as [s1|s1| |s1 m1 e1], (Prim2SF y) as [s2|s2| |s2 m2 e2];
    simpl; try discriminate; intros _; split; reflexivity.
Qed.

Lemma leb_refl (x : float) : is_nan x = false -> PrimFloat.leb x x = true.
Proof.
  rewrite FloatAxioms.leb_spec, is_nan_spec. unfold SFleb.
  destruct (Prim2SF x) as [s|s| |s m e]; simpl; try discriminate; intros _;
    try (destruct s; reflexivity).
  destruct s; rewrite Z.compare_refl, Pos.compare_cont_refl; reflexivity.
Qed.

Lemma ltb_nan_l (x y : float) : is_nan x = true -> PrimFloat.ltb x y = false.
Proof.
  rewrite FloatAxioms.ltb_spec, is_nan_spec. unfold SFltb.
  destruct (Prim2SF x); simpl; try discriminate. reflexivity.
Qed.

Lemma ltb_nan_r (x y : float) : is_nan y = true -> PrimFloat.ltb x y = false.
Proof.
  rewrite FloatAxioms.ltb_spec, is_nan_spec. unfold SFltb.
  destruct (Prim2SF y); simpl; try discriminate. now destruct (Prim2SF x).
Qed.

(** [std::clamp] between ordered bounds gives a value within them, or
    the NaN it was given. *)
Lemma clamp_within (v lo hi : float) :
  PrimFloat.leb lo hi = true ->
  (is_nan v = true /\ Battery.clamp v lo hi = v) \/
  (is_nan v = false /\ within lo hi (Battery.clamp v lo hi) = true).
Proof.
  intros Hb. destruct (leb_true_not_nan lo hi Hb) as [Hlo Hhi].
  unfold Battery.clamp, within.
  destruct (is_nan v) eqn:Hv.
  - left. split; [reflexivity|].
    now rewrite (ltb_nan_l v lo Hv), (ltb_nan_r hi v Hv).
  - right. split; [reflexivity|].
    destruct (PrimFloat.ltb v lo) eqn:H1.
    + now rewrite (leb_refl lo Hlo), Hb.
    + destruct (PrimFloat.ltb hi v) eqn:H2.
      * now rewrite Hb, (leb_refl hi Hhi).
      * now rewrite (ltb_false_leb v lo Hv Hlo H1), (ltb_false_leb hi v Hhi Hv H2).
Qed.

End FloatOrder.

(** ** Facts about std::string::find and substr *)

Section StringFacts.

Lemma string_app_assoc (a b c : string) : (a +:+ b) +:+ c = a +:+ (b +:+ c).
Proof.
  induction a as [|x a IH]; [reflexivity|].
  change (String x ((a +:+ b) +:+ c) = String x (a +:+ (b +:+ c))). now f_equal.
Qed.

Lemma string_app_empty (a : string) : a +:+ "" = a.
Proof.
  induction a as [|x a IH]; [reflexivity|].
  change (String x (a +:+ "") = String x a). now f_equal.
Qed.

Lemma substring_skip (a s : string) (n : nat) :
  String.substring (String.length a) n (a +:+ s) = String.substring 0 n s.
Proof.
  induction a as [|x a IH]; [reflexivity|].
  change (String.substring (String.length a) n (a +:+ s) = String.substring 0 n s). exact IH.
Qed.

Lemma substring_prefix (s b : string) :
  String.substring 0 (String.length s) (s +:+ b) = s.
Proof.
  induction s as [|x s IH]; [now destruct b|].
  change (String x (String.substring 0 (String.length s) (s +:+ b)) = String x s).
  now f_equal.
Qed.

(** A text that contains [needle] is one [find] finds it in. *)
Lemma find_occurrence (a needle b : string) :
  needle <> "" -> Str.find (a +:+ needle +:+ b) needle 0 <> None.
Proof.
  intros Hne Hnone. unfold Str.find in Hnone.
  apply (String.index_correct3 0 (String.length a)) in Hnone; [|exact Hne | lia].
  apply Hnone. rewrite substring_skip. apply substring_prefix.
Qed.

Lemma string_length_app (a b : string) :
  String.length (a +:+ b) = (String.length a + String.length b)%nat.
Proof.
  induction a as [|x a IH]; [reflexivity|].
  change (S (String.length (a +:+ b)) = S (String.length a + String.length b)).
  now f_equal.
Qed.

Lemma substring_within (x y : string) (m n : nat) :
  (m + n <= String.length x)%nat ->
  String.substring m n (x +:+ y) = String.substring m n x.
Proof.
  revert m n. induction x as [|c x IH]; intros m n Hmn.
  - cbn in Hmn. assert (m = 0%nat) by lia. assert (n = 0%nat) by lia. subst.
    now destruct y.
  - destruct m as [|m].
    + destruct n as [|n]; [reflexivity|].
      change (String c (String.substring 0 n (x +:+ y)) = String c (String.substring 0 n x)).
      f_equal. apply IH. cbn in Hmn. lia.
    + change (String.substring m n (x +:+ y) = String.substring m n x).
      apply IH. cbn in Hmn. lia.
Qed.

(** The first occurrence: [needle] is found where it stands when it
    does not occur earlier. *)
Lemma find_first (a needle b : string) :
  needle <> "" ->
  (forall p, (p < String.length a)%nat ->
             String.substring p (String.length needle) (a +:+ needle) <> needle) ->
  Str.find (a +:+ needle +:+ b) needle 0 = Some (String.length a).
Proof.
  intros Hne Hearlier. unfold Str.find.
  assert (Hhere : String.substring (String.length a) (String.length needle)
                    (a +:+ needle +:+ b) = needle)
    by (rewrite substring_skip; apply substring_prefix).
  destruct (String.index 0 needle (a +:+ needle +:+ b)) as [m|] eqn:E.
  - f_equal. destruct (lt_eq_lt_dec m (String.length a)) as [[Hlt|Heq]|Hgt].
    + exfalso. apply (Hearlier m Hlt).
      pose proof (String.index_correct1 _ _ _ _ E) as Hm.
      rewrite <- string_app_assoc in Hm. rewrite substring_within in Hm; [exact Hm|].
      rewrite string_length_app. lia.
    + exact Heq.
    + exfalso. exact (String.index_correct2 _ _ _ _ E (String.length a) (Nat.le_0_l _) Hgt Hhere).
  - exfalso. now apply (find_occurrence a needle b Hne).
Qed.

(** [hay.find(needle, pos)] past a prefix of length [pos]. *)
Lemma find_skip (a s needle : string) :
  Str.find (a +:+ s) needle (String.length a) =
    option_map (fun i => (String.length a + i)%nat) (Str.find s needle 0).
Proof.
  unfold Str.find. induction a as [|c a IH].
  - change (String.index 0 needle s =
            option_map (fun i => i) (String.index 0 needle s)).
    now destruct (String.index 0 needle s).
  - change (String.index (S (String.length a)) needle (String c (a +:+ s)) =
            option_map (fun i => S (String.length a + i)) (String.index 0 needle s)).
    cbn [String.index]. rewrite IH. now destruct (String.index 0 needle s).
Qed.

End StringFacts.

(** ** Claims about the codec and the event-type tables *)

Section CodecProperties.
Import Num Events Json JsonCodec.

Lemma value_member_ok {T : Type} (get : json -> option T)
    (m : gmap string json) (key : string) (default : T) :
  member_ok get m key -> is_Some (value get (JObject m) key default).
Proof.
  intros Hok. unfold value.
  destruct (m !! key) as [v|] eqn:Hk; [now apply Hok | now exists default].
Qed.

Lemma nested_member_ok {T : Type} (dec : json -> option T)
    (m : gmap string json) (key : string) (default : T) :
  member_ok dec m key ->
  is_Some (if contains (JObject m) key
           then l ← at_key (JObject m) key; dec l
           else Some default).
Proof.
  intros Hok. unfold contains, at_key.
  destruct (m !! key) as [v|] eqn:Hk.
  - rewrite bool_decide_eq_true_2 by (now exists v). simpl. now apply Hok.
  - rewrite bool_decide_eq_false_2 by (intros [? ?]; discriminate). now exists default.
Qed.

Lemma unknown_type_read (m : gmap string json) :
  unknown_or_missing_type m ->
  exists s, value get_string (JObject m) "eventType" "heartbeat" = Some s /\
            stringToEventType s = Heartbeat.
Proof.
  intros [Hnone | (s & Hs & Hnot)]; unfold value.
  - rewrite Hnone. now exists "heartbeat".
  - rewrite Hs. exists s. split; [reflexivity|].
    now apply stringToEventType_unrecognized.
Qed.

Lemma ev_half_well_formed : well_formed ev_half.
Proof.
  unfold well_formed, finite_location, in_i32, in_u64. simpl.
  repeat split; try reflexivity; try lia.
  exists 19%Z. split; [reflexivity | lia].
Qed.

(** Decoding the JSON value that [eventToJson] builds from a
    well-formed event gives the event back with the battery percentage
    truncated toward zero, and the event itself exactly when that
    changes nothing. *)
Lemma eventToJson_roundtrip_value (dump : json -> string) (e : Event) :
  well_formed e ->
  jsonToEvent dump (eventToJson e) =
    Some (with_percentage e
            (Z_to_double (static_cast_int (percentage (battery e))))) /\
  (jsonToEvent dump (eventToJson e) = Some e <->
   Z_to_double (static_cast_int (percentage (battery e))) =
   percentage (battery e)).
Proof.
  intros (Hrssi & _ & _ & _).
  assert (Hdec : jsonToEvent dump (eventToJson e) =
    Some (with_percentage e
            (Z_to_double (static_cast_int (percentage (battery e)))))).
  { rewrite jsonToEvent_eventToJson_raw.
    rewrite stringToEventType_eventTypeToString, (wrap_i32_id _ Hrssi).
    unfold with_percentage. do 2 f_equal.
    - now destruct (network e).
    - destruct (decide (extras e = ∅)) as [->|_]; [reflexivity|].
      apply extras_roundtrip. }
  split; [exact Hdec|].
  rewrite Hdec. split.
  - intros [= He]. rewrite <- He at 2. reflexivity.
  - intros Hp. rewrite Hp. f_equal.
    destruct e as [? ? ? ? ? ? ? [? ?] ? ?]. reflexivity.
Qed.

(** C5 (amended).  Let [e] be a well-formed event that [serialize] can
    print, and let the library's [parse] read back the value of a text
    [dump] printed (a number_integer that is not negative as a
    number_unsigned).  Then [deserialize (serialize e)] succeeds and
    gives back [e] in every field except the battery percentage:
    [batteryToJson] writes [static_cast<int>(percentage)], so the
    percentage comes back truncated toward zero (as a double).  The
    round trip is therefore the identity exactly when the percentage is
    the double of its own integer part, that is, integer-valued (and
    not -0.0, which comes back as +0.0). *)
Theorem C5_roundtrip_truncates_battery
    (dump : json -> option string) (parse : string -> option json)
    (e : Event) (text : string) :
  well_formed e ->
  serialize dump e = Some text ->
  reads_back dump parse (eventToJson e) ->
  deserialize dump parse text =
    Some (with_percentage e
            (Z_to_double (static_cast_int (percentage (battery e))))) /\
  (deserialize dump parse text = Some e <->
   Z_to_double (static_cast_int (percentage (battery e))) =
   percentage (battery e)).
Proof.
  intros Hwf Htext Hback.
  assert (Hde : deserialize dump parse text =
                jsonToEvent (dump_parsed dump) (eventToJson e)).
  { unfold deserialize. rewrite (Hback text Htext). cbn [mbind option_bind].
    now apply jsonToEvent_reparse. }
  rewrite Hde. now apply eventToJson_roundtrip_value.
Qed.

Lemma C5_roundtrip_witness :
  deserialize (fun _ => Some "<ev_half>") (fun _ => Some (reparse (eventToJson ev_half))) "<ev_half>" =
    Some (with_percentage ev_half 19%float).
Proof.
  exact (proj1 (C5_roundtrip_truncates_battery
                  (fun _ => Some "<ev_half>") (fun _ => Some (reparse (eventToJson ev_half)))
                  ev_half "<ev_half>" ev_half_well_formed eq_refl (fun _ _ => eq_refl))).
Defined.

(** C5 as stated fails: the well-formed event [ev_half] carries 19.5 %
    and decodes, after encoding, to an event carrying 19 %, which is
    off by half a point and not by a rounding error. *)
Lemma C5_counterexample :
  well_formed ev_half /\
  percentage (battery ev_half) = 19.5%float /\
  forall dump, exists e',
    jsonToEvent dump (eventToJson ev_half) = Some e' /\
    percentage (battery e') = 19%float /\
    PrimFloat.sub (percentage (battery ev_half)) (percentage (battery e')) = 0.5%float /\
    e' <> ev_half.
Proof.
  split; [exact ev_half_well_formed|]. split; [reflexivity|].
  intros dump. eexists. split; [reflexivity|].
  split; [reflexivity|]. split; [reflexivity|].
  intros E. apply (f_equal (fun e => percentage (battery e))) in E.
  revert E. simpl. apply float_neq; reflexivity.
Qed.

(** C8 (amended).  For every event, serialization writes the
    [eventType] member as the snake_case string of the event's kind:
    the enumerator's name in lower case with an underscore (not a
    hyphen) between its words, e.g. ignition_on and speed_over_limit. *)
Theorem C8_eventType_is_snake_case (e : Event) :
  at_key (eventToJson e) "eventType" =
    Some (JString (snake_case (kindName (eventType e)))) /\
  eventTypeToString (eventType e) = snake_case (kindName (eventType e)).
Proof.
  rewrite <- eventTypeToString_snake. split; [|reflexivity].
  unfold eventToJson.
  destruct (decide (extras e = ∅)); reflexivity.
Qed.

(** C8 as stated fails: IgnitionOn and SpeedOverLimit are written with
    underscores, which are not their kebab-case strings. *)
Lemma C8_counterexample :
  at_key (eventToJson (Event_default IgnitionOn)) "eventType" =
    Some (JString "ignition_on") /\
  kebab_case (kindName IgnitionOn) = "ignition-on" /\
  eventTypeToString IgnitionOn <> kebab_case (kindName IgnitionOn) /\
  at_key (eventToJson (Event_default SpeedOverLimit)) "eventType" =
    Some (JString "speed_over_limit") /\
  kebab_case (kindName SpeedOverLimit) = "speed-over-limit" /\
  eventTypeToString SpeedOverLimit <> kebab_case (kindName SpeedOverLimit).
Proof. repeat split; try reflexivity; discriminate. Qed.

(** The default covers unknown names only: an [eventType] member that is
    not a string makes [value] throw, and the decoder fails. *)
Lemma jsonToEvent_type_not_a_string (dump : json -> string) (m : gmap string json) v :
  m !! "eventType" = Some v -> get_string v = None ->
  jsonToEvent dump (JObject m) = None.
Proof.
  intros Hm Hv.
  assert (Hty : value get_string (JObject m) "eventType" "heartbeat" = None).
  { unfold value. now rewrite Hm. }
  unfold jsonToEvent. rewrite Hty.
  destruct (value get_string (JObject m) "deviceId" "") as [did|]; [|reflexivity].
  destruct (value get_string (JObject m) "ts" "") as [ts|]; reflexivity.
Qed.

Example jsonToEvent_numeric_type :
  jsonToEvent (fun _ => "") (JObject obj_numeric_type) = None.
Proof.
  apply (jsonToEvent_type_not_a_string (fun _ => "") obj_numeric_type (JUInt 3));
    reflexivity.
Defined.

(** C10.  [stringToEventType] is a total function that returns
    [Heartbeat] for every string outside its nine names; hence decoding
    a JSON object whose members are well typed and whose [eventType] is
    missing, or is a string outside the nine names, succeeds with a
    Heartbeat event. *)
Theorem C10_unknown_type_decodes_as_heartbeat
    (dump : json -> string) (m : gmap string json) :
  well_formed_object m ->
  unknown_or_missing_type m ->
  (forall s, s ∉ recognized_names -> stringToEventType s = Heartbeat) /\
  exists e, jsonToEvent dump (JObject m) = Some e /\ eventType e = Heartbeat.
Proof.
  intros (Hdid & Hts & Hseq & Hloc & Hspd & Hhdg & Hbat & Hnet) Hty.
  split; [exact stringToEventType_unrecognized|].
  unfold jsonToEvent.
  destruct (value_member_ok get_string m "deviceId" "" Hdid) as [did ->].
  destruct (value_member_ok get_string m "ts" "" Hts) as [ts ->].
  destruct (unknown_type_read m Hty) as (s & -> & Hs).
  destruct (value_member_ok get_uint64 m "seq" 0%Z Hseq) as [sq ->].
  destruct (nested_member_ok jsonToLocation m "loc" Location_default Hloc) as [loc ->].
  destruct (value_member_ok get_double m "speedKph" 0%float Hspd) as [spd ->].
  destruct (value_member_ok get_double m "heading" 0%float Hhdg) as [hdg ->].
  destruct (nested_member_ok jsonToBattery m "battery" BatteryInfo_default Hbat) as [bat ->].
  destruct (nested_member_ok jsonToNetwork m "network" NetworkInfo_default Hnet) as [net ->].
  simpl. eexists. split; [reflexivity|]. exact Hs.
Qed.

Lemma C10_unknown_type_witness :
  exists e, jsonToEvent (fun _ => "") (JObject obj_teleport) = Some e /\
            eventType e = Heartbeat.
Proof.
  refine (proj2 (C10_unknown_type_decodes_as_heartbeat (fun _ => "") obj_teleport _ _)).
  - unfold well_formed_object, member_ok, obj_teleport.
    repeat split; intros v Hv; vm_compute in Hv;
      try discriminate; simplify_eq; eexists; reflexivity.
  - right. exists "teleport". split; [reflexivity|].
    unfold recognized_names. simpl.
    rewrite !not_elem_of_cons. repeat split; try discriminate.
    apply not_elem_of_nil.
Defined.

End CodecProperties.


(** ** Claims about the device state machine and the retry queue *)

Section DomainProperties.
Import Events Ports Domain.

Lemma processEvent_BatteryLow_from_Driving clk sm bus :
  currentState_ sm = DeviceState.Driving ->
  processEvent clk DeviceEvent.BatteryLow sm bus =
    (set_state DeviceState.LowBattery sm, emitTrackerEvent clk LowBattery ∅ bus).
Proof.
  intros Hst. unfold processEvent, next_state. rewrite Hst. simpl.
  rewrite Hst. destruct (decide _) as [_|Hn]; [reflexivity | now elim Hn].
Qed.

Lemma keeps_low_step clk c sm bus :
  currentState_ sm = DeviceState.LowBattery ->
  is_low (batteryPercentage_ sm) = true ->
  keeps_low c = true ->
  currentState_ (fst (apply_setter clk c (sm, bus))) = DeviceState.LowBattery /\
  is_low (batteryPercentage_ (fst (apply_setter clk c (sm, bus)))) = true /\
  snd (apply_setter clk c (sm, bus)) = bus.
Proof.
  destruct sm as [st ign mot con pct tm]. cbn [currentState_ batteryPercentage_].
  intros -> Hlow Hc.
  destruct c as [on|m|p|c]; cbn [keeps_low] in Hc; cbn [apply_setter fst snd].
  - unfold setIgnition, processEvent, next_state. cbn. now destruct on.
  - unfold setMotion, processEvent, next_state. cbn. now destruct m.
  - unfold setBatteryLevel. cbn [batteryPercentage_ currentState_ ignitionOn_ inMotion_
                                  connected_ motionStoppedTime_].
    rewrite Hlow, Hc. cbn [negb andb fst snd batteryPercentage_ currentState_].
    now repeat split.
  - subst c. unfold setConnectionStatus, processEvent, next_state. cbn.
    now destruct con.
Qed.

Lemma keeps_low_run calls sm bus :
  currentState_ sm = DeviceState.LowBattery ->
  is_low (batteryPercentage_ sm) = true ->
  forallb (fun cc => keeps_low (snd cc)) calls = true ->
  currentState_ (fst (run_setters calls (sm, bus))) = DeviceState.LowBattery /\
  is_low (batteryPercentage_ (fst (run_setters calls (sm, bus)))) = true /\
  snd (run_setters calls (sm, bus)) = bus.
Proof.
  revert sm. induction calls as [|[clk c] calls IH]; intros sm Hst Hlow Hcalls.
  - now repeat split.
  - cbn [forallb snd] in Hcalls. apply andb_true_iff in Hcalls as [Hc Hcalls].
    unfold run_setters. cbn [fold_left fst snd].
    destruct (keeps_low_step clk c sm bus Hst Hlow Hc) as (H1 & H2 & H3).
    destruct (apply_setter clk c (sm, bus)) as [sm' bus']. cbn [fst snd] in *. subst bus'.
    now apply IH.
Qed.

Lemma low_again_after_recovery clk r p sm bus :
  currentState_ sm = DeviceState.LowBattery ->
  is_low (batteryPercentage_ sm) = true ->
  is_low r = false -> is_low p = true ->
  let '(sm4, bus4) := setBatteryLevel clk r sm bus in
  let '(sm5, bus5) := setBatteryLevel clk p sm4 bus4 in
  currentState_ sm4 <> DeviceState.LowBattery /\
  currentState_ sm5 = DeviceState.LowBattery /\
  eventQueue_ bus5 =
    eventQueue_ bus4 ++ [with_timestamp (Event_default LowBattery) (getIsoTimestamp clk)].
Proof.
  destruct sm as [st ign mot con pct tm]. cbn [currentState_ batteryPercentage_].
  intros -> Hlow Hr Hp. unfold is_low, LOW_BATTERY_THRESHOLD in Hlow, Hr, Hp.
  unfold setBatteryLevel, is_low, LOW_BATTERY_THRESHOLD. simpl.
  rewrite Hlow, Hr. simpl.
  unfold processEvent, next_state. simpl.
  destruct ign; simpl; rewrite Hr, Hp; simpl;
    (split; [discriminate|]); split; reflexivity.
Qed.

(** C4 (amended).  The low-battery threshold of the device state
    machine is LOW_BATTERY_THRESHOLD = 15 %, compared strictly: with
    the machine in Driving and its stored level not below 15, setting
    the level to any value below 15 (14 % say) moves the state to
    LowBattery and puts exactly one LowBattery event on the bus.  The
    event is edge-triggered while the connection stays up: a further
    level below 15 changes neither the state nor the bus, and neither
    does any sequence of calls that set ignition, motion, levels below
    15 or a connected status; after such a sequence a level not below
    15 followed by one below 15 emits a LowBattery event again.
    Setting a level that is not below 15 (19 % say) leaves the state
    Driving and emits nothing. *)
Theorem C4_low_battery_threshold_is_15
    (clk clk' : Clock) (sm : DeviceStateMachine) (bus : EventBus) (p q r : float) :
  currentState_ sm = DeviceState.Driving ->
  PrimFloat.ltb (batteryPercentage_ sm) 15 = false ->
  PrimFloat.ltb p 15 = true ->
  PrimFloat.ltb q 15 = true ->
  PrimFloat.ltb r 15 = false ->
  LOW_BATTERY_THRESHOLD = 15%float /\
  (let '(sm1, bus1) := setBatteryLevel clk p sm bus in
   currentState_ sm1 = DeviceState.LowBattery /\
   eventQueue_ bus1 =
     eventQueue_ bus ++
       [with_timestamp (Event_default LowBattery) (getIsoTimestamp clk)] /\
   (let '(sm2, bus2) := setBatteryLevel clk' q sm1 bus1 in
    currentState_ sm2 = DeviceState.LowBattery /\
    eventQueue_ bus2 = eventQueue_ bus1) /\
   (let '(sm4, bus4) := setBatteryLevel clk' r sm1 bus1 in
    let '(sm5, bus5) := setBatteryLevel clk' p sm4 bus4 in
    currentState_ sm4 <> DeviceState.LowBattery /\
    currentState_ sm5 = DeviceState.LowBattery /\
    eventQueue_ bus5 =
      eventQueue_ bus4 ++
        [with_timestamp (Event_default LowBattery) (getIsoTimestamp clk')]) /\
   (forall calls : list (Clock * Setter),
      forallb (fun cc => keeps_low (snd cc)) calls = true ->
      let '(smk, busk) := run_setters calls (sm1, bus1) in
      currentState_ smk = DeviceState.LowBattery /\
      busk = bus1 /\
      (let '(sm4, bus4) := setBatteryLevel clk' r smk busk in
       let '(sm5, bus5) := setBatteryLevel clk' p sm4 bus4 in
       currentState_ sm4 <> DeviceState.LowBattery /\
       currentState_ sm5 = DeviceState.LowBattery /\
       eventQueue_ bus5 =
         eventQueue_ bus4 ++
           [with_timestamp (Event_default LowBattery) (getIsoTimestamp clk')]))) /\
  (let '(sm3, bus3) := setBatteryLevel clk r sm bus in
   currentState_ sm3 = DeviceState.Driving /\ bus3 = bus).
Proof.
  intros Hst Hold Hp Hq Hr.
  split; [reflexivity|]. split.
  - unfold setBatteryLevel at 1. unfold is_low, LOW_BATTERY_THRESHOLD.
    rewrite Hold, Hp. simpl.
    rewrite processEvent_BatteryLow_from_Driving by exact Hst.
    split; [reflexivity|]. split; [reflexivity|].
    split; [|split].
    + unfold setBatteryLevel, is_low, LOW_BATTERY_THRESHOLD. simpl.
      rewrite Hp, Hq. simpl. split; reflexivity.
    + unfold setBatteryLevel, is_low, LOW_BATTERY_THRESHOLD. simpl.
      rewrite Hp, Hr. simpl.
      unfold processEvent, next_state. simpl.
      destruct (ignitionOn_ sm) eqn:Hign; simpl; rewrite Hr; simpl;
        (split; [discriminate|]); split; reflexivity.
    + intros calls Hcalls.
      match goal with |- context [run_setters calls (?s1, ?b1)] =>
        destruct (keeps_low_run calls s1 b1 eq_refl Hp Hcalls) as (Hk1 & Hk2 & Hk3);
        destruct (run_setters calls (s1, b1)) as [smk busk]
      end.
      cbn [fst snd] in Hk1, Hk2, Hk3. subst busk.
      split; [exact Hk1|]. split; [reflexivity|].
      exact (low_again_after_recovery clk' r p smk _ Hk1 Hk2 Hr Hp).
  - unfold setBatteryLevel, is_low, LOW_BATTERY_THRESHOLD.
    rewrite Hold, Hr. simpl. split; [exact Hst | reflexivity].
Qed.

Lemma C4_threshold_witness :
  let '(sm1, bus1) := setBatteryLevel clk0 14 (fst driving_machine) (snd driving_machine) in
  currentState_ sm1 = DeviceState.LowBattery /\
  map eventType (eventQueue_ bus1) = [IgnitionOn; LowBattery].
Proof.
  pose proof (C4_low_battery_threshold_is_15 clk0 clk0
                (fst driving_machine) (snd driving_machine) 14 10 19
                eq_refl eq_refl eq_refl eq_refl eq_refl) as (_ & H & _).
  destruct (setBatteryLevel clk0 14 _ _) as [sm1 bus1].
  destruct H as (H1 & H2 & _). split; [exact H1|]. rewrite H2. reflexivity.
Defined.

(** C4 as stated fails: from Driving with a full battery, a level of
    19 % leaves the machine in Driving and puts no event on the bus;
    19 is not below the threshold of 15. *)
Lemma C4_counterexample :
  currentState_ (fst driving_machine) = DeviceState.Driving /\
  batteryPercentage_ (fst driving_machine) = 100%float /\
  (let '(sm1, bus1) := setBatteryLevel clk0 19 (fst driving_machine) (snd driving_machine) in
   currentState_ sm1 = DeviceState.Driving /\
   bus1 = snd driving_machine /\
   filter (fun e => eventType e = LowBattery) (eventQueue_ bus1) = []).
Proof. repeat split. Qed.

End DomainProperties.


Section QueueProperties.
Import Events Ports Domain Pipeline.

Lemma queueMessage_length (msg : Mqtt.MqttMessage) q :
  (length q <= 100)%nat ->
  (length (PahoMqttClient.queueMessage msg q) <= 100)%nat.
Proof.
  intros Hq. unfold PahoMqttClient.queueMessage, PahoMqttClient.kMaxOfflineQueueSize.
  rewrite length_app.
  destruct (100 <=? length q)%nat eqn:Hfull.
  - destruct q as [|m q]; simpl in *; lia.
  - apply Nat.leb_gt in Hfull. simpl. lia.
Qed.

Lemma queueMessage_run_length (msgs : list Mqtt.MqttMessage) q :
  (length q <= 100)%nat ->
  (length (fold_left (fun acc m => PahoMqttClient.queueMessage m acc) msgs q) <= 100)%nat.
Proof.
  revert q. induction msgs as [|m msgs IH]; intros q Hq; simpl; [exact Hq|].
  apply IH. now apply queueMessage_length.
Qed.

(** C2 (amended).  The retry queue of the Telemetry Pipeline has no
    capacity: a send while the transport is disconnected, or one the
    transport rejects, appends one message to the queue whatever its
    length and drops none.  The queue that holds at most 100 messages
    and drops its oldest entry when a message arrives while it is full
    is the offline queue of the MQTT client ([queueMessage], with
    kMaxOfflineQueueSize = 100). *)
Theorem C2_retry_queue_unbounded_client_queue_bounded
    {T : Type} {ops : ITransport T} (policy : PolicyEngine)
    (encode : Event -> string) (now : time_point) (ev : Event)
    (p : TelemetryPipeline) (tr : T)
    (msg : Mqtt.MqttMessage) (q : list Mqtt.MqttMessage)
    (msgs : list Mqtt.MqttMessage) :
  isConnected tr = false \/ fst (publish tr (buildTopic (deviceId_ p) ev) (encode ev) 1) = false ->
  (length q <= 100)%nat ->
  (exists pending,
     retryQueue_ (fst (sendTelemetry policy encode now ev p tr)) =
       retryQueue_ p ++ [pending] /\
     event pending = ev /\ payload pending = encode ev) /\
  length (retryQueue_ (fst (sendTelemetry policy encode now ev p tr))) =
    S (length (retryQueue_ p)) /\
  (length (PahoMqttClient.queueMessage msg q) <= 100)%nat /\
  (length q = 100%nat -> PahoMqttClient.queueMessage msg q = tail q ++ [msg]) /\
  ((length q < 100)%nat -> PahoMqttClient.queueMessage msg q = q ++ [msg]) /\
  (length (fold_left (fun acc m => PahoMqttClient.queueMessage m acc) msgs []) <= 100)%nat.
Proof.
  intros Hsend Hq.
  assert (Hpush : exists pending,
     retryQueue_ (fst (sendTelemetry policy encode now ev p tr)) =
       retryQueue_ p ++ [pending] /\
     event pending = ev /\ payload pending = encode ev).
  { unfold sendTelemetry.
    destruct (isConnected tr) eqn:Hc; simpl.
    - destruct Hsend as [Hd|Hrej]; [discriminate|].
      destruct (publish tr _ _ 1) as [ok tr'] eqn:Hpub. simpl in Hrej. subst ok.
      simpl. eexists. repeat split.
    - eexists. repeat split. }
  split; [exact Hpush|]. split.
  { destruct Hpush as (pending & -> & _). rewrite length_app. simpl. lia. }
  split; [now apply queueMessage_length|].
  unfold PahoMqttClient.queueMessage, PahoMqttClient.kMaxOfflineQueueSize.
  split; [|split].
  - intros ->. reflexivity.
  - intros Hlt. destruct (100 <=? length q)%nat eqn:Hfull; [|reflexivity].
    apply Nat.leb_le in Hfull. lia.
  - apply queueMessage_run_length. simpl. lia.
Qed.

Lemma C2_queue_witness :
  length (retryQueue_ (fst (sendTelemetry DefaultPolicies.DefaultPolicyEngine
            (fun _ => "") 0%Z (Event_default Heartbeat)
            (offline_pipeline 100) MockTransport.init))) = 101%nat.
Proof.
  pose proof (C2_retry_queue_unbounded_client_queue_bounded
    DefaultPolicies.DefaultPolicyEngine (fun _ => "") 0%Z (Event_default Heartbeat)
    (offline_pipeline 100) MockTransport.init
    (Mqtt.mkMqttMessage "t" "p" 1%Z false) [] []
    (or_introl eq_refl) (Nat.le_0_l 100)) as (_ & H & _).
  rewrite H. vm_compute. reflexivity.
Defined.

(** C2 as stated fails: 101 heartbeats delivered while the transport is
    disconnected leave 101 messages in the pipeline's retry queue, the
    first of them still at the head. *)
Lemma C2_counterexample :
  length (retryQueue_ (offline_pipeline 101)) = 101%nat /\
  (100 < length (retryQueue_ (offline_pipeline 101)))%nat /\
  retryQueue_ (offline_pipeline 101) =
    retryQueue_ (offline_pipeline 1) ++ skipn 1 (retryQueue_ (offline_pipeline 101)).
Proof.
  assert (H : length (retryQueue_ (offline_pipeline 101)) = 101%nat)
    by (vm_compute; reflexivity).
  split; [exact H|]. split; [rewrite H; lia|].
  vm_compute. reflexivity.
Qed.

End QueueProperties.


(** ** Claims about provisioning *)

Section DpsProperties.
Import Ports Mqtt DpsProvisioning.

Context {M : Type} {client_ops : IMqttClient M}.

Lemma complete_failure_Done (msg : string) (d : DpsProvisioning.t M) :
  msg <> "" -> callback_ d = true -> delivered_ d = [] ->
  Done (completeProvisioning (failure msg) d).
Proof.
  intros Hmsg Hcb Hdel. unfold Done, completeProvisioning. simpl.
  rewrite Hcb, Hdel. split; [reflexivity|].
  eexists. split; [reflexivity|]. unfold result_ok. simpl. now split.
Qed.

Lemma append_nonempty (a b : string) : a <> "" -> a +:+ b <> "".
Proof. destruct a; [congruence | discriminate]. Qed.

Lemma startProvisioning_started now config (m : M) :
  InFlight (startProvisioning now config true (idle m config)) \/
  Done (startProvisioning now config true (idle m config)).
Proof.
  unfold startProvisioning.
  destruct (connectWithTls _ _ _ _ _ _) as [connected m'].
  destruct connected; simpl.
  - left. repeat split. now left.
  - right. now apply complete_failure_Done.
Qed.

Lemma handleAssignmentResponse_step pl (d : DpsProvisioning.t M) :
  InFlight d -> InFlight (handleAssignmentResponse pl d) \/ Done (handleAssignmentResponse pl d).
Proof.
  intros (Hcb & Hst & Hdel). unfold handleAssignmentResponse.
  case_bool_decide as Hassigned.
  - destruct (decide (extractJsonValue pl "assignedHub" = "")) as [Hhub|Hhub];
      [rewrite (bool_decide_eq_true_2 _ Hhub); simpl; right;
       now apply complete_failure_Done|].
    destruct (decide (extractJsonValue pl "deviceId" = "")) as [Hdev|Hdev];
      [rewrite (bool_decide_eq_true_2 _ Hdev), andb_false_r; right;
       now apply complete_failure_Done|].
    rewrite (bool_decide_eq_false_2 _ Hhub), (bool_decide_eq_false_2 _ Hdev). simpl.
    right. unfold Done, completeProvisioning. simpl. rewrite Hcb, Hdel.
    split; [reflexivity|]. eexists. split; [reflexivity|].
    unfold result_ok. simpl. now repeat split.
  - case_bool_decide as Hassigning.
    + left. now repeat split.
    + right. apply complete_failure_Done; [|assumption..].
      now apply append_nonempty.
Qed.

Lemma handleRegistrationResponse_step pl (d : DpsProvisioning.t M) :
  InFlight d -> InFlight (handleRegistrationResponse pl d) \/ Done (handleRegistrationResponse pl d).
Proof.
  intros Hin. pose proof Hin as (Hcb & Hst & Hdel).
  unfold handleRegistrationResponse.
  repeat case_bool_decide.
  - left. repeat split; simpl; auto. right. now right.
  - now apply handleAssignmentResponse_step.
  - right. apply complete_failure_Done; [|assumption..].
    now apply append_nonempty.
Qed.

Lemma inflight_not_terminal s : inflight s -> s <> Idle /\ s <> Completed /\ s <> Failed.
Proof. intros [-> | [-> | ->]]; repeat split; discriminate. Qed.

(** An engine in flight stays in flight or completes once, under every
    input but [Cancel]. *)
Lemma step_InFlight (d : DpsProvisioning.t M) (i : Input) :
  is_cancel i = false -> InFlight d -> InFlight (step d i) \/ Done (step d i).
Proof.
  intros Hi Hin. pose proof Hin as (Hcb & Hst & Hdel).
  destruct i as [now| |connected reason|message]; simpl in *; [| discriminate | |].
  - unfold processEvents.
    destruct (isTimedOut now _) eqn:Hto.
    + right. now apply complete_failure_Done.
    + case_bool_decide as Hw; [|left; now repeat split].
      destruct (kPollingInterval <=? _)%Z; [|left; now repeat split].
      unfold pollAssignmentStatus. simpl.
      destruct (negb _ || _); left; now repeat split.
  - unfold onDpsConnected.
    case_bool_decide as Hc; simpl; [|left; exact Hin].
    destruct connected.
    + destruct (publish _ _ _ _ _) as [published m2].
      destruct published.
      * left. repeat split; simpl; auto. right. now left.
      * right. now apply complete_failure_Done.
    + right. apply complete_failure_Done; [|assumption..].
      now apply append_nonempty.
  - unfold onDpsMessage.
    destruct (Str.starts_with _ _); [|left; exact Hin].
    destruct (state_ d) eqn:Hs; try (left; exact Hin);
      now apply handleRegistrationResponse_step.
Qed.

Lemma cancel_InFlight (d : DpsProvisioning.t M) :
  InFlight d ->
  Cancelled (cancel d) /\ mqttClient_ (cancel d) = disconnect (mqttClient_ d).
Proof.
  intros (Hcb & Hst & Hdel). unfold cancel, Cancelled.
  destruct Hst as [-> | [-> | ->]]; simpl; now repeat split.
Qed.

(** Once the engine is Completed or Failed no input reaches the
    callback or changes the state. *)
Lemma step_terminal (d : DpsProvisioning.t M) (i : Input) :
  terminal (state_ d) ->
  state_ (step d i) = state_ d /\ delivered_ (step d i) = delivered_ d /\
  callback_ (step d i) = callback_ d.
Proof.
  intros Ht.
  destruct d as [m s c cb del op st lp]. simpl in Ht.
  destruct i as [now| |connected reason|message]; simpl.
  - unfold processEvents, isTimedOut.
    destruct Ht as [-> | ->]; repeat split; reflexivity.
  - unfold cancel. destruct Ht as [-> | ->]; repeat split; reflexivity.
  - unfold onDpsConnected. destruct Ht as [-> | ->]; repeat split; reflexivity.
  - unfold onDpsMessage. simpl. destruct (Str.starts_with _ _); [|now repeat split].
    destruct Ht as [-> | ->]; repeat split; reflexivity.
Qed.

Lemma Done_terminal (d : DpsProvisioning.t M) : Done d -> terminal (state_ d).
Proof.
  intros (_ & r & _ & Hr). unfold result_ok in Hr.
  destruct (success r); [left | right]; tauto.
Qed.

Lemma steps_terminal (inputs : list Input) (d : DpsProvisioning.t M) :
  terminal (state_ d) ->
  state_ (fold_left step inputs d) = state_ d /\
  delivered_ (fold_left step inputs d) = delivered_ d /\
  callback_ (fold_left step inputs d) = callback_ d.
Proof.
  revert d. induction inputs as [|i inputs IH]; intros d Ht; simpl; [now repeat split|].
  destruct (step_terminal d i Ht) as (Hs & Hd & Hc).
  destruct (IH (step d i)) as (Hs' & Hd' & Hc'); [now rewrite Hs|].
  rewrite Hs', Hd', Hc'. now repeat split.
Qed.

Lemma steps_Done (inputs : list Input) (d : DpsProvisioning.t M) :
  Done d -> Done (fold_left step inputs d).
Proof.
  intros Hd. destruct (steps_terminal inputs d (Done_terminal d Hd)) as (Hs & Hdel & Hc).
  unfold Done. rewrite Hs, Hdel, Hc. exact Hd.
Qed.

Lemma steps_Cancelled (inputs : list Input) (d : DpsProvisioning.t M) :
  Cancelled d -> Cancelled (fold_left step inputs d).
Proof.
  intros Hd. pose proof Hd as (_ & Hf & _).
  destruct (steps_terminal inputs d (or_intror Hf)) as (Hs & Hdel & Hc).
  unfold Cancelled. rewrite Hs, Hdel, Hc. exact Hd.
Qed.

Lemma steps_from_InFlight (inputs : list Input) (d : DpsProvisioning.t M) :
  InFlight d ->
  let d' := fold_left step inputs d in
  InFlight d' \/ Done d' \/ Cancelled d'.
Proof.
  revert d. induction inputs as [|i inputs IH]; intros d Hin; simpl; [now left|].
  destruct (is_cancel i) eqn:Hi.
  - destruct i; try discriminate. simpl.
    right. right. apply steps_Cancelled. now apply cancel_InFlight.
  - destruct (step_InFlight d i Hi Hin) as [Hin' | Hdone].
    + now apply IH.
    + right. left. now apply steps_Done.
Qed.

Lemma steps_no_cancel (inputs : list Input) (d : DpsProvisioning.t M) :
  forallb (fun i => negb (is_cancel i)) inputs = true ->
  InFlight d ->
  InFlight (fold_left step inputs d) \/ Done (fold_left step inputs d).
Proof.
  revert d. induction inputs as [|i inputs IH]; intros d Hnc Hin; simpl; [now left|].
  simpl in Hnc. apply andb_prop in Hnc as [Hi Hnc].
  apply negb_true_iff in Hi.
  destruct (step_InFlight d i Hi Hin) as [Hin' | Hdone].
  - now apply IH.
  - right. now apply steps_Done.
Qed.

Lemma run_situation (m : M) now config (inputs : list Input) :
  let d := run m now config inputs in
  InFlight d \/ Done d \/ Cancelled d.
Proof.
  unfold run.
  destruct (startProvisioning_started now config m) as [Hin | Hdone].
  - now apply steps_from_InFlight.
  - right. left. now apply steps_Done.
Qed.

Lemma processEvents_past_deadline now (d : DpsProvisioning.t M) :
  InFlight d ->
  (seconds (timeout (config_ d)) < now - startTime_ d)%Z ->
  Done (processEvents now d).
Proof.
  intros (Hcb & Hst & Hdel) Hlate. unfold processEvents.
  assert (Hto : isTimedOut now (set_client (Mqtt.processEvents (mqttClient_ d)) d) = true).
  { unfold isTimedOut. simpl.
    destruct Hst as [-> | [-> | ->]]; now apply Z.ltb_lt. }
  rewrite Hto. now apply complete_failure_Done.
Qed.

Lemma startProvisioning_fields now config (m : M) :
  config_ (startProvisioning now config true (idle m config)) = config /\
  startTime_ (startProvisioning now config true (idle m config)) = now.
Proof.
  unfold startProvisioning.
  destruct (connectWithTls _ _ _ _ _ _) as [connected m'].
  destruct connected; now split.
Qed.

Lemma step_fields (d : DpsProvisioning.t M) (i : Input) :
  config_ (step d i) = config_ d /\ startTime_ (step d i) = startTime_ d.
Proof.
  destruct i as [now| |connected reason|message]; simpl.
  - unfold processEvents. destruct (isTimedOut _ _); [now split|].
    case_bool_decide; [|now split].
    destruct (_ <=? _)%Z; [|now split].
    unfold pollAssignmentStatus. destruct (negb _ || _); now split.
  - unfold cancel. destruct (state_ d); now split.
  - unfold onDpsConnected. case_bool_decide; simpl; [|now split].
    destruct connected; [|now split].
    destruct (publish _ _ _ _ _) as [[] ?]; now split.
  - unfold onDpsMessage. destruct (Str.starts_with _ _); [|now split].
    destruct (state_ d); try now split.
    all: unfold handleRegistrationResponse, handleAssignmentResponse;
      repeat case_bool_decide; simpl; now split.
Qed.

Lemma run_fields (m : M) now config (inputs : list Input) :
  config_ (run m now config inputs) = config /\
  startTime_ (run m now config inputs) = now.
Proof.
  unfold run.
  destruct (startProvisioning_fields now config m) as (Hc & Hs).
  revert Hc Hs. generalize (startProvisioning now config true (idle m config)).
  induction inputs as [|i inputs IH]; intros d Hc Hs; simpl; [now split|].
  destruct (step_fields d i) as (Hc' & Hs').
  apply IH; congruence.
Qed.

(** C3 (amended).  In every provisioning run started by
    [startProvisioning] the completion callback is invoked at most
    once, on success with the assigned hub and device id (both
    non-empty, engine Completed), on failure with a non-empty error
    string (engine Failed); it is invoked exactly once on every run
    that is never cancelled and on which [processEvents] is called
    after the deadline.  Cancelling while the engine is in flight
    closes the transport and moves the engine to Failed without
    invoking the callback, and no later input invokes it. *)
Theorem C3_callback_at_most_once_none_on_cancel
    (m : M) (now now' : time_point) (config : DpsConfig)
    (inputs later : list Input) :
  let d := run m now config inputs in
  (length (delivered_ d) <= 1)%nat /\
  (forall r, r ∈ delivered_ d -> result_ok (state_ d) r) /\
  (forallb (fun i => negb (is_cancel i)) inputs = true ->
   (seconds (timeout config) < now' - now)%Z ->
   exists r, delivered_ (run m now config (inputs ++ [ProcessEvents now'])) = [r]) /\
  (inflight (state_ d) ->
   delivered_ d = [] /\
   state_ (cancel d) = Failed /\
   mqttClient_ (cancel d) = disconnect (mqttClient_ d) /\
   delivered_ (fold_left step later (cancel d)) = []).
Proof.
  intros d. subst d.
  pose proof (run_situation m now config inputs) as Hsit. simpl in Hsit.
  split; [|split; [|split]].
  - destruct Hsit as [(_ & _ & ->) | [(_ & r & -> & _) | (_ & _ & ->)]]; simpl; lia.
  - intros r Hr.
    destruct Hsit as [(_ & _ & Hd) | [(_ & r' & Hd & Hok) | (_ & _ & Hd)]];
      rewrite Hd in Hr.
    + now apply elem_of_nil in Hr.
    + apply list_elem_of_singleton in Hr. now subst r'.
    + now apply elem_of_nil in Hr.
  - intros Hnc Hlate. unfold run. rewrite fold_left_app. simpl.
    fold (run m now config inputs).
    assert (Hcase : InFlight (run m now config inputs) \/ Done (run m now config inputs)).
    { unfold run.
      destruct (startProvisioning_started now config m) as [Hin | Hdone].
      - now apply steps_no_cancel.
      - right. now apply steps_Done. }
    destruct (run_fields m now config inputs) as (Hcfg & Hstart).
    destruct Hcase as [Hin | Hdone].
    + destruct (processEvents_past_deadline now' _ Hin) as (_ & r & Hr & _).
      * now rewrite Hcfg, Hstart.
      * now exists r.
    + destruct (step_terminal _ (ProcessEvents now') (Done_terminal _ Hdone)) as (_ & Hdel & _).
      simpl in Hdel. rewrite Hdel.
      destruct Hdone as (_ & r & Hr & _). now exists r.
  - intros Hfl.
    assert (Hin : InFlight (run m now config inputs)).
    { destruct Hsit as [Hin | [Hdone | (_ & Hf & _)]]; [exact Hin | |].
      - apply Done_terminal in Hdone.
        destruct (inflight_not_terminal _ Hfl) as (_ & Hc & Hf).
        destruct Hdone; contradiction.
      - destruct (inflight_not_terminal _ Hfl) as (_ & _ & Hnf). contradiction. }
    destruct (cancel_InFlight _ Hin) as (Hcan & Hdisc).
    pose proof Hin as (_ & _ & Hdel).
    pose proof Hcan as (_ & Hfailed & _).
    pose proof (steps_Cancelled later _ Hcan) as (_ & _ & Hlater).
    now repeat split.
Qed.

End DpsProperties.

Section DpsExampleFacts.
Import Ports Mqtt DpsProvisioning.

Lemma C3_callback_witness :
  exists r, delivered_ (run client0 0%Z config0
                          (stalled_run ++ [ProcessEvents (seconds 121)])) = [r].
Proof.
  refine (proj1 (proj2 (proj2 (C3_callback_at_most_once_none_on_cancel
            client0 0%Z (seconds 121) config0 stalled_run []))) _ _).
  - reflexivity.
  - reflexivity.
Defined.

(** S1 of the specification: "assigning", one poll, then "assigned". *)
Example provisioning_success :
  let d := run client0 0%Z config0 (stalled_run ++ [response assigned_payload]) in
  state_ d = Completed /\
  delivered_ d = [mkProvisioningResult true "h1" "d1" "" ""] /\
  RecordingClient.calls_ (mqttClient_ d) =
    [RecordingClient.CConnect "global.azure-devices-provisioning.net" 8883
       "356938035643809" "0ne00000000/registrations/356938035643809/api-version=2019-03-31";
     RecordingClient.CSubscribe "$dps/registrations/res/#" 1;
     RecordingClient.CPublish "$dps/registrations/PUT/iotdps-register/?$rid=1"
       ("{" +:+ member "registrationId" "356938035643809" +:+ "}") 1 false;
     RecordingClient.CPublish
       "$dps/registrations/GET/iotdps-get-operationstatus/?$rid=2&operationId=op-1"
       "" 1 false;
     RecordingClient.CDisconnect].
Proof. vm_compute. repeat split. Qed.

(** C3 as stated fails: a run that is cancelled while the engine waits
    for its assignment ends Failed with the transport closed and the
    callback never invoked, also after the deadline has passed. *)
Lemma C3_counterexample :
  let d := run client0 0%Z config0
               [OnDpsConnected true "Connected successfully";
                response assigning_payload] in
  state_ d = WaitingForAssignment /\
  state_ (cancel d) = Failed /\
  delivered_ (cancel d) = [] /\
  last (RecordingClient.calls_ (mqttClient_ (cancel d))) = Some RecordingClient.CDisconnect /\
  delivered_ (processEvents (seconds 121) (cancel d)) = [].
Proof. vm_compute. repeat split. Qed.

End DpsExampleFacts.


(** ** Claims about the connection manager *)

Section ConnectionManagerProperties.
Import Mqtt DpsConnectionManager.

(** C9.  When the connection manager is Connected (state Connected and
    the hub client connected) and [subscribe] is given a topic that
    does not begin with "devices/", the one call it makes on the hub
    client is a subscription to devices/<device_id>/messages/devicebound/#
    at the given QoS: the call, its result and the resulting manager do
    not depend on the topic given. *)
Theorem C9_subscribe_discards_foreign_topic
    {M : Type} {client_ops : IMqttClient M}
    (c : DpsConnectionManager.t M) (hub : M) (tp tp' : string) (q : Z) :
  state_ c = Connected ->
  hubClient_ c = Some hub ->
  Mqtt.isConnected hub = true ->
  String.prefix "devices/" tp = false ->
  String.prefix "devices/" tp' = false ->
  let call := Mqtt.subscribe hub
                ("devices/" +:+ deviceId_ c +:+ "/messages/devicebound/#") q in
  subscribe tp q c = (fst call, set_hub (snd call) c) /\
  subscribe tp' q c = subscribe tp q c.
Proof.
  intros Hst Hhub Hconn Htp Htp' call.
  assert (Hsub : forall t, String.prefix "devices/" t = false ->
                 subscribe t q c = (fst call, set_hub (snd call) c)).
  { intros t Ht. unfold subscribe, isConnected, on_hub.
    rewrite Hst, Hhub, Hconn, starts_with_prefix, Ht. simpl.
    unfold buildDeviceCommandTopic. fold call.
    now destruct call. }
  split; [now apply Hsub|].
  now rewrite !Hsub.
Qed.

Lemma C9_subscribe_witness :
  subscribe "alerts/#" 1 attached =
    (true, set_hub (RecordingClient.mk true true
                      [RecordingClient.CSubscribe "devices/d1/messages/devicebound/#" 1])
                   attached).
Proof.
  exact (proj1 (C9_subscribe_discards_foreign_topic attached
                  (RecordingClient.mk true true []) "alerts/#" "$iothub/twin/res/#" 1
                  eq_refl eq_refl eq_refl eq_refl eq_refl)).
Defined.

End ConnectionManagerProperties.


(** ** The twin handler on a failed write *)

Section TwinProperties.
Import Json TwinHandler.

(** C6 fails on the code.  With the configuration file failing to open,
    the apply reports FileWriteError and writes no file, yet the
    version returned by [getConfigVersion] has already moved from the
    empty string to "7": the handler stores the new version before it
    opens the file. *)
Theorem C6_failed_write_moves_version :
  let '(result, h) := applyDesiredAndWriteFile read_only_disk desired7 fresh_handler in
  status result = FileWriteError /\
  configFile_ h = None /\
  getConfigVersion fresh_handler = "" /\
  getConfigVersion h = "7" /\
  hasChanges result = true.
Proof. vm_compute. repeat split. Qed.

(** The same desired properties sent again after the failure count as
    unchanged, although they were never written. *)
Example reapply_after_failed_write :
  let '(_, h) := applyDesiredAndWriteFile read_only_disk desired7 fresh_handler in
  let '(result, h') := applyDesiredAndWriteFile read_only_disk desired7 h in
  status result = FileWriteError /\ hasChanges result = false /\ configFile_ h' = None.
Proof. vm_compute. repeat split. Qed.

(** On every failed write the stored version is the version of the
    desired properties just received, whatever it was before. *)
Lemma failed_write_stores_new_version env desired h result h' :
  applyDesiredAndWriteFile env desired h = (result, h') ->
  status result = FileWriteError ->
  getConfigVersion h' = configVersion result /\ configFile_ h' = configFile_ h.
Proof.
  unfold applyDesiredAndWriteFile, getConfigVersion.
  destruct (extract_version desired) as [version|]; [|intros [= <- <-]; discriminate].
  destruct (_ ≫= _) as [clean|]; [|intros [= <- <-]; discriminate].
  destruct (file_opens env); simpl; intros [= <- <-]; [discriminate|].
  intros _. simpl. split; [|reflexivity].
  case_bool_decide; simpl; congruence.
Qed.

Example failed_write_stores_7 :
  let h' := snd (applyDesiredAndWriteFile read_only_disk desired7 fresh_handler) in
  getConfigVersion h' = "7" /\ configFile_ h' = None.
Proof.
  exact (failed_write_stores_new_version read_only_disk desired7 fresh_handler _ _
           (surjective_pairing _) eq_refl).
Defined.

End TwinProperties.


(** ** The simulator: sequence numbers and reconnection *)

Section SimulatorInvariant.
Import Num Events Ports Simulator.

#[local] Open Scope Z_scope.

(** [P] and [Q] are any properties of the two observations that
    emitting one event, respectively making one attempt, preserves. *)
Variable P : Z -> list Z -> Prop.
Variable Q : Z -> list (Z * Z) -> Prop.

Hypothesis P_emit :
  forall n l, P n l -> P (wrap_u64 (n + 1)) (l ++ [wrap_u64 (n + 1)]).
Hypothesis Q_attempt :
  forall k r, Q k r -> k < MAX_RECONNECT_ATTEMPTS ->
              Q (k + 1) (r ++ [(k, delaySeconds k)]).

Lemma Inv_log_Connect s : Inv P Q s -> Inv P Q (log Connect s).
Proof.
  intros [HP HQ]. unfold Inv, log, emitted_sequences, reconnects. simpl.
  rewrite !omap_app. simpl. rewrite !app_nil_r. now split.
Qed.





Lemma Inv_onDpsConnectionComplete_failed d h s :
  Inv P Q s -> Inv P Q (onDpsConnectionComplete false d h s).
Proof. intros H. exact H. Qed.

















End SimulatorInvariant.

Section SimulatorProperties.
Import Num Events Ports Domain Pipeline Simulator.

#[local] Open Scope Z_scope.









Example offline_events_take_numbers :
  emitted_sequences (trace_ (run config_legacy gap_calls)) = [1; 2; 3; 4] /\
  published_sequences (trace_ (run config_legacy gap_calls)) = [1; 4].
Proof. vm_compute. split; reflexivity. Qed.




(** The delays before attempts 0 to 10. *)
Example reconnect_delay_table :
  map delaySeconds (map Z.of_nat (seq 0 11)) =
    [1; 2; 4; 8; 16; 32; 60; 60; 60; 60; 60].
Proof. vm_compute. reflexivity. Qed.



End SimulatorProperties.


(** ** Battery.cpp *)

Section BatteryProperties.
Import Events Battery.

(** The battery never leaves its bounds: a tick and [setPercentage]
    give a percentage within 0 and 100, and [getInfo] a voltage within
    3.2 and 4.2 next to the percentage as it stands; the one exception
    is NaN, which [std::clamp] hands back ([setPercentage] of NaN is
    NaN). *)
Theorem battery_stays_within_bounds (uniform : float -> float -> float)
    (deltaSeconds : float) (isDriving : bool) (percentage_ pct : float) :
  nan_or_within 0 100 (tick uniform deltaSeconds isDriving percentage_) /\
  (is_nan pct = false -> within 0 100 (setPercentage pct) = true) /\
  (is_nan pct = true -> setPercentage pct = pct) /\
  nan_or_within MIN_VOLTAGE MAX_VOLTAGE (voltage (getInfo uniform percentage_)) /\
  percentage (getInfo uniform percentage_) = percentage_.
Proof.
  assert (Hclamp : forall v lo hi, PrimFloat.leb lo hi = true ->
                     nan_or_within lo hi (clamp v lo hi)).
  { intros v lo hi Hb. unfold nan_or_within.
    destruct (clamp_within v lo hi Hb) as [[Hn ->]|[_ Hw]]; [now left | now right]. }
  split; [apply Hclamp; reflexivity|].
  split.
  { intros Hn. destruct (clamp_within pct 0 100 eq_refl) as [[Hn' _]|[_ Hw]];
      [congruence | exact Hw]. }
  split.
  { intros Hn. destruct (clamp_within pct 0 100 eq_refl) as [[_ He]|[Hn' _]];
      [exact He | congruence]. }
  split; [apply Hclamp; reflexivity | reflexivity].
Qed.

End BatteryProperties.

(** ** StateMachine.cpp *)

Section LegacyMachineProperties.
Import Events StateMachine.

Lemma settle_settled sm : settled (settle sm).
Proof.
  destruct sm as [st ign mot pct geo].
  unfold settled, settle, state_for, transitionTo. simpl.
  destruct (low pct) eqn:Hl; simpl; [now rewrite Hl|].
  destruct ign, mot; simpl; now rewrite Hl.
Qed.

Lemma apply_op_settled op sm : settled sm -> settled (fst (apply_op op sm)).
Proof.
  intros H. destruct op as [on|moving|p|entered id|v l]; simpl.
  - unfold processIgnition. case_bool_decide; [exact H | apply settle_settled].
  - unfold processMotion. case_bool_decide; [exact H | apply settle_settled].
  - destruct sm as [st ign mot pct geo].
    unfold processBatteryLevel, settled, state_for, transitionTo in *. simpl in *.
    destruct (low pct) eqn:Hold, (low p) eqn:Hnew; simpl;
      rewrite ?Hnew; try reflexivity; try exact H.
    destruct ign, mot; simpl; now rewrite Hnew.
  - unfold processGeofenceChange. destruct entered; [exact H|].
    case_bool_decide; exact H.
  - unfold processSpeedLimit. destruct (PrimFloat.ltb l v); exact H.
Qed.

Lemma run_ops_settled ops sm : settled sm -> settled (fst (run_ops ops sm)).
Proof.
  revert sm. induction ops as [|op ops IH]; intros sm H; simpl; [exact H|].
  pose proof (apply_op_settled op sm H) as H1.
  destruct (apply_op op sm) as [sm1 ems1]. simpl in H1.
  specialize (IH sm1 H1). destruct (run_ops ops sm1) as [sm2 ems2]. exact IH.
Qed.

(** After every sequence of calls the state of the legacy machine is
    the one its three inputs call for: LowBattery when the level is at
    or below 20, else Driving with ignition and motion, Parked with
    ignition alone, and Idle otherwise. *)
Theorem legacy_state_follows_inputs (ops : list Op) :
  let sm := fst (run_ops ops StateMachine.init) in
  currentState_ sm =
    state_for (PrimFloat.leb (batteryPercentage_ sm) 20) (ignitionOn_ sm) (inMotion_ sm).
Proof. apply (run_ops_settled ops StateMachine.init). reflexivity. Qed.

Lemma count_type_app ty l1 l2 :
  count_type ty (l1 ++ l2) = (count_type ty l1 + count_type ty l2)%nat.
Proof. unfold count_type. now rewrite filter_app, length_app. Qed.

Lemma settle_fields sm :
  batteryPercentage_ (settle sm) = batteryPercentage_ sm /\
  ignitionOn_ (settle sm) = ignitionOn_ sm /\
  inMotion_ (settle sm) = inMotion_ sm /\
  currentGeofences_ (settle sm) = currentGeofences_ sm.
Proof.
  destruct sm as [st ign mot pct geo]. unfold settle, transitionTo. simpl.
  destruct (low pct); [repeat split|].
  destruct ign, mot; repeat split.
Qed.

(** Over every run the LowBattery events are as many as the reported
    levels cross the threshold downwards, from above 20 to 20 or
    below: one event per crossing, none while the level stays low. *)
Theorem legacy_low_battery_events_are_crossings (ops : list Op) (sm : StateMachine.t) :
  count_type LowBattery (snd (run_ops ops sm)) = crossings (batteryPercentage_ sm) ops.
Proof.
  revert sm. induction ops as [|op ops IH]; intros sm; simpl; [reflexivity|].
  destruct (apply_op op sm) as [sm1 ems1] eqn:E1.
  specialize (IH sm1). destruct (run_ops ops sm1) as [sm2 ems2]. simpl in *.
  rewrite count_type_app, IH.
  destruct op as [on|moving|p|entered id|v l]; simpl in E1.
  - unfold processIgnition in E1. case_bool_decide; simplify_eq; [reflexivity|].
    destruct (settle_fields (mk (currentState_ sm) on (inMotion_ sm)
                (batteryPercentage_ sm) (currentGeofences_ sm))) as (-> & _).
    destruct on; reflexivity.
  - unfold processMotion in E1. case_bool_decide; simplify_eq; [reflexivity|].
    destruct (settle_fields (mk (currentState_ sm) (ignitionOn_ sm) moving
                (batteryPercentage_ sm) (currentGeofences_ sm))) as (-> & _).
    destruct moving; reflexivity.
  - unfold processBatteryLevel in E1.
    destruct (low (batteryPercentage_ sm)), (low p); simpl in E1; simplify_eq;
      try reflexivity.
    destruct (ignitionOn_ sm), (inMotion_ sm); reflexivity.
  - unfold processGeofenceChange in E1. destruct entered; simplify_eq; [reflexivity|].
    case_bool_decide; simplify_eq; reflexivity.
  - unfold processSpeedLimit in E1. destruct (PrimFloat.ltb l v); simplify_eq; reflexivity.
Qed.

Lemma take_turns_other on off b em rest :
  fst em <> on -> fst em <> off ->
  take_turns on off b (em :: rest) = take_turns on off b rest.
Proof. intros H1 H2. simpl. now rewrite !decide_False. Qed.

(** What one call emits, beside the two flags after it: an ignition
    event exactly when the ignition flag changes, a motion event
    exactly when the motion flag changes. *)
Lemma apply_op_flags op sm :
  let '(sm1, ems) := apply_op op sm in
  (ems = [] /\ ignitionOn_ sm1 = ignitionOn_ sm /\ inMotion_ sm1 = inMotion_ sm) \/
  (exists x, ems = [(IgnitionOn, x)] /\ ignitionOn_ sm = false /\ ignitionOn_ sm1 = true /\
             inMotion_ sm1 = inMotion_ sm) \/
  (exists x, ems = [(IgnitionOff, x)] /\ ignitionOn_ sm = true /\ ignitionOn_ sm1 = false /\
             inMotion_ sm1 = inMotion_ sm) \/
  (exists x, ems = [(MotionStart, x)] /\ inMotion_ sm = false /\ inMotion_ sm1 = true /\
             ignitionOn_ sm1 = ignitionOn_ sm) \/
  (exists x, ems = [(MotionStop, x)] /\ inMotion_ sm = true /\ inMotion_ sm1 = false /\
             ignitionOn_ sm1 = ignitionOn_ sm) \/
  (exists ty x, ems = [(ty, x)] /\ ty <> IgnitionOn /\ ty <> IgnitionOff /\
                ty <> MotionStart /\ ty <> MotionStop /\
                ignitionOn_ sm1 = ignitionOn_ sm /\ inMotion_ sm1 = inMotion_ sm).
Proof.
  destruct op as [on|moving|p|entered id|v l]; simpl.
  - unfold processIgnition. case_bool_decide as Hc; simpl; [now left|].
    destruct (settle_fields (mk (currentState_ sm) on (inMotion_ sm)
                (batteryPercentage_ sm) (currentGeofences_ sm))) as (_ & -> & -> & _).
    simpl. right.
    destruct on, (ignitionOn_ sm) eqn:Hi; try (now elim Hc).
    + left. eexists. repeat split.
    + right. left. eexists. repeat split.
  - unfold processMotion. case_bool_decide as Hc; simpl; [now left|].
    destruct (settle_fields (mk (currentState_ sm) (ignitionOn_ sm) moving
                (batteryPercentage_ sm) (currentGeofences_ sm))) as (_ & -> & -> & _).
    simpl. right. right. right.
    destruct moving, (inMotion_ sm) eqn:Hm; try (now elim Hc).
    + left. eexists. repeat split.
    + right. left. eexists. repeat split.
  - unfold processBatteryLevel, transitionTo.
    destruct (low (batteryPercentage_ sm)), (low p); simpl; try (now left).
    + left. repeat split. all: destruct (ignitionOn_ sm), (inMotion_ sm); reflexivity.
    + do 5 right. do 2 eexists. repeat split; discriminate.
  - unfold processGeofenceChange. destruct entered.
    + do 5 right. do 2 eexists. repeat split; discriminate.
    + case_bool_decide; [|now left].
      do 5 right. do 2 eexists. repeat split; discriminate.
  - unfold processSpeedLimit. destruct (PrimFloat.ltb l v); [|now left].
    do 5 right. do 2 eexists. repeat split; discriminate.
Qed.

(** Ignition events take turns, and so do motion events: over every
    run an IgnitionOn is followed by an IgnitionOff before the next
    IgnitionOn, the first of them being the one that changes the
    ignition as the run finds it, and likewise MotionStart and
    MotionStop.  No call repeats an event for a value already set. *)
Theorem legacy_ignition_and_motion_take_turns (ops : list Op) (sm : StateMachine.t) :
  take_turns IgnitionOn IgnitionOff (negb (ignitionOn_ sm)) (snd (run_ops ops sm)) /\
  take_turns MotionStart MotionStop (negb (inMotion_ sm)) (snd (run_ops ops sm)).
Proof.
  revert sm. induction ops as [|op ops IH]; intros sm; [now split|].
  simpl. pose proof (apply_op_flags op sm) as Hop.
  destruct (apply_op op sm) as [sm1 ems1].
  specialize (IH sm1). destruct (run_ops ops sm1) as [sm2 ems2]. simpl in *.
  destruct IH as [IHi IHm].
  destruct Hop as [(-> & Hi & Hm)|[(x & -> & Hi0 & Hi & Hm)|[(x & -> & Hi0 & Hi & Hm)|
                  [(x & -> & Hm0 & Hm & Hi)|[(x & -> & Hm0 & Hm & Hi)|
                  (ty & x & -> & N1 & N2 & N3 & N4 & Hi & Hm)]]]]];
    rewrite ?Hi, ?Hm, ?Hi0, ?Hm0 in *; simpl in *.
  - now split.
  - now repeat split.
  - now repeat split.
  - now repeat split.
  - now repeat split.
  - rewrite !decide_False by assumption. now split.
Qed.

Lemma remove_first_last (x : string) (l : list string) :
  x ∉ l -> remove_first x (l ++ [x]) = l.
Proof.
  induction l as [|y l IH]; intros Hx; simpl.
  - now rewrite decide_True.
  - apply not_elem_of_cons in Hx as [Hne Hx].
    rewrite decide_False by congruence. now rewrite IH.
Qed.

(** Leaving a geofence the machine is not in does nothing and emits
    nothing; entering one it is not in and leaving it again gives back
    the machine as it was, with one GeofenceEnter and one GeofenceExit
    event that carry the fence's id. *)
Theorem legacy_geofence_exit_undoes_enter (id : string) (sm : StateMachine.t) :
  id ∉ currentGeofences_ sm ->
  processGeofenceChange false id sm = (sm, []) /\
  let '(sm1, ems1) := processGeofenceChange true id sm in
  let '(sm2, ems2) := processGeofenceChange false id sm1 in
  sm2 = sm /\
  ems1 = [(GeofenceEnter, {[ "geofenceId" := id ]})] /\
  ems2 = [(GeofenceExit, {[ "geofenceId" := id ]})].
Proof.
  intros Hid. destruct sm as [st ign mot pct geo]. simpl in Hid.
  unfold processGeofenceChange. simpl.
  rewrite bool_decide_eq_false_2 by exact Hid.
  split; [reflexivity|].
  rewrite bool_decide_eq_true_2 by (apply elem_of_app; right; apply list_elem_of_here).
  rewrite remove_first_last by exact Hid. repeat split.
Qed.

Lemma legacy_geofence_witness :
  processGeofenceChange false "depot" StateMachine.init = (StateMachine.init, []).
Proof.
  apply (legacy_geofence_exit_undoes_enter "depot" StateMachine.init).
  simpl. apply not_elem_of_nil.
Defined.

End LegacyMachineProperties.
Section DeviceMachineProperties.
Import Events Ports Domain.

(** [processEvent] moves to the state [next_state] names and leaves
    the inputs of the machine as they are. *)
Lemma processEvent_fields clk ev sm bus :
  let sm' := fst (processEvent clk ev sm bus) in
  currentState_ sm' = fst (next_state clk ev sm) /\
  ignitionOn_ sm' = ignitionOn_ sm /\ inMotion_ sm' = inMotion_ sm /\
  connected_ sm' = connected_ sm /\ batteryPercentage_ sm' = batteryPercentage_ sm.
Proof.
  destruct sm as [st ign mot con pct tm].
  unfold processEvent.
  destruct (next_state clk ev _) as [newState sm1] eqn:E. simpl.
  assert (Hsm1 : ignitionOn_ sm1 = ign /\ inMotion_ sm1 = mot /\
                 connected_ sm1 = con /\ batteryPercentage_ sm1 = pct /\
                 currentState_ sm1 = st).
  { unfold next_state in E. simpl in E.
    destruct st, ev; simplify_eq; repeat split. }
  destruct Hsm1 as (Hi & Hm & Hc & Hp & Hs).
  destruct (decide (newState <> currentState_ sm1)) as [Hne|He]; simpl.
  - repeat split; assumption.
  - repeat split; try assumption.
    destruct (decide (newState = currentState_ sm1)) as [->|]; [reflexivity|contradiction].
Qed.

Lemma apply_setter_coherent clk c st :
  coherent (fst st) -> coherent (fst (apply_setter clk c st)).
Proof.
  destruct st as [sm bus]. unfold coherent. simpl.
  destruct c as [on|m|p|c]; simpl.
  - unfold setIgnition.
    match goal with |- context [processEvent clk ?e ?s bus] =>
      destruct (processEvent_fields clk e s bus) as (-> & _ & _ & -> & ->) end.
    destruct sm as [st ign mot con pct tm]. simpl.
    destruct st, on, con; simpl; intuition (try discriminate; try congruence).
  - unfold setMotion. destruct m.
    + match goal with |- context [processEvent clk ?e ?s bus] =>
        destruct (processEvent_fields clk e s bus) as (-> & _ & _ & -> & ->) end.
      destruct sm as [st ign mot con pct tm]. simpl.
      destruct st, con; simpl; intuition (try discriminate; try congruence).
    + match goal with |- context [processEvent clk ?e ?s bus] =>
        destruct (processEvent_fields clk e s bus) as (-> & _ & _ & -> & ->) end.
      destruct sm as [st ign mot con pct tm]. simpl.
      destruct st, con; simpl; intuition (try discriminate; try congruence).
  - unfold setBatteryLevel.
    destruct (is_low (batteryPercentage_ sm)) eqn:Hold, (is_low p) eqn:Hnew; simpl;
      try match goal with |- context [processEvent clk ?e ?s bus] =>
        destruct (processEvent_fields clk e s bus) as (-> & _ & _ & -> & ->) end;
      destruct sm as [st ign mot con pct tm]; simpl in *;
      rewrite ?Hnew; destruct st, con, ign; simpl;
      intuition (try discriminate; try congruence).
  - unfold setConnectionStatus.
    destruct (connected_ sm) eqn:Hcon, c; simpl;
      try match goal with |- context [processEvent clk ?e ?s bus] =>
        destruct (processEvent_fields clk e s bus) as (-> & _ & _ & -> & ->) end;
      destruct sm as [st ign mot con pct tm]; simpl in *; subst con;
      destruct st; simpl; try destruct (is_low pct) eqn:Hl; simpl;
      try destruct ign; try destruct mot; simpl;
      intuition (try discriminate; try congruence).
Qed.

(** Over every sequence of setter calls on a new machine, the state is
    Offline exactly while the machine is told it is not connected, and
    while it is connected the state is LowBattery exactly when the
    stored level is below 15. *)
Theorem device_state_tracks_connection_and_battery
    (calls : list (Clock * Setter)) (bus : EventBus) :
  coherent (fst (run_setters calls (DeviceStateMachine_init, bus))).
Proof.
  unfold run_setters.
  assert (H0 : coherent (fst (DeviceStateMachine_init, bus))).
  { split; [split; discriminate|]. intros _. split; discriminate. }
  revert H0. generalize (DeviceStateMachine_init, bus).
  induction calls as [|[clk c] calls IH]; intros st H; simpl; [exact H|].
  apply IH. now apply apply_setter_coherent.
Qed.

(** A connection that drops and comes back while the battery is low
    reports LowBattery a second time: the machine goes Offline without
    an event and returns to LowBattery with a new LowBattery event,
    the level being the same throughout. *)
Theorem low_battery_is_reported_again_after_reconnect
    (clk1 clk2 : Clock) (sm : DeviceStateMachine) (bus : EventBus) :
  currentState_ sm = DeviceState.LowBattery ->
  connected_ sm = true ->
  is_low (batteryPercentage_ sm) = true ->
  let '(sm1, bus1) := setConnectionStatus clk1 false sm bus in
  let '(sm2, bus2) := setConnectionStatus clk2 true sm1 bus1 in
  currentState_ sm1 = DeviceState.Offline /\ bus1 = bus /\
  currentState_ sm2 = DeviceState.LowBattery /\
  batteryPercentage_ sm2 = batteryPercentage_ sm /\
  eventQueue_ bus2 =
    eventQueue_ bus ++ [with_timestamp (Event_default LowBattery) (getIsoTimestamp clk2)].
Proof.
  destruct sm as [st ign mot con pct tm]. simpl. intros -> -> Hlow.
  unfold setConnectionStatus, processEvent, next_state, transitionTo. simpl.
  rewrite Hlow. simpl. repeat split.
Qed.

Lemma low_battery_reconnect_witness :
  let sm := fst (setBatteryLevel clk0 10 DeviceStateMachine_init EventBus_init) in
  let bus := snd (setBatteryLevel clk0 10 DeviceStateMachine_init EventBus_init) in
  let '(sm1, bus1) := setConnectionStatus clk0 false sm bus in
  let '(sm2, bus2) := setConnectionStatus clk0 true sm1 bus1 in
  map eventType (eventQueue_ bus2) = [LowBattery; LowBattery].
Proof.
  pose proof (low_battery_is_reported_again_after_reconnect clk0 clk0
    (fst (setBatteryLevel clk0 10 DeviceStateMachine_init EventBus_init))
    (snd (setBatteryLevel clk0 10 DeviceStateMachine_init EventBus_init))
    eq_refl eq_refl eq_refl) as H.
  cbv zeta.
  destruct (setConnectionStatus clk0 false _ _) as [sm1 bus1].
  destruct (setConnectionStatus clk0 true sm1 bus1) as [sm2 bus2].
  destruct H as (_ & _ & _ & _ & ->). reflexivity.
Defined.

(** The bus after one call of [processEvent]: the queue grows by at
    most one event and the handlers stay. *)
Lemma processEvent_bus clk ev sm bus :
  exists l, eventQueue_ (snd (processEvent clk ev sm bus)) = eventQueue_ bus ++ l /\
            (length l <= 1)%nat.
Proof.
  unfold processEvent.
  destruct (next_state clk ev sm) as [newState sm1].
  destruct (decide _); [|exists []; simpl; rewrite app_nil_r; split; [reflexivity|lia]].
  unfold transitionTo. simpl.
  destruct newState; simpl; repeat (destruct (decide _)); simpl;
    first [ (exists []; simpl; rewrite app_nil_r; split; [reflexivity|lia])
          | (eexists [_]; split; [reflexivity|simpl; lia]) ].
Qed.

(** The parking timeout never fires: no setter hands the machine a
    ParkingTimerExpired event, so from Parked a setter call leads to
    Parked, Driving, LowBattery or Offline and never to Idle, whatever
    the clock reads; and every setter call puts at most one event on
    the bus. *)
Theorem parked_never_times_out
    (clk : Clock) (c : Setter) (sm : DeviceStateMachine) (bus : EventBus) :
  currentState_ sm = DeviceState.Parked ->
  currentState_ (fst (apply_setter clk c (sm, bus))) <> DeviceState.Idle /\
  exists l, eventQueue_ (snd (apply_setter clk c (sm, bus))) = eventQueue_ bus ++ l /\
            (length l <= 1)%nat.
Proof.
  intros Hst. split.
  - destruct c as [on|m|p|c]; simpl.
    + unfold setIgnition.
      match goal with |- context [processEvent clk ?e ?s bus] =>
        destruct (processEvent_fields clk e s bus) as (-> & _) end.
      unfold next_state. simpl. rewrite Hst. destruct on; discriminate.
    + unfold setMotion. destruct m;
        match goal with |- context [processEvent clk ?e ?s bus] =>
          destruct (processEvent_fields clk e s bus) as (-> & _) end;
        unfold next_state; simpl; rewrite Hst; discriminate.
    + unfold setBatteryLevel.
      destruct (_ && _);
        [|destruct (_ && _)];
        try match goal with |- context [processEvent clk ?e ?s bus] =>
          destruct (processEvent_fields clk e s bus) as (-> & _) end;
        unfold next_state; simpl; rewrite Hst; discriminate.
    + unfold setConnectionStatus.
      destruct (_ && _);
        [|destruct (_ && _)];
        try match goal with |- context [processEvent clk ?e ?s bus] =>
          destruct (processEvent_fields clk e s bus) as (-> & _) end;
        unfold next_state; simpl; rewrite Hst; discriminate.
  - destruct c as [on|m|p|c]; simpl.
    + apply processEvent_bus.
    + unfold setMotion. destruct m; apply processEvent_bus.
    + unfold setBatteryLevel.
      destruct (_ && _); [apply processEvent_bus|].
      destruct (_ && _); [apply processEvent_bus|].
      exists []. simpl. rewrite app_nil_r. split; [reflexivity|lia].
    + unfold setConnectionStatus.
      destruct (_ && _); [apply processEvent_bus|].
      destruct (_ && _); [apply processEvent_bus|].
      exists []. simpl. rewrite app_nil_r. split; [reflexivity|lia].
Qed.

Lemma parked_never_times_out_witness :
  let parked := fst (setMotion clk0 false (fst driving_machine) (snd driving_machine)) in
  currentState_ parked = DeviceState.Parked /\
  currentState_ (fst (apply_setter (mkClock (minutes 60) "") (SetIgnition false)
                        (parked, EventBus_init))) <> DeviceState.Idle.
Proof.
  split; [reflexivity|].
  apply (parked_never_times_out (mkClock (minutes 60) "") (SetIgnition false)
           (fst (setMotion clk0 false (fst driving_machine) (snd driving_machine)))
           EventBus_init eq_refl).
Defined.

End DeviceMachineProperties.

(** ** Event.cpp and JsonCodec.cpp: names, defaults, unknown members *)

Section CodecDecoderProperties.
Import Num Events Json JsonCodec.

(** The two tables of event-type names are inverse to each other: a
    type is read back from its name, every one of the nine names is
    written back from its type, and no type is written as unknown. *)
Theorem event_type_names_roundtrip :
  (forall t, stringToEventType (eventTypeToString t) = t) /\
  (forall s, s ∈ recognized_names -> eventTypeToString (stringToEventType s) = s) /\
  (forall t, eventTypeToString t ∈ recognized_names /\ eventTypeToString t <> "unknown").
Proof.
  split; [exact stringToEventType_eventTypeToString|]. split.
  - intros s Hs. apply list_elem_of_In in Hs. simpl in Hs.
    repeat (destruct Hs as [<-|Hs]; [reflexivity|]). contradiction.
  - intros t. split; [|destruct t; discriminate].
    apply list_elem_of_In. destruct t; simpl; tauto.
Qed.

Lemma value_insert_ne {T : Type} (get : json -> option T) m k v key d :
  k <> key -> value get (JObject (<[k := v]> m)) key d = value get (JObject m) key d.
Proof. intros Hne. unfold value. now rewrite lookup_insert_ne. Qed.

Lemma contains_insert_ne m k v key :
  k <> key -> contains (JObject (<[k := v]> m)) key = contains (JObject m) key.
Proof. intros Hne. unfold contains. now rewrite lookup_insert_ne. Qed.

Lemma at_key_insert_ne m k v key :
  k <> key -> at_key (JObject (<[k := v]> m)) key = at_key (JObject m) key.
Proof. intros Hne. unfold at_key. now rewrite lookup_insert_ne. Qed.

(** Members the decoder does not read do not change what it decodes:
    with any member of another name added, whatever its value, an
    object decodes to the same event, or fails as before. *)
Theorem jsonToEvent_ignores_unknown_members
    (dump : json -> string) (m : gmap string json) (k : string) (v : json) :
  k ∉ member_names ->
  jsonToEvent dump (JObject (<[k := v]> m)) = jsonToEvent dump (JObject m).
Proof.
  intros Hk. unfold member_names in Hk.
  rewrite !not_elem_of_cons in Hk.
  destruct Hk as (K1 & K2 & K3 & K4 & K5 & K6 & K7 & K8 & K9 & K10 & _).
  unfold jsonToEvent.
  rewrite !value_insert_ne, !contains_insert_ne, !at_key_insert_ne by assumption.
  reflexivity.
Qed.

Lemma jsonToEvent_unknown_member_witness :
  jsonToEvent (fun _ => "") (JObject (<["vendor" := JBool true]> obj_teleport)) =
  jsonToEvent (fun _ => "") (JObject obj_teleport).
Proof.
  apply (jsonToEvent_ignores_unknown_members (fun _ => "") obj_teleport "vendor" (JBool true)).
  unfold member_names. rewrite !not_elem_of_cons.
  repeat split; try discriminate. apply not_elem_of_nil.
Defined.

(** A member that is missing takes the default of its field: an empty
    device id and timestamp, Heartbeat, sequence 0, the origin,
    speed and heading 0, a battery at 100 % and 4.0 V, a network of
    -70 dBm on LTE, no extras.  The empty object decodes to the
    default Heartbeat event. *)
Theorem jsonToEvent_missing_members_take_defaults
    (dump : json -> string) (m : gmap string json) (e : Event) :
  jsonToEvent dump (JObject m) = Some e ->
  (m !! "deviceId" = None -> deviceId e = "") /\
  (m !! "ts" = None -> timestamp e = "") /\
  (m !! "eventType" = None -> eventType e = Heartbeat) /\
  (m !! "seq" = None -> sequence e = 0%Z) /\
  (m !! "loc" = None -> location e = mkLocation 0 0 0 0) /\
  (m !! "speedKph" = None -> speedKph e = 0%float) /\
  (m !! "heading" = None -> heading e = 0%float) /\
  (m !! "battery" = None -> battery e = mkBatteryInfo 100 4) /\
  (m !! "network" = None -> network e = mkNetworkInfo (-70) "LTE") /\
  (m !! "extras" = None -> extras e = ∅) /\
  jsonToEvent dump (JObject ∅) = Some (Event_default Heartbeat).
Proof.
  intros H. unfold jsonToEvent in H.
  destruct (value get_string (JObject m) "deviceId" "") as [did|] eqn:E1; [|discriminate].
  destruct (value get_string (JObject m) "ts" "") as [ts|] eqn:E2; [|discriminate].
  destruct (value get_string (JObject m) "eventType" "heartbeat") as [ty|] eqn:E3;
    [|discriminate].
  destruct (value get_uint64 (JObject m) "seq" 0%Z) as [sq|] eqn:E4; [|discriminate].
  cbn [mbind option_bind] in H.
  destruct (if contains (JObject m) "loc" then _ else _) as [loc|] eqn:E5; [|discriminate].
  destruct (value get_double (JObject m) "speedKph" 0%float) as [spd|] eqn:E6;
    [|discriminate].
  destruct (value get_double (JObject m) "heading" 0%float) as [hdg|] eqn:E7;
    [|discriminate].
  cbn [mbind option_bind] in H.
  destruct (if contains (JObject m) "battery" then _ else _) as [bat|] eqn:E8;
    [|discriminate].
  destruct (if contains (JObject m) "network" then _ else _) as [net|] eqn:E9;
    [|discriminate].
  cbn [mbind option_bind] in H. injection H as <-. simpl.
  unfold value, contains, at_key in *.
  repeat split; try (intros Hm; rewrite Hm in *; cbn in *; simplify_eq; reflexivity).
Qed.

Lemma jsonToEvent_defaults_witness :
  exists e, jsonToEvent (fun _ => "") (JObject obj_teleport) = Some e /\
            battery e = mkBatteryInfo 100 4 /\ network e = mkNetworkInfo (-70) "LTE".
Proof.
  eexists. split; [reflexivity|].
  pose proof (jsonToEvent_missing_members_take_defaults (fun _ => "") obj_teleport _ eq_refl)
    as (_ & _ & _ & _ & _ & _ & _ & Hb & Hn & _).
  split; [apply Hb | apply Hn]; reflexivity.
Defined.

End CodecDecoderProperties.

(** ** domain/TelemetryPipeline.cpp and domain/EventBus.cpp *)

Section PipelineProperties.
Import Events Ports Domain Pipeline.

#[local] Open Scope Z_scope.

Context {T : Type} {transport_ops : ITransport T}.

Lemma sendTelemetry_fields policy encode now ev p (tr : T) :
  let p' := fst (sendTelemetry policy encode now ev p tr) in
  deviceId_ p' = deviceId_ p /\ running_ p' = running_ p /\
  lastReportedBatteryPct_ p' = lastReportedBatteryPct_ p /\
  lastHeartbeat_ p' = lastHeartbeat_ p /\ lastMotionState_ p' = lastMotionState_ p.
Proof.
  unfold sendTelemetry. destruct (negb (isConnected tr)); [repeat split|].
  destruct (publish tr _ _ 1) as [ok tr']. destruct (negb ok); repeat split.
Qed.

Lemma onEvent_fields policy encode now ev p (tr : T) :
  let p' := fst (onEvent policy encode now ev p tr) in
  deviceId_ p' = deviceId_ p /\ running_ p' = running_ p /\
  lastReportedBatteryPct_ p' = lastReportedBatteryPct_ p /\
  lastHeartbeat_ p' = lastHeartbeat_ p.
Proof.
  unfold onEvent. destruct (_ || _); [repeat split|].
  pose proof (sendTelemetry_fields policy encode now ev p tr) as (H1 & H2 & H3 & H4 & _).
  destruct (sendTelemetry policy encode now ev p tr) as [p1 tr1]. simpl in *.
  destruct (eventType ev); simpl; repeat split; assumption.
Qed.

Lemma retryFailedMessages_fields policy now p (tr : T) :
  let p' := fst (retryFailedMessages policy now p tr) in
  deviceId_ p' = deviceId_ p /\ running_ p' = running_ p /\
  lastReportedBatteryPct_ p' = lastReportedBatteryPct_ p /\
  lastHeartbeat_ p' = lastHeartbeat_ p /\ lastMotionState_ p' = lastMotionState_ p.
Proof.
  unfold retryFailedMessages.
  destruct (retryQueue_ p) as [|m q]; [repeat split|].
  destruct (negb (isConnected tr)); [repeat split|].
  destruct (retry_loop policy now (m :: q) tr) as [q' tr']. repeat split.
Qed.

Lemma processEvents_fields policy now p (tr : T) bus :
  let p' := fst (fst (processEvents policy now p tr bus)) in
  deviceId_ p' = deviceId_ p /\ running_ p' = running_ p /\
  lastReportedBatteryPct_ p' = lastReportedBatteryPct_ p /\
  lastMotionState_ p' = lastMotionState_ p.
Proof.
  unfold processEvents. destruct (negb (running_ p)); [repeat split|].
  pose proof (retryFailedMessages_fields policy now p tr) as (H1 & H2 & H3 & _ & H5).
  destruct (retryFailedMessages policy now p tr) as [p1 tr1]. simpl in *.
  match goal with |- context [if ?c then _ else _] => destruct c end;
    simpl; repeat split; assumption.
Qed.

(** The pipeline never sends the LowBattery events of the device state
    machine under the default policy.  Such an event carries the
    default battery level of 100 %, the pipeline's last reported level
    is 100 % and no operation updates it, and the policy wants a
    difference of 5 points: [onEvent] drops the event, the transport
    and the retry queue staying as they are. *)
Theorem state_machine_low_battery_is_never_sent
    (encode : Event -> string) (now : time_point) (clk : Clock)
    (p : TelemetryPipeline) (tr : T) (bus : EventBus) (ev' : Event) :
  lastReportedBatteryPct_ p = 100%float ->
  let policy := DefaultPolicies.DefaultPolicyEngine in
  let ev := with_timestamp (Event_default LowBattery) (getIsoTimestamp clk) in
  eventQueue_ (emitTrackerEvent clk LowBattery ∅ bus) = eventQueue_ bus ++ [ev] /\
  shouldPublish policy ev p = false /\
  onEvent policy encode now ev p tr = (p, tr) /\
  lastReportedBatteryPct_ (fst (onEvent policy encode now ev' p tr)) = 100%float /\
  lastReportedBatteryPct_ (fst (fst (processEvents policy now p tr bus))) = 100%float /\
  lastReportedBatteryPct_ TelemetryPipeline_init = 100%float.
Proof.
  intros Hlast policy ev.
  assert (Hsp : shouldPublish policy ev p = false).
  { unfold shouldPublish. simpl. rewrite Hlast. reflexivity. }
  split; [reflexivity|]. split; [exact Hsp|]. split.
  { unfold onEvent. rewrite Hsp. now rewrite orb_true_r. }
  split.
  { destruct (onEvent_fields policy encode now ev' p tr) as (_ & _ & -> & _). exact Hlast. }
  split; [|reflexivity].
  destruct (processEvents_fields policy now p tr bus) as (_ & _ & -> & _). exact Hlast.
Qed.

Lemma retry_loop_keeps_order
    (policy : PolicyEngine) (now : time_point) (q : list PendingMessage) (tr : T) :
  exists n : nat,
    map content (fst (retry_loop policy now q tr)) = skipn n (map content q) /\
    tail (fst (retry_loop policy now q tr)) = skipn (S n) q.
Proof.
  revert tr. induction q as [|msg rest IH]; intros tr.
  - exists 0%nat. split; reflexivity.
  - cbn [retry_loop].
    destruct (now <? nextRetry msg); [exists 0%nat; split; reflexivity|].
    destruct (negb (shouldRetry policy (attempts msg))).
    + destruct (IH tr) as (n & H1 & H2). exists (S n). split; assumption.
    + destruct (publish tr (topic msg) (payload msg) 1) as [[|] tr'].
      * destruct (IH tr') as (n & H1 & H2). exists (S n). split; assumption.
      * exists 0%nat. split; reflexivity.
Qed.

(** A retry pass keeps the queue in order: what [retryFailedMessages]
    leaves is a tail of the queue as it was, the same messages in the
    same order, and only the attempt count and the retry time of its
    first message may have changed.  No message is moved, copied or put
    back behind others. *)
Theorem retry_pass_keeps_order
    (policy : PolicyEngine) (now : time_point) (p : TelemetryPipeline) (tr : T) :
  let q' := retryQueue_ (fst (retryFailedMessages policy now p tr)) in
  exists n : nat,
    map content q' = skipn n (map content (retryQueue_ p)) /\
    tail q' = skipn (S n) (retryQueue_ p).
Proof.
  cbv zeta. unfold retryFailedMessages.
  destruct (retryQueue_ p) as [|m q] eqn:Hq.
  - exists 0%nat. cbn [fst]. rewrite ?Hq. split; reflexivity.
  - destruct (negb (isConnected tr)).
    + exists 0%nat. cbn [fst]. rewrite ?Hq. split; reflexivity.
    + destruct (retry_loop_keeps_order policy now (m :: q) tr) as (n & H1 & H2).
      destruct (retry_loop policy now (m :: q) tr) as [q' tr']. cbn [fst] in *.
      exists n. split; assumption.
Qed.

End PipelineProperties.

Section BusProperties.
Import Events Ports Domain Pipeline.

#[local] Open Scope Z_scope.

Lemma subscribe_all bus h ty :
  handlers_ (fold_left (fun b ty => bus_subscribe ty h b) all_event_types bus) ty =
  handlers_ bus ty ++ [h].
Proof. destruct ty; reflexivity. Qed.

Lemma unsubscribe_all bus ty :
  handlers_ (fold_left (fun b ty => bus_unsubscribe ty b) all_event_types bus) ty = [].
Proof. destruct ty; reflexivity. Qed.

Lemma subscribe_all_queue bus h :
  eventQueue_ (fold_left (fun b ty => bus_subscribe ty h b) all_event_types bus) =
    eventQueue_ bus /\
  processing_ (fold_left (fun b ty => bus_subscribe ty h b) all_event_types bus) =
    processing_ bus.
Proof. split; reflexivity. Qed.

Lemma shouldPublish_ext policy ev p p' :
  lastReportedBatteryPct_ p' = lastReportedBatteryPct_ p ->
  shouldPublish policy ev p' = shouldPublish policy ev p.
Proof. intros H. unfold shouldPublish. now rewrite H. Qed.

(** An event that passes the policy, on a running pipeline over a
    connected mock transport that accepts: one message is recorded and
    nothing is queued. *)
Lemma onEvent_mock_sends policy encode now ev p (tr : MockTransport.t) :
  running_ p = true -> shouldPublish policy ev p = true ->
  MockTransport.connected_ tr = true -> MockTransport.failPublish_ tr = false ->
  let r := onEvent policy encode now ev p tr in
  MockTransport.publishedMessages_ (snd r) =
    MockTransport.publishedMessages_ tr ++ [mock_message encode (deviceId_ p) ev] /\
  MockTransport.connected_ (snd r) = true /\ MockTransport.failPublish_ (snd r) = false /\
  retryQueue_ (fst r) = retryQueue_ p /\ running_ (fst r) = true /\
  deviceId_ (fst r) = deviceId_ p /\
  lastReportedBatteryPct_ (fst r) = lastReportedBatteryPct_ p.
Proof.
  intros Hrun Hsp Hc Hf. unfold onEvent. rewrite Hrun, Hsp. simpl.
  unfold sendTelemetry. simpl. rewrite Hc. simpl.
  unfold MockTransport.mock_publish. rewrite Hc, Hf. simpl.
  destruct (eventType ev); simpl; repeat split; assumption.
Qed.

(** [start] is not idempotent: every call subscribes [onEvent] once
    more to each event type, so after two calls each event on the bus
    reaches [onEvent] twice, and an event that passes the policy is
    sent twice on a connected transport. *)
Theorem starting_twice_sends_every_event_twice
    (policy : PolicyEngine) (encode : Event -> string)
    (id1 id2 : string) (t1 t2 now : time_point)
    (p : TelemetryPipeline) (bus : EventBus) (ev : Event) (tr : MockTransport.t) :
  let s1 := start id1 t1 p bus in
  let s2 := start id2 t2 (fst s1) (snd s1) in
  (forall ty, handlers_ (snd s2) ty =
              handlers_ bus ty ++ [PipelineOnEvent; PipelineOnEvent]) /\
  ((forall ty, handlers_ bus ty = []) ->
   shouldPublish policy ev (fst s2) = true ->
   MockTransport.connected_ tr = true -> MockTransport.failPublish_ tr = false ->
   MockTransport.publishedMessages_
     (snd (dispatch policy encode now ev (handlers_ (snd s2) (eventType ev)) (fst s2, tr))) =
   MockTransport.publishedMessages_ tr ++
     [mock_message encode id2 ev; mock_message encode id2 ev]).
Proof.
  intros s1 s2.
  assert (Hh : forall ty, handlers_ (snd s2) ty =
                          handlers_ bus ty ++ [PipelineOnEvent; PipelineOnEvent]).
  { intros ty. subst s1 s2. unfold start. cbn [fst snd].
    rewrite !subscribe_all, <- app_assoc. reflexivity. }
  split; [exact Hh|].
  intros Hb Hsp Hc Hf. rewrite Hh, Hb.
  assert (Hrun : running_ (fst s2) = true) by reflexivity.
  assert (Hid : deviceId_ (fst s2) = id2) by reflexivity.
  clearbody s2. cbn [app dispatch fold_left fst snd].
  destruct (onEvent_mock_sends policy encode now ev (fst s2) tr Hrun Hsp Hc Hf)
    as (Hm & Hc1 & Hf1 & _ & Hrun1 & Hid1 & Hl1).
  destruct (onEvent policy encode now ev (fst s2) tr) as [pa tra]. simpl in *.
  assert (Hsp1 : shouldPublish policy ev pa = true)
    by (rewrite (shouldPublish_ext policy ev (fst s2) pa Hl1); exact Hsp).
  destruct (onEvent_mock_sends policy encode now ev pa tra Hrun1 Hsp1 Hc1 Hf1)
    as (Hm2 & _).
  rewrite Hm2, Hm, Hid1, Hid, <- app_assoc. reflexivity.
Qed.

(** After [stop] the bus has no handler left: the events on it are
    taken off and reach nobody, the pipeline and the transport staying
    as they are. *)
Theorem events_after_stop_are_discarded
    {T : Type} {transport_ops : ITransport T}
    (policy : PolicyEngine) (encode : Event -> string) (now : time_point)
    (p : TelemetryPipeline) (bus : EventBus) (tr : T) (evs : list Event) :
  let p1 := fst (stop p bus) in
  let bus1 := snd (stop p bus) in
  let bus2 := fold_left (fun b ev => bus_publish ev b) evs bus1 in
  running_ p1 = false /\
  (forall ty, handlers_ bus2 ty = []) /\
  (processing_ bus = false ->
   bus_processEvents policy encode now bus2 p1 tr =
     (mkEventBus (handlers_ bus2) [] false, p1, tr)) /\
  processEvents policy now p1 tr bus2 = (p1, tr, bus2).
Proof.
  intros p1 bus1 bus2.
  assert (Hfold : forall evs b, handlers_ (fold_left (fun b ev => bus_publish ev b) evs b) =
                                handlers_ b /\
                                processing_ (fold_left (fun b ev => bus_publish ev b) evs b) =
                                processing_ b).
  { clear. induction evs as [|ev evs IH]; intros b; simpl; [now split|].
    destruct (IH (bus_publish ev b)) as [-> ->]. now split. }
  assert (Hh : forall ty, handlers_ bus2 ty = []).
  { intros ty. subst bus2 bus1. rewrite (proj1 (Hfold _ _)). unfold stop. cbn [fst snd].
    apply unsubscribe_all. }
  split; [reflexivity|]. split; [exact Hh|]. split; [|reflexivity].
  intros Hp. unfold bus_processEvents.
  assert (Hp2 : processing_ bus2 = false).
  { subst bus2 bus1. rewrite (proj2 (Hfold _ _)). exact Hp. }
  rewrite Hp2.
  assert (Hd : forall l pt,
             fold_left (fun acc ev => dispatch policy encode now ev
                                        (handlers_ bus2 (eventType ev)) acc) l pt = pt).
  { induction l as [|ev l IH]; intros pt; simpl; [reflexivity|]. now rewrite Hh, IH. }
  now rewrite Hd.
Qed.

Lemma low_battery_never_sent_witness :
  let p := fst (start "dev" 0 TelemetryPipeline_init EventBus_init) in
  let tr := MockTransport.setConnected true MockTransport.init in
  onEvent DefaultPolicies.DefaultPolicyEngine (fun _ => "") 0
          (with_timestamp (Event_default LowBattery) "") p tr = (p, tr).
Proof.
  pose proof (state_machine_low_battery_is_never_sent (fun _ => "") 0 (mkClock 0 "")
    (fst (start "dev" 0 TelemetryPipeline_init EventBus_init))
    (MockTransport.setConnected true MockTransport.init) EventBus_init
    (Event_default Heartbeat) eq_refl) as (_ & _ & H & _).
  exact H.
Defined.

Lemma shouldPublish_default ev p :
  shouldPublish DefaultPolicies.DefaultPolicyEngine ev p =
  passes_default_policy (lastReportedBatteryPct_ p) ev.
Proof. unfold shouldPublish, passes_default_policy. now destruct (eventType ev). Qed.

(** On a running pipeline subscribed once, over a connected mock
    transport that accepts, the bus delivers in order: every event on
    the bus that passes the default policy is sent exactly once, in the
    order the events were put on the bus, nothing is queued for retry,
    and the bus is left empty. *)
Theorem bus_delivers_events_in_order
    (encode : Event -> string) (now : time_point)
    (bus : EventBus) (p : TelemetryPipeline) (tr : MockTransport.t) :
  processing_ bus = false ->
  running_ p = true ->
  (forall ty, handlers_ bus ty = [PipelineOnEvent]) ->
  MockTransport.connected_ tr = true ->
  MockTransport.failPublish_ tr = false ->
  let r := bus_processEvents DefaultPolicies.DefaultPolicyEngine encode now bus p tr in
  eventQueue_ (fst (fst r)) = [] /\
  MockTransport.publishedMessages_ (snd r) =
    MockTransport.publishedMessages_ tr ++
      map (mock_message encode (deviceId_ p))
          (filter (fun ev => passes_default_policy (lastReportedBatteryPct_ p) ev = true)
                  (eventQueue_ bus)) /\
  retryQueue_ (snd (fst r)) = retryQueue_ p.
Proof.
  intros Hproc Hrun Hh Hc Hf. unfold bus_processEvents. rewrite Hproc.
  set (policy := DefaultPolicies.DefaultPolicyEngine).
  assert (Hloop : forall evs p1 tr1,
    running_ p1 = true -> MockTransport.connected_ tr1 = true ->
    MockTransport.failPublish_ tr1 = false ->
    let r := fold_left (fun acc ev => dispatch policy encode now ev
                                        (handlers_ bus (eventType ev)) acc) evs (p1, tr1) in
    MockTransport.publishedMessages_ (snd r) =
      MockTransport.publishedMessages_ tr1 ++
        map (mock_message encode (deviceId_ p1))
            (filter (fun ev => passes_default_policy (lastReportedBatteryPct_ p1) ev = true)
                    evs) /\
    retryQueue_ (fst r) = retryQueue_ p1).
  { induction evs as [|ev evs IH]; intros p1 tr1 Hr1 Hc1 Hf1; cbn [fold_left].
    - simpl. rewrite app_nil_r. now split.
    - rewrite Hh. cbn [dispatch fold_left fst snd].
      rewrite filter_cons.
      destruct (passes_default_policy (lastReportedBatteryPct_ p1) ev) eqn:Hpass.
      + rewrite decide_True by reflexivity.
        assert (Hsp : shouldPublish policy ev p1 = true)
          by (subst policy; now rewrite shouldPublish_default).
        destruct (onEvent_mock_sends policy encode now ev p1 tr1 Hr1 Hsp Hc1 Hf1)
          as (Hm & Hc2 & Hf2 & Hq & Hr2 & Hid & Hl).
        destruct (onEvent policy encode now ev p1 tr1) as [p2 tr2]. cbn [fst snd] in *.
        destruct (IH p2 tr2 Hr2 Hc2 Hf2) as [IH1 IH2].
        cbv zeta in IH1, IH2. rewrite IH1, IH2, Hm, Hid, Hl, Hq, <- app_assoc.
        now split.
      + rewrite decide_False by congruence.
        assert (Hsp : shouldPublish policy ev p1 = false)
          by (subst policy; now rewrite shouldPublish_default).
        assert (He : onEvent policy encode now ev p1 tr1 = (p1, tr1)).
        { unfold onEvent. rewrite Hsp. now rewrite orb_true_r. }
        rewrite He. now apply IH. }
  specialize (Hloop (eventQueue_ bus) p tr Hrun Hc Hf). cbv zeta in Hloop.
  destruct (fold_left _ (eventQueue_ bus) (p, tr)) as [p' tr']. cbn [fst snd] in *.
  destruct Hloop as [H1 H2]. now repeat split.
Qed.

Lemma bus_delivers_in_order_witness :
  let bus := snd (start "dev" 0 TelemetryPipeline_init EventBus_init) in
  let p := fst (start "dev" 0 TelemetryPipeline_init EventBus_init) in
  let bus1 := bus_publish (Event_default MotionStart)
                (bus_publish (Event_default LowBattery)
                   (bus_publish (Event_default IgnitionOn) bus)) in
  map MockTransport.payload
    (MockTransport.publishedMessages_
       (snd (bus_processEvents DefaultPolicies.DefaultPolicyEngine
               (fun ev => eventTypeToString (eventType ev)) 0
               bus1 p (MockTransport.setConnected true MockTransport.init)))) =
  ["ignition_on"; "motion_start"].
Proof.
  intros bus p bus1.
  destruct (bus_delivers_events_in_order (fun ev => eventTypeToString (eventType ev)) 0 bus1 p
              (MockTransport.setConnected true MockTransport.init)
              eq_refl eq_refl (fun ty => subscribe_all EventBus_init PipelineOnEvent ty)
              eq_refl eq_refl) as (_ & H & _).
  rewrite H. reflexivity.
Defined.

Lemma retry_loop_sends_what_is_due
    (now : time_point) (q : list PendingMessage) (tr : MockTransport.t) :
  MockTransport.connected_ tr = true ->
  MockTransport.failPublish_ tr = false ->
  forallb (due now) q = true ->
  let r := retry_loop DefaultPolicies.DefaultPolicyEngine now q tr in
  fst r = [] /\
  MockTransport.publishedMessages_ (snd r) =
    MockTransport.publishedMessages_ tr ++
      map (fun msg => MockTransport.mkMockMessage (topic msg) (payload msg) 1)
          (filter (fun msg => attempts msg < 5) q).
Proof.
  intros Hc Hf. revert tr Hc Hf.
  induction q as [|msg rest IH]; intros tr Hc Hf Hdue; cbn [retry_loop].
  - simpl. rewrite app_nil_r. now split.
  - cbn [forallb] in Hdue. apply andb_prop in Hdue as [Hd Hrest].
    unfold due in Hd. apply Z.leb_le in Hd.
    rewrite (proj2 (Z.ltb_ge now (nextRetry msg))) by exact Hd.
    rewrite filter_cons. cbn [shouldRetry DefaultPolicies.DefaultPolicyEngine].
    unfold DefaultPolicies.maxAttempts_.
    destruct (attempts msg <? 5) eqn:Hlt; cbn [negb].
    + apply Z.ltb_lt in Hlt. rewrite decide_True by exact Hlt.
      cbn [publish MockTransport.MockTransport_ITransport].
      unfold MockTransport.mock_publish. rewrite Hc, Hf. cbn [negb orb].
      set (tr' := MockTransport.mk _ _ _ _).
      destruct (IH tr' eq_refl eq_refl Hrest) as [H1 H2]. cbv zeta in H1, H2.
      rewrite H1, H2. subst tr'. cbn [MockTransport.publishedMessages_ map].
      rewrite <- app_assoc. now split.
    + apply Z.ltb_ge in Hlt. rewrite decide_False by lia.
      now apply IH.
Qed.

(** A retry pass over a connected mock transport that accepts, when
    every queued message is due: the queue is emptied, the messages
    tried fewer than five times are sent in queue order, and those
    already tried five times are dropped unsent. *)
Theorem retry_pass_sends_what_is_due
    (now : time_point) (p : TelemetryPipeline) (tr : MockTransport.t) :
  MockTransport.connected_ tr = true ->
  MockTransport.failPublish_ tr = false ->
  forallb (due now) (retryQueue_ p) = true ->
  let r := retryFailedMessages DefaultPolicies.DefaultPolicyEngine now p tr in
  retryQueue_ (fst r) = [] /\
  MockTransport.publishedMessages_ (snd r) =
    MockTransport.publishedMessages_ tr ++
      map (fun msg => MockTransport.mkMockMessage (topic msg) (payload msg) 1)
          (filter (fun msg => attempts msg < 5) (retryQueue_ p)).
Proof.
  intros Hc Hf Hdue. unfold retryFailedMessages.
  destruct (retryQueue_ p) as [|m q] eqn:Hq.
  - cbn [fst snd]. rewrite ?Hq. simpl. rewrite app_nil_r. now split.
  - cbn [isConnected MockTransport.MockTransport_ITransport]. rewrite Hc. cbn [negb].
    destruct (retry_loop_sends_what_is_due now (m :: q) tr Hc Hf Hdue) as [H1 H2].
    destruct (retry_loop _ now (m :: q) tr) as [q' tr']. cbn [fst snd] in *.
    now split.
Qed.

Lemma retry_pass_witness :
  let p := set_retryQueue
             [mkPendingMessage (Event_default Heartbeat) "t" "first" 5 0;
              mkPendingMessage (Event_default Heartbeat) "t" "second" 1 0]
             TelemetryPipeline_init in
  map MockTransport.payload
    (MockTransport.publishedMessages_
       (snd (retryFailedMessages DefaultPolicies.DefaultPolicyEngine 10 p
               (MockTransport.setConnected true MockTransport.init)))) = ["second"].
Proof.
  intros p.
  destruct (retry_pass_sends_what_is_due 10 p
              (MockTransport.setConnected true MockTransport.init)
              eq_refl eq_refl eq_refl) as [_ H].
  rewrite H. reflexivity.
Defined.

End BusProperties.

(** ** The simulator: how an invariant is carried through every call *)

Section SimulatorInduction.
Import Num Events Ports Simulator.

#[local] Open Scope Z_scope.

(** A property of the simulator that the building blocks of its entry
    points keep is kept by every entry point, hence by every run. *)
Variable I : Simulator.t -> Prop.

Hypothesis I_runtime : forall r s, I s -> I (with_runtime r s).
Hypothesis I_times : forall hb tk s,
  I s -> I (with_sequencing (mkSequencing (sequenceNumber_ (sequencing s)) hb tk) s).
Hypothesis I_route : forall r s, I s -> I (with_route r s).
Hypothesis I_connectivity : forall c s, I s -> I (with_connectivity c s).
Hypothesis I_location : forall loc hdg s,
  I s -> I (with_telemetry (mkTelemetryData loc (currentSpeed_ (telemetry s)) hdg
                                            (networkInfo_ (telemetry s))) s).
Hypothesis I_battery_tick : forall u dt drv s,
  I s -> I (with_battery (Battery.tick u dt drv (battery_ s)) s).
Hypothesis I_battery_set : forall p s, I s -> I (with_battery (Battery.setPercentage p) s).
Hypothesis I_log_Connect : forall s, I s -> I (log Connect s).
Hypothesis I_log_Reconnect : forall k d s, I s -> I (log (Reconnect k d) s).
Hypothesis I_emit : forall env ty x s,
  I s -> I (emitEvent env (with_extras (fst (createBaseEvent env ty s)) x)
                      (snd (createBaseEvent env ty s))).
Hypothesis I_processIgnition : forall on s,
  I s -> I (with_stateMachine (fst (StateMachine.processIgnition on (stateMachine_ s))) s).
Hypothesis I_processBatteryLevel : forall s,
  I s -> I (with_stateMachine
              (fst (StateMachine.processBatteryLevel (battery_ s) (stateMachine_ s))) s).
Hypothesis I_setSpeed : forall env v s, I s -> I (setSpeed env v s).
Hypothesis I_checkGeofences : forall env s, I s -> I (checkGeofencesStep env s).
Hypothesis I_heartbeatSeconds : forall env v s,
  I s -> I (onCommand env (SetHeartbeatSeconds v) s).
Hypothesis I_speedLimit : forall env v s,
  I s -> I (onCommand env (SetSpeedLimit v) s).
Hypothesis I_dps_connected : forall d h s, I s -> I (onDpsConnectionComplete true d h s).

Lemma I_emitter env em s : I s -> I (emitter env em s).
Proof.
  intros H. unfold emitter.
  pose proof (I_emit env (fst em) (snd em) s H) as H1.
  destruct (createBaseEvent env (fst em) s) as [event s1]. exact H1.
Qed.

Lemma I_emitters env ems s :
  I s -> I (fold_left (fun acc em => emitter env em acc) ems s).
Proof.
  revert s. induction ems as [|em ems IH]; intros s H; simpl; [exact H|].
  apply IH. now apply I_emitter.
Qed.

Lemma I_event env ty s :
  I s -> I (emitEvent env (fst (createBaseEvent env ty s)) (snd (createBaseEvent env ty s))).
Proof. intros H. exact (I_emit env ty ∅ s H). Qed.

Lemma I_setIgnition env on s : I s -> I (setIgnition env on s).
Proof.
  intros H. unfold setIgnition, drive.
  pose proof (I_processIgnition on s H) as H1.
  destruct (StateMachine.processIgnition on (stateMachine_ s)) as [m ems].
  now apply I_emitters.
Qed.

Lemma I_connectToIoTHub env s : I s -> I (connectToIoTHub env s).
Proof.
  intros H. unfold connectToIoTHub.
  apply I_log_Connect in H. set (s1 := log Connect s) in *. clearbody s1.
  destruct (hasDpsConfig _).
  - destruct (connect_fails_at_once env); [|exact H].
    unfold onDpsConnectionComplete. now apply I_connectivity, I_runtime.
  - destruct (negb _); [exact H|].
    destruct (connect_fails_at_once env); [|exact H]. now apply I_connectivity.
Qed.

Lemma I_start env s : I s -> I (start env s).
Proof.
  intros H. unfold start. destruct (running_ (runtime s)); [exact H|].
  apply I_connectToIoTHub.
  apply (I_times (steady_now env) (steady_now env) (with_runtime _ s)).
  now apply I_runtime.
Qed.

Lemma I_attemptReconnection env s : I s -> I (attemptReconnection env s).
Proof.
  intros H. unfold attemptReconnection.
  destruct (_ <=? _); [|exact H].
  destruct (_ <? _); [|now apply I_connectivity].
  apply I_connectivity, I_connectToIoTHub. now apply I_log_Reconnect.
Qed.

Lemma I_startDriving env m s : I s -> I (startDriving env m s).
Proof.
  intros H. unfold startDriving. apply I_route.
  now apply I_setSpeed, I_setIgnition.
Qed.

Lemma I_generateSpike_from env i n s : I s -> I (generateSpike_from env i n s).
Proof.
  revert i s. induction n as [|n IH]; intros i s H; cbn [generateSpike_from]; [exact H|].
  pose proof (I_event env (nth (Z.to_nat (uniformInt env i)) spike_types Heartbeat) s H) as H1.
  destruct (createBaseEvent env _ s) as [event s1]. now apply IH.
Qed.

Lemma I_updateLocation env s : I s -> I (updateLocation env s).
Proof.
  intros H. unfold updateLocation.
  destruct (_ && _); [now apply I_location|].
  destruct (PrimFloat.ltb _ _); [now apply I_location | exact H].
Qed.

Lemma I_checkHeartbeat env s : I s -> I (checkHeartbeat env s).
Proof.
  intros H. unfold checkHeartbeat.
  destruct (_ <=? _); [|exact H].
  pose proof (I_event env Heartbeat s H) as H1.
  destruct (createBaseEvent env Heartbeat s) as [event s1]. cbn [fst snd] in H1.
  now apply I_times.
Qed.

Lemma I_tick env s : I s -> I (tick env s).
Proof.
  intros H. unfold tick.
  destruct (negb _); [exact H|].
  match goal with |- context [with_battery ?b ?x] =>
    assert (H2 : I (with_battery b x)) end.
  { apply (I_times (lastHeartbeat_ (sequencing s)) (steady_now env)) in H.
    exact (I_battery_tick _ _ _ _ H). }
  match goal with |- context [drive env ?op ?x] =>
    assert (H3 : I (drive env op x)); [|set (s3 := drive env op x) in *; clearbody s3] end.
  { unfold drive. apply I_processBatteryLevel in H2.
    match goal with |- context [StateMachine.processBatteryLevel ?b ?m] =>
      destruct (StateMachine.processBatteryLevel b m) as [m' ems] end.
    now apply I_emitters. }
  clear H H2.
  apply (I_updateLocation env), (I_checkGeofences env), (I_checkHeartbeat env) in H3.
  set (s6 := checkHeartbeat env _) in *. clearbody s6.
  set (s7 := if shouldReconnect_ _ then _ else s6).
  assert (H7 : I s7)
    by (subst s7; destruct (shouldReconnect_ _);
        [now apply I_attemptReconnection | exact H3]).
  clearbody s7.
  destruct (_ && _); [|exact H7].
  destruct (PrimFloat.leb _ _); [|now apply I_route].
  apply I_route, I_setSpeed. now apply I_route.
Qed.

(** Every entry point keeps the property. *)
Lemma I_step (s : Simulator.t) (ec : Env * Call) : I s -> I (step s ec).
Proof.
  intros H. destruct ec as [env c]. unfold step. cbn [fst snd].
  destruct c as [| | |on|v|p|m|n|connected|connected d h|cmd].
  - now apply I_start.
  - now apply I_runtime.
  - now apply I_tick.
  - now apply I_setIgnition.
  - now apply I_setSpeed.
  - now apply I_battery_set.
  - now apply I_startDriving.
  - now apply I_generateSpike_from.
  - unfold onMqttConnection. destruct connected.
    + now apply I_connectivity, I_runtime.
    + cbn [running_ runtime with_runtime].
      destruct (running_ _); [now apply I_connectivity, I_runtime | now apply I_runtime].
  - destruct connected; [now apply I_dps_connected|].
    unfold onDpsConnectionComplete. now apply I_connectivity, I_runtime.
  - destruct cmd as [v|v|].
    + exact (I_heartbeatSeconds env v s H).
    + exact (I_speedLimit env v s H).
    + cbn [onCommand]. apply I_start. now apply I_runtime.
Qed.

Lemma I_run (config : SimulatorConfig) (calls : list (Env * Call)) :
  I (configure config) -> I (run config calls).
Proof.
  unfold run. generalize (configure config).
  induction calls as [|ec calls IH]; intros s H; simpl; [exact H|].
  apply IH. now apply I_step.
Qed.

End SimulatorInduction.

Section SimulatorBlocks.
Import Num Events Ports Simulator.

#[local] Open Scope Z_scope.

Lemma emitters_frame env ems s :
  same_but_emissions s (fold_left (fun acc em => emitter env em acc) ems s).
Proof.
  revert s. induction ems as [|em ems IH]; intros s; simpl; [repeat split|].
  specialize (IH (emitter env em s)).
  destruct IH as (H1 & H2 & H3 & H4 & H5 & H6 & H7 & H8 & H9 & H10).
  unfold same_but_emissions.
  rewrite H1, H2, H3, H4, H5, H6, H7, H8, H9, H10. repeat split.
Qed.

Lemma drive_frame env op s :
  stateMachine_ (drive env op s) = fst (op (stateMachine_ s)) /\
  config_ (drive env op s) = config_ s /\ battery_ (drive env op s) = battery_ s /\
  runtime (drive env op s) = runtime s /\ telemetry (drive env op s) = telemetry s /\
  currentGeofenceIds_ (drive env op s) = currentGeofenceIds_ s /\
  d2cTopic_ (drive env op s) = d2cTopic_ s /\ c2dTopic_ (drive env op s) = c2dTopic_ s.
Proof.
  unfold drive. destruct (op (stateMachine_ s)) as [m ems].
  destruct (emitters_frame env ems (with_stateMachine m s))
    as (H1 & H2 & H3 & H4 & H5 & H6 & H7 & H8 & H9 & H10).
  rewrite H1, H2, H3, H4, H5, H6, H8, H9. repeat split.
Qed.

End SimulatorBlocks.

Section GeofenceBlock.
Import Num Events Ports Simulator.

(** [checkGeofences] keeps a property that its steps keep. *)
Variable I : Simulator.t -> Prop.

Hypothesis I_emit : forall env ty x s,
  I s -> I (emitEvent env (with_extras (fst (createBaseEvent env ty s)) x)
                      (snd (createBaseEvent env ty s))).
Hypothesis I_processGeofenceChange : forall entered id s,
  I s -> I (with_stateMachine
              (fst (StateMachine.processGeofenceChange entered id (stateMachine_ s))) s).
Hypothesis I_geofenceIds : forall ids s, I s -> I (with_geofenceIds ids s).

Lemma block_drive_geofence env entered id s :
  I s -> I (drive env (StateMachine.processGeofenceChange entered id) s).
Proof.
  intros H. unfold drive. apply (I_processGeofenceChange entered id) in H.
  destruct (StateMachine.processGeofenceChange entered id (stateMachine_ s)) as [m ems].
  cbn [fst] in H. revert H. generalize (with_stateMachine m s).
  induction ems as [|em ems IH]; intros s0 H; simpl; [exact H|].
  apply IH. unfold emitter.
  pose proof (I_emit env (fst em) (snd em) s0 H) as H1.
  destruct (createBaseEvent env (fst em) s0) as [event s1]. exact H1.
Qed.

Lemma block_enter_fences env ids s : I s -> I (enter_fences env ids s).
Proof.
  revert s. induction ids as [|id ids IH]; intros s H; simpl; [exact H|].
  destruct (bool_decide _); [now apply IH|].
  apply IH, I_geofenceIds. now apply block_drive_geofence.
Qed.

Lemma block_exit_fences env ids kept todo s :
  I s -> I (exit_fences env ids kept todo s).
Proof.
  revert kept s. induction todo as [|id todo IH]; intros kept s H; simpl;
    [now apply I_geofenceIds|].
  destruct (bool_decide _); [now apply IH|].
  apply IH. now apply block_drive_geofence.
Qed.

Lemma block_checkGeofences env s : I s -> I (checkGeofencesStep env s).
Proof.
  intros H. unfold checkGeofencesStep.
  apply block_exit_fences. now apply block_enter_fences.
Qed.

End GeofenceBlock.

Section SpeedBlock.
Import Num Events Ports Simulator.

(** [setSpeed] keeps a property that its steps keep. *)
Variable I : Simulator.t -> Prop.

Hypothesis I_emit : forall env ty x s,
  I s -> I (emitEvent env (with_extras (fst (createBaseEvent env ty s)) x)
                      (snd (createBaseEvent env ty s))).
Hypothesis I_speed : forall v s,
  I s -> I (with_telemetry (mkTelemetryData (currentLocation_ (telemetry s)) v
                              (currentHeading_ (telemetry s))
                              (networkInfo_ (telemetry s))) s).
Hypothesis I_processMotion : forall moving s,
  I s -> I (with_stateMachine (fst (StateMachine.processMotion moving (stateMachine_ s))) s).
Hypothesis I_processSpeedLimit : forall v l s,
  I s -> I (with_stateMachine (fst (StateMachine.processSpeedLimit v l (stateMachine_ s))) s).

Lemma block_emitters env ems s :
  I s -> I (fold_left (fun acc em => emitter env em acc) ems s).
Proof.
  revert s. induction ems as [|em ems IH]; intros s H; simpl; [exact H|].
  apply IH. unfold emitter.
  pose proof (I_emit env (fst em) (snd em) s H) as H1.
  destruct (createBaseEvent env (fst em) s) as [event s1]. exact H1.
Qed.

Lemma block_setSpeed env v s : I s -> I (setSpeed env v s).
Proof.
  intros H. unfold setSpeed.
  apply (I_speed v) in H.
  match goal with |- context [with_telemetry ?d s] =>
    set (s1 := with_telemetry d s) in * end.
  clearbody s1.
  match goal with |- context [if negb ?c then ?a else s1] =>
    set (s2 := if negb c then a else s1);
    assert (H2 : I s2) end.
  { subst s2. destruct (negb _); [|exact H].
    unfold drive. apply (I_processMotion (PrimFloat.ltb 0 v)) in H.
    destruct (StateMachine.processMotion _ (stateMachine_ s1)) as [m ems].
    now apply block_emitters. }
  clearbody s2.
  destruct (PrimFloat.ltb _ _); [|exact H2].
  unfold drive. apply (I_processSpeedLimit v (speedLimitKph (config_ s2))) in H2.
  destruct (StateMachine.processSpeedLimit _ _ (stateMachine_ s2)) as [m ems].
  now apply block_emitters.
Qed.

End SpeedBlock.

(** ** Simulator.cpp: what holds over every run *)

Section SimulatorRunProperties.
Import Num Events Ports Simulator.

#[local] Open Scope Z_scope.

Lemma emitted_events_log e tr :
  emitted_events (tr ++ [e]) =
  emitted_events tr ++ match e with Emitted ev _ => [ev] | _ => [] end.
Proof. unfold emitted_events. rewrite omap_app. now destruct e. Qed.

Lemma getInfo_ok uniform p :
  nan_or_within 0 100 p -> battery_ok (Battery.getInfo uniform p).
Proof.
  intros Hp. split; [exact Hp|]. unfold Battery.getInfo. cbn [voltage].
  unfold nan_or_within.
  match goal with |- context [Battery.clamp ?v ?lo ?hi] =>
    destruct (clamp_within v lo hi eq_refl) as [[Hn ->]|[_ Hw]] end;
    [now left | now right].
Qed.

Lemma clamp_ok v : nan_or_within 0 100 (Battery.clamp v 0 100).
Proof.
  unfold nan_or_within.
  destruct (clamp_within v 0 100 eq_refl) as [[Hn ->]|[_ Hw]]; [now left | now right].
Qed.

(** Over every run of the simulator the battery stays within its
    bounds, and so does the battery reading of every event emitted:
    the percentage lies within 0 and 100 and the voltage within 3.2
    and 4.2, NaN apart (which only a NaN input or draw produces). *)
Theorem simulator_battery_stays_within_bounds
    (config : SimulatorConfig) (calls : list (Env * Call)) :
  let s := run config calls in
  nan_or_within 0 100 (battery_ s) /\
  forall ev, ev ∈ emitted_events (trace_ s) -> battery_ok (battery ev).
Proof.
  set (I := fun s : Simulator.t =>
              nan_or_within 0 100 (battery_ s) /\
              Forall (fun ev => battery_ok (battery ev)) (emitted_events (trace_ s))).
  assert (Hemit : forall env ty x s,
    I s -> I (emitEvent env (with_extras (fst (createBaseEvent env ty s)) x)
                        (snd (createBaseEvent env ty s)))).
  { intros env ty x s [Hb Hev]. split; [exact Hb|].
    cbn [emitEvent log trace_ createBaseEvent fst snd with_sequencing].
    rewrite emitted_events_log. apply Forall_app. split; [exact Hev|].
    constructor; [|constructor].
    cbn [with_extras battery]. now apply getInfo_ok. }
  assert (Hlog : forall e s, match e with Emitted _ _ => False | _ => True end ->
                             I s -> I (log e s)).
  { intros e s He [Hb Hev]. split; [exact Hb|]. cbn [log trace_].
    rewrite emitted_events_log. destruct e; [contradiction| |]; now rewrite app_nil_r. }
  assert (Hrun : I (run config calls)).
  { apply I_run; try (intros; assumption).
    - intros u dt drv s [_ Hev]. split; [apply clamp_ok | exact Hev].
    - intros p s [_ Hev]. split; [apply clamp_ok | exact Hev].
    - intros s. now apply Hlog.
    - intros k d s. now apply Hlog.
    - exact Hemit.
    - intros env v s. apply block_setSpeed; try (intros; assumption). exact Hemit.
    - intros env s. apply block_checkGeofences; try (intros; assumption). exact Hemit.
    - split; [right; reflexivity | constructor]. }
  destruct Hrun as [Hb Hev]. split; [exact Hb|].
  intros ev Hin. rewrite Forall_forall in Hev. now apply Hev.
Qed.

(** Over every run the two topics are those of the configured device
    id, also after provisioning has replaced the id, and every event
    sent through the legacy client went to the events topic of the
    device id the event itself carries. *)
Theorem simulator_topics_follow_device_id
    (config : SimulatorConfig) (calls : list (Env * Call)) :
  let s := run config calls in
  d2cTopic_ s = events_topic (deviceId (config_ s)) /\
  c2dTopic_ s = commands_topic (deviceId (config_ s)) /\
  forall ev tp, Emitted ev (Some (ViaMqtt tp)) ∈ trace_ s ->
                tp = events_topic (Events.deviceId ev).
Proof.
  set (I := fun s : Simulator.t =>
              d2cTopic_ s = events_topic (deviceId (config_ s)) /\
              c2dTopic_ s = commands_topic (deviceId (config_ s)) /\
              Forall sent_on_own_topic (trace_ s)).
  assert (Hemit : forall env ty x s,
    I s -> I (emitEvent env (with_extras (fst (createBaseEvent env ty s)) x)
                        (snd (createBaseEvent env ty s)))).
  { intros env ty x s (Hd & Hc & Htr). split; [exact Hd|]. split; [exact Hc|].
    cbn [emitEvent log trace_ createBaseEvent fst snd with_sequencing].
    apply Forall_app. split; [exact Htr|]. constructor; [|constructor].
    unfold sent_on_own_topic, with_sequencing, with_extras.
    cbn [runtime config_ d2cTopic_ Events.deviceId].
    destruct (connected_ (runtime s)); [|exact Logic.I].
    destruct (_ && _); [exact Logic.I | exact Hd]. }
  assert (Hlog : forall e s, match e with Emitted _ _ => False | _ => True end ->
                             I s -> I (log e s)).
  { intros e s He (Hd & Hc & Htr). split; [exact Hd|]. split; [exact Hc|].
    cbn [log trace_]. apply Forall_app. split; [exact Htr|].
    constructor; [|constructor]. destruct e; [contradiction| |]; exact Logic.I. }
  assert (Hrun : I (run config calls)).
  { apply I_run; try (intros; assumption).
    - intros s. now apply Hlog.
    - intros k d s. now apply Hlog.
    - exact Hemit.
    - intros env v s. apply block_setSpeed; try (intros; assumption). exact Hemit.
    - intros env s. apply block_checkGeofences; try (intros; assumption). exact Hemit.
    - intros d h s (Hd & Hc & Htr). repeat split; try reflexivity. exact Htr.
    - repeat split. constructor. }
  destruct Hrun as (Hd & Hc & Htr). split; [exact Hd|]. split; [exact Hc|].
  intros ev tp Hin. rewrite Forall_forall in Htr. exact (Htr _ Hin).
Qed.

Lemma legacy_op_frames op sm :
  (match op with ProcessMotion _ => False | _ => True end ->
   StateMachine.inMotion_ (fst (apply_op op sm)) = StateMachine.inMotion_ sm) /\
  (match op with ProcessGeofenceChange _ _ => False | _ => True end ->
   StateMachine.currentGeofences_ (fst (apply_op op sm)) = StateMachine.currentGeofences_ sm).
Proof.
  destruct op as [on|moving|p|entered id|v l]; cbn [apply_op]; split; intros Hop;
    try contradiction.
  - unfold StateMachine.processIgnition. case_bool_decide; [reflexivity|]. cbn [fst].
    now destruct (settle_fields (StateMachine.mk (StateMachine.currentState_ sm) on
      (StateMachine.inMotion_ sm) (StateMachine.batteryPercentage_ sm)
      (StateMachine.currentGeofences_ sm))) as (_ & _ & -> & _).
  - unfold StateMachine.processIgnition. case_bool_decide; [reflexivity|]. cbn [fst].
    now destruct (settle_fields (StateMachine.mk (StateMachine.currentState_ sm) on
      (StateMachine.inMotion_ sm) (StateMachine.batteryPercentage_ sm)
      (StateMachine.currentGeofences_ sm))) as (_ & _ & _ & ->).
  - unfold StateMachine.processMotion. case_bool_decide; [reflexivity|]. cbn [fst].
    now destruct (settle_fields (StateMachine.mk (StateMachine.currentState_ sm)
      (StateMachine.ignitionOn_ sm) moving (StateMachine.batteryPercentage_ sm)
      (StateMachine.currentGeofences_ sm))) as (_ & _ & _ & ->).
  - unfold StateMachine.processBatteryLevel.
    destruct (_ && _); [reflexivity|]. destruct (_ && _); [|reflexivity].
    destruct (_ && _); [reflexivity|]. now destruct (StateMachine.ignitionOn_ _).
  - unfold StateMachine.processBatteryLevel.
    destruct (_ && _); [reflexivity|]. destruct (_ && _); [|reflexivity].
    destruct (_ && _); [reflexivity|]. now destruct (StateMachine.ignitionOn_ _).
  - unfold StateMachine.processGeofenceChange. destruct entered; [reflexivity|].
    now case_bool_decide.
  - unfold StateMachine.processSpeedLimit. now destruct (PrimFloat.ltb _ _).
  - unfold StateMachine.processSpeedLimit. now destruct (PrimFloat.ltb _ _).
Qed.

(** Over every run the state machine inside the simulator agrees with
    the simulator: its motion flag says whether the speed is above
    zero, and its state is the one its inputs call for.  So the device
    is Driving exactly while the ignition is on, the speed is above
    zero and the level the machine was last told is above 20. *)
Theorem simulator_state_follows_speed_and_ignition
    (config : SimulatorConfig) (calls : list (Env * Call)) :
  let s := run config calls in
  let m := stateMachine_ s in
  StateMachine.inMotion_ m = PrimFloat.ltb 0 (currentSpeed_ (telemetry s)) /\
  StateMachine.currentState_ m =
    state_for (PrimFloat.leb (StateMachine.batteryPercentage_ m) 20)
              (StateMachine.ignitionOn_ m) (StateMachine.inMotion_ m).
Proof.
  set (I := fun s : Simulator.t =>
              StateMachine.inMotion_ (stateMachine_ s) =
                PrimFloat.ltb 0 (currentSpeed_ (telemetry s)) /\
              settled (stateMachine_ s)).
  assert (Hop : forall op s,
            match op with ProcessMotion _ => False | _ => True end ->
            I s -> I (with_stateMachine (fst (apply_op op (stateMachine_ s))) s)).
  { intros op s Hop [Hm Hs]. split.
    - cbn [with_stateMachine stateMachine_ telemetry].
      now rewrite (proj1 (legacy_op_frames op (stateMachine_ s)) Hop).
    - now apply apply_op_settled. }
  assert (Hspeed : forall env v s, I s -> I (setSpeed env v s)).
  { intros env v s [Hm Hs]. unfold setSpeed.
    match goal with |- context [with_telemetry ?d s] =>
      set (s1 := with_telemetry d s) end.
    assert (H1 : stateMachine_ s1 = stateMachine_ s /\
                 currentSpeed_ (telemetry s1) = v) by (split; reflexivity).
    clearbody s1. destruct H1 as [Hsm1 Hv1].
    match goal with |- context [if negb ?c then ?a else s1] =>
      set (s2 := if negb c then a else s1);
      assert (H2 : I s2 /\ currentSpeed_ (telemetry s2) = v) end.
    { subst s2. rewrite <- Hm.
      destruct (eqb (StateMachine.inMotion_ (stateMachine_ s)) (PrimFloat.ltb 0 v)) eqn:He;
        cbn [negb].
      - apply eqb_prop in He. split; [|exact Hv1]. split; rewrite Hsm1, ?Hv1; assumption.
      - destruct (drive_frame env (StateMachine.processMotion (PrimFloat.ltb 0 v)) s1)
          as (Hd1 & _ & _ & _ & Hd5 & _).
        split; [|now rewrite Hd5]. split.
        + rewrite Hd1, Hd5, Hv1, Hsm1. unfold StateMachine.processMotion.
          rewrite bool_decide_eq_false_2
            by (intros E; rewrite E, eqb_reflx in He; discriminate).
          cbn [fst].
          now destruct (settle_fields (StateMachine.mk
            (StateMachine.currentState_ (stateMachine_ s))
            (StateMachine.ignitionOn_ (stateMachine_ s)) (PrimFloat.ltb 0 v)
            (StateMachine.batteryPercentage_ (stateMachine_ s))
            (StateMachine.currentGeofences_ (stateMachine_ s)))) as (_ & _ & -> & _).
        + rewrite Hd1, Hsm1.
          apply (apply_op_settled (ProcessMotion (PrimFloat.ltb 0 v))). exact Hs. }
    clearbody s2. destruct H2 as [[Hm2 Hs2] Hv2].
    destruct (PrimFloat.ltb (speedLimitKph (config_ s2)) v); [|exact (conj Hm2 Hs2)].
    match goal with |- I (drive env ?op s2) =>
      destruct (drive_frame env op s2) as (Hd1 & _ & _ & _ & Hd5 & _) end.
    assert (Hsl : forall a b sm, fst (StateMachine.processSpeedLimit a b sm) = sm).
    { intros a b sm. unfold StateMachine.processSpeedLimit.
      now destruct (PrimFloat.ltb b a). }
    split; rewrite Hd1, ?Hd5, Hsl; assumption. }
  assert (Hrun : I (run config calls)).
  { apply I_run; try (intros; assumption).
    - intros on s. exact (Hop (ProcessIgnition on) s Logic.I).
    - intros s. exact (Hop (ProcessBatteryLevel (battery_ s)) s Logic.I).
    - exact Hspeed.
    - intros env s. apply block_checkGeofences; try (intros; assumption).
      intros entered id s0. exact (Hop (ProcessGeofenceChange entered id) s0 Logic.I).
    - split; reflexivity. }
  destruct Hrun as [Hm Hs]. split; [exact Hm | exact Hs].
Qed.

Lemma remove_first_middle (x : string) (l1 l2 : list string) :
  x ∉ l1 -> StateMachine.remove_first x (l1 ++ x :: l2) = l1 ++ l2.
Proof.
  induction l1 as [|y l1 IH]; intros Hx; simpl.
  - now rewrite decide_True.
  - apply not_elem_of_cons in Hx as [Hne Hx].
    rewrite decide_False by congruence. now rewrite IH.
Qed.

(** The first loop of [checkGeofences]: the fences newly inside are
    appended to both lists. *)
Lemma enter_fences_lists env insideIds s :
  StateMachine.currentGeofences_ (stateMachine_ s) = currentGeofenceIds_ s ->
  NoDup (currentGeofenceIds_ s) ->
  let s' := enter_fences env insideIds s in
  StateMachine.currentGeofences_ (stateMachine_ s') = currentGeofenceIds_ s' /\
  NoDup (currentGeofenceIds_ s') /\
  (forall id, id ∈ currentGeofenceIds_ s' <-> id ∈ currentGeofenceIds_ s \/ id ∈ insideIds).
Proof.
  revert s. induction insideIds as [|id ids IH]; intros s Heq Hnd; cbn [enter_fences].
  - split; [exact Heq|]. split; [exact Hnd|]. intros i. rewrite elem_of_nil. tauto.
  - case_bool_decide as Hin.
    + destruct (IH s Heq Hnd) as (H1 & H2 & H3). split; [exact H1|]. split; [exact H2|].
      intros i. rewrite H3, elem_of_cons.
      split; [tauto|]. intros [Hi|[Hi|Hi]]; [tauto | subst i; tauto | tauto].
    + destruct (drive_frame env (StateMachine.processGeofenceChange true id) s)
        as (Hd1 & _ & _ & _ & _ & Hd6 & _).
      match goal with |- context [enter_fences env ids ?x] => set (s1 := x) end.
      assert (Heq1 : StateMachine.currentGeofences_ (stateMachine_ s1) =
                     currentGeofenceIds_ s1).
      { subst s1. cbn [with_geofenceIds stateMachine_ currentGeofenceIds_].
        rewrite Hd1, Hd6. cbn [StateMachine.processGeofenceChange fst
                               StateMachine.currentGeofences_].
        now rewrite Heq. }
      assert (Hids1 : currentGeofenceIds_ s1 = currentGeofenceIds_ s ++ [id]).
      { subst s1. cbn [with_geofenceIds currentGeofenceIds_]. now rewrite Hd6. }
      assert (Hnd1 : NoDup (currentGeofenceIds_ s1)).
      { rewrite Hids1. apply NoDup_app. split; [exact Hnd|]. split.
        - intros x Hx Hx'. apply list_elem_of_singleton in Hx'. now subst x.
        - apply NoDup_singleton. }
      clearbody s1.
      destruct (IH s1 Heq1 Hnd1) as (H1 & H2 & H3). split; [exact H1|]. split; [exact H2|].
      intros i. rewrite H3, Hids1, elem_of_app, list_elem_of_singleton, elem_of_cons. tauto.
Qed.

(** The second loop: the fences no longer inside leave both lists. *)
Lemma exit_fences_lists env insideIds todo kept s :
  StateMachine.currentGeofences_ (stateMachine_ s) = kept ++ todo ->
  NoDup (kept ++ todo) ->
  let s' := exit_fences env insideIds kept todo s in
  StateMachine.currentGeofences_ (stateMachine_ s') = currentGeofenceIds_ s' /\
  NoDup (currentGeofenceIds_ s') /\
  (forall id, id ∈ currentGeofenceIds_ s' <->
              id ∈ kept \/ (id ∈ todo /\ id ∈ insideIds)).
Proof.
  revert kept s. induction todo as [|id todo IH]; intros kept s Heq Hnd; cbn [exit_fences].
  - rewrite app_nil_r in Heq, Hnd. split; [exact Heq|]. split; [exact Hnd|].
    intros i. cbn [with_geofenceIds currentGeofenceIds_]. rewrite elem_of_nil. tauto.
  - case_bool_decide as Hin.
    + assert (Heq' : StateMachine.currentGeofences_ (stateMachine_ s) =
                     (kept ++ [id]) ++ todo) by (now rewrite <- app_assoc).
      assert (Hnd' : NoDup ((kept ++ [id]) ++ todo)) by (now rewrite <- app_assoc).
      destruct (IH (kept ++ [id]) s Heq' Hnd') as (H1 & H2 & H3).
      split; [exact H1|]. split; [exact H2|].
      intros i. rewrite H3, elem_of_app, list_elem_of_singleton, elem_of_cons.
      split; [|tauto]. intros [[Hi|Hi]|Hi]; [tauto | subst i; tauto | tauto].
    + destruct (drive_frame env (StateMachine.processGeofenceChange false id) s)
        as (Hd1 & _).
      assert (Hk : id ∉ kept).
      { apply NoDup_app in Hnd as (_ & Hd & _). intros Hk. apply (Hd id Hk), list_elem_of_here. }
      assert (Heq' : StateMachine.currentGeofences_
                       (stateMachine_ (drive env (StateMachine.processGeofenceChange false id) s)) =
                     kept ++ todo).
      { rewrite Hd1. unfold StateMachine.processGeofenceChange.
        rewrite bool_decide_eq_true_2
          by (rewrite Heq; apply elem_of_app; right; apply list_elem_of_here).
        cbn [fst StateMachine.currentGeofences_]. rewrite Heq.
        now apply remove_first_middle. }
      assert (Hnd' : NoDup (kept ++ todo)).
      { apply NoDup_app in Hnd as (Ha & Hb & Hc). apply NoDup_cons in Hc as [_ Hc].
        apply NoDup_app. split; [exact Ha|]. split; [|exact Hc].
        intros x Hx Hx'. apply (Hb x Hx). now apply list_elem_of_further. }
      destruct (IH kept _ Heq' Hnd') as (H1 & H2 & H3).
      split; [exact H1|]. split; [exact H2|].
      intros i. rewrite H3, elem_of_cons.
      split; [tauto|]. intros [Hi|[[Hi|Hi] Hi']]; [tauto | subst i; contradiction | tauto].
Qed.

Lemma checkGeofences_lists env s :
  StateMachine.currentGeofences_ (stateMachine_ s) = currentGeofenceIds_ s ->
  NoDup (currentGeofenceIds_ s) ->
  let s' := checkGeofencesStep env s in
  StateMachine.currentGeofences_ (stateMachine_ s') = currentGeofenceIds_ s' /\
  NoDup (currentGeofenceIds_ s') /\
  (forall id, id ∈ currentGeofenceIds_ s' <->
              id ∈ checkGeofences env (currentLocation_ (telemetry s))).
Proof.
  intros Heq Hnd. unfold checkGeofencesStep.
  set (inside := checkGeofences env (currentLocation_ (telemetry s))).
  destruct (enter_fences_lists env inside s Heq Hnd) as (H1 & H2 & H3).
  set (s1 := enter_fences env inside s) in *. clearbody s1.
  destruct (exit_fences_lists env inside (currentGeofenceIds_ s1) [] s1 H1 H2)
    as (H4 & H5 & H6).
  split; [exact H4|]. split; [exact H5|].
  intros i. rewrite H6, H3, elem_of_nil. tauto.
Qed.

(** The simulator and its state machine keep the same list of entered
    geofences, without repetitions, over every run; and after
    [checkGeofences] the list holds exactly the fences the device is
    inside of. *)
Theorem simulator_geofence_lists_agree
    (config : SimulatorConfig) (calls : list (Env * Call)) (env : Env) :
  let s := run config calls in
  StateMachine.currentGeofences_ (stateMachine_ s) = currentGeofenceIds_ s /\
  NoDup (currentGeofenceIds_ s) /\
  (forall id, id ∈ currentGeofenceIds_ (checkGeofencesStep env s) <->
              id ∈ checkGeofences env (currentLocation_ (telemetry s))).
Proof.
  set (I := fun s : Simulator.t =>
              StateMachine.currentGeofences_ (stateMachine_ s) = currentGeofenceIds_ s /\
              NoDup (currentGeofenceIds_ s)).
  assert (Hop : forall op s,
            match op with ProcessGeofenceChange _ _ => False | _ => True end ->
            I s -> I (with_stateMachine (fst (apply_op op (stateMachine_ s))) s)).
  { intros op s Hop [Heq Hnd]. split; [|exact Hnd].
    cbn [with_stateMachine stateMachine_ currentGeofenceIds_].
    now rewrite (proj2 (legacy_op_frames op (stateMachine_ s)) Hop). }
  assert (Hrun : I (run config calls)).
  { apply I_run; try (intros; assumption).
    - intros on s. exact (Hop (ProcessIgnition on) s Logic.I).
    - intros s. exact (Hop (ProcessBatteryLevel (battery_ s)) s Logic.I).
    - intros env0 v s. apply block_setSpeed; try (intros; assumption).
      + intros moving s0. exact (Hop (ProcessMotion moving) s0 Logic.I).
      + intros a b s0. exact (Hop (ProcessSpeedLimit a b) s0 Logic.I).
    - intros env0 s [Heq Hnd].
      destruct (checkGeofences_lists env0 s Heq Hnd) as (H1 & H2 & _). now split.
    - split; [reflexivity | constructor]. }
  destruct Hrun as [Heq Hnd]. split; [exact Heq|]. split; [exact Hnd|].
  exact (proj2 (proj2 (checkGeofences_lists env _ Heq Hnd))).
Qed.

End SimulatorRunProperties.

(** ** TwinHandler.cpp: applying and acknowledging desired properties *)

Section TwinApplyProperties.
Import Json TwinHandler.

(** An apply succeeds exactly when the desired properties are an
    object whose version can be read and the file opens.  The stream
    is not looked at after the write, so Success is also the answer
    when the write fails once the file is open.  On Success the stored
    version is the version of the document, hasChanges says whether
    that version differs from the one stored before, and the file
    holds the document without its $version and $metadata members if
    the write went through, and no configuration if it did not. *)
Theorem apply_succeeds_when_file_opens
    (env : Env) (desired : json) (h : TwinHandler.t) :
  let result := fst (applyDesiredAndWriteFile env desired h) in
  let h' := snd (applyDesiredAndWriteFile env desired h) in
  (status result = Success <->
   is_object desired = true /\ extract_version desired <> None /\
   file_opens env = true) /\
  (status result = Success ->
   exists m, desired = JObject m /\
     configFile_ h' =
       (if file_writes env
        then Some (JObject (delete "$metadata" (delete "$version" m)))
        else None) /\
     getConfigVersion h' = configVersion result /\
     extract_version desired = Some (configVersion result) /\
     hasChanges result = negb (bool_decide (getConfigVersion h = configVersion result)) /\
     errorMessage result = "" /\ appliedAt result = getCurrentTimestamp env).
Proof.
  cbv zeta. unfold applyDesiredAndWriteFile, getConfigVersion.
  destruct (extract_version desired) as [version|] eqn:Hv.
  2: { cbn [fst snd status]. split; [|discriminate].
       split; [discriminate | now intros (_ & Hn & _)]. }
  destruct desired as [| | | | | | |m]; cbn [erase mbind option_bind fst snd status is_object];
    try (split; [split; [discriminate | now intros (Ho & _)] | discriminate]).
  destruct (file_opens env) eqn:Hf; cbn [negb fst snd status].
  - split; [split; [intros _; repeat split; discriminate | reflexivity]|].
    intros _. exists m. cbn. repeat split. case_bool_decide; simpl; congruence.
  - split; [|discriminate]. split; [discriminate | now intros (_ & _ & Hn)].
Qed.

(** A write that fails after the open: the answer is Success, the
    version is stored, and the file holds no configuration. *)
Example success_without_write :
  let r := applyDesiredAndWriteFile (mkEnv "t" true false "") desired7 fresh_handler in
  status (fst r) = Success /\ getConfigVersion (snd r) = "7" /\ configFile_ (snd r) = None.
Proof. vm_compute. repeat split. Qed.

(** An apply that ends in JsonParseError never touches the file.  When
    the version member is not a number the handler stays as it was;
    but desired properties that are not an object are rejected only
    after the stored version has been set to the word unknown. *)
Theorem apply_type_error_and_stored_version
    (env : Env) (desired : json) (h h' : TwinHandler.t) (result : TwinUpdateResult) :
  applyDesiredAndWriteFile env desired h = (result, h') ->
  status result = JsonParseError ->
  configFile_ h' = configFile_ h /\
  (extract_version desired = None ->
   h' = h /\ hasChanges result = false /\ configVersion result = "") /\
  (extract_version desired <> None ->
   is_object desired = false /\ configVersion result = "unknown" /\
   getConfigVersion h' = "unknown").
Proof.
  unfold applyDesiredAndWriteFile, getConfigVersion.
  destruct (extract_version desired) as [version|] eqn:Hv.
  - destruct desired as [| | | | | | |m]; cbn [erase mbind option_bind].
    8: { destruct (file_opens env); cbn [negb]; intros [= <- <-]; discriminate. }
    all: intros [= <- <-] _; split; [reflexivity|]; split; [discriminate|]; intros _;
      cbn in Hv; injection Hv as <-; cbn;
      (split; [reflexivity|]); (split; [reflexivity|]);
      case_bool_decide; simpl; congruence.
  - intros [= <- <-] _. split; [reflexivity|]. split; [now intros _|]. now intros Hn.
Qed.

Lemma apply_type_error_witness :
  getConfigVersion (snd (applyDesiredAndWriteFile read_only_disk (JArray []) fresh_handler))
    = "unknown" /\
  snd (applyDesiredAndWriteFile read_only_disk
         (JObject (<["$version" := JString "7"]> ∅)) fresh_handler) = fresh_handler.
Proof.
  split.
  - refine (proj2 (proj2 (proj2 (proj2 (apply_type_error_and_stored_version read_only_disk
      (JArray []) fresh_handler _ _ (surjective_pairing _) eq_refl)) _))).
    discriminate.
  - refine (proj1 (proj1 (proj2 (apply_type_error_and_stored_version read_only_disk
      (JObject (<["$version" := JString "7"]> ∅)) fresh_handler _ _
      (surjective_pairing _) eq_refl)) _)).
    reflexivity.
Defined.

End TwinApplyProperties.

Section TwinPatchProperties.
Import Json TwinHandler.

Context {M : Type} {client_ops : Mqtt.IMqttClient M}.

Lemma callback_fields (result : TwinUpdateResult) (patch : json) (b : adapter M) :
  let a' := if configUpdateCallback_ b
            then mkAdapter (state_ b) (mqttClient_ b) true
                   (configUpdates_ b ++ [(result, patch)])
                   (twinResponseCallback_ b) (twinResponses_ b) (errorFile_ b)
            else b in
  state_ a' = state_ b /\ mqttClient_ a' = mqttClient_ b /\
  errorFile_ a' = errorFile_ b /\
  configUpdates_ a' =
    configUpdates_ b ++ (if configUpdateCallback_ b then [(result, patch)] else []).
Proof.
  cbv zeta. destruct (configUpdateCallback_ b); cbn; rewrite ?app_nil_r; repeat split.
Qed.

(** A desired-properties patch is acknowledged only when it was
    applied.  After a successful apply, on a connected client, one
    message goes to the reported-properties topic with request id 3,
    carrying the printed acknowledgment; after an apply that failed, or
    on a client that is not connected, the client is not called at all.
    The configuration callback, when set, is called once with the
    result of the apply, whatever the result, and the error file is
    not touched.  A payload that does not parse changes nothing but the
    error file. *)
Theorem desired_patch_is_acknowledged_only_on_success
    (env : Env) (dump : Z -> json -> option string) (error_file_opens : bool)
    (payload parse_what : string) (patch : json) (a : adapter M) :
  let result := fst (applyDesiredAndWriteFile env patch (state_ a)) in
  let a' := processDesiredPatch env dump error_file_opens payload (Some patch) parse_what a in
  let a0 := processDesiredPatch env dump error_file_opens payload None parse_what a in
  (state_ a' = snd (applyDesiredAndWriteFile env patch (state_ a)) /\
   errorFile_ a' = errorFile_ a /\
   configUpdates_ a' =
     configUpdates_ a ++ (if configUpdateCallback_ a then [(result, patch)] else []) /\
   mqttClient_ a' =
     if decide (status result = Success)
     then if Mqtt.isConnected (mqttClient_ a)
          then match dump (-1)%Z (createDefaultReportedAck patch result) with
               | Some text =>
                   snd (Mqtt.publish (mqttClient_ a)
                          "$iothub/twin/PATCH/properties/reported/?$rid=3" text 0 false)
               | None => mqttClient_ a
               end
          else mqttClient_ a
     else mqttClient_ a) /\
  (state_ a0 = state_ a /\ mqttClient_ a0 = mqttClient_ a /\
   configUpdates_ a0 = configUpdates_ a).
Proof.
  intros result a' a0. subst result a' a0. unfold processDesiredPatch. split.
  - destruct (applyDesiredAndWriteFile env patch (state_ a)) as [result h] eqn:E.
    cbn [fst snd].
    match goal with
    | |- context [if configUpdateCallback_ ?b then _ else _] =>
        pose proof (callback_fields result patch b) as Hcb; cbv zeta in Hcb;
        destruct Hcb as (H1 & H2 & H3 & H4)
    end.
    rewrite H1, H2, H3, H4. clear H1 H2 H3 H4.
    destruct (decide (status result = Success)) as [Hok|Hno]; [|repeat split].
    unfold sendReportedAck. cbn [set_state mqttClient_].
    destruct (Mqtt.isConnected (mqttClient_ a)); cbn [negb snd]; [|repeat split].
    destruct (dump _ _) as [text|]; [|repeat split].
    change (kTwinReportedTopic +:+ "?$rid=" +:+ "3")
      with "$iothub/twin/PATCH/properties/reported/?$rid=3".
    destruct (Mqtt.publish (mqttClient_ a) _ text 0 false) as [ok m].
    repeat split.
  - unfold writeErrorFile. destruct error_file_opens; repeat split.
Qed.

(** The full twin is requested only once both subscriptions have been
    made: [requestFullTwin] publishes nothing until
    [initializeSubscriptions] has succeeded, which takes a connected
    client and both topics accepted; if the second subscription is
    refused the first one stays and the adapter stays uninitialized. *)
Theorem full_twin_request_needs_subscriptions (rid : string) (a : adapter M) :
  let r := initializeSubscriptions a in
  (initialized_ (state_ a) = false -> requestFullTwin rid a = (false, a)) /\
  (Mqtt.isConnected (mqttClient_ a) = false -> r = (false, a)) /\
  (fst r = true ->
   initialized_ (state_ (snd r)) = true /\
   fst (Mqtt.subscribe (mqttClient_ a) "$iothub/twin/res/#" 0) = true /\
   mqttClient_ (snd r) =
     snd (Mqtt.subscribe (snd (Mqtt.subscribe (mqttClient_ a) "$iothub/twin/res/#" 0))
            "$iothub/twin/PATCH/properties/desired/#" 0)) /\
  (fst r = false -> initialized_ (state_ (snd r)) = initialized_ (state_ a)).
Proof.
  intros r. subst r. split.
  { intros Hi. unfold requestFullTwin. now rewrite Hi. }
  unfold initializeSubscriptions.
  destruct (Mqtt.isConnected (mqttClient_ a)) eqn:Hc; cbn [negb].
  2: { split; [reflexivity|]. split; [discriminate | reflexivity]. }
  split; [discriminate|].
  change (kTwinResponseTopic +:+ "#") with "$iothub/twin/res/#".
  change (kTwinPatchTopic +:+ "#") with "$iothub/twin/PATCH/properties/desired/#".
  destruct (Mqtt.subscribe (mqttClient_ a) "$iothub/twin/res/#" 0) as [ok1 m1].
  destruct ok1; cbn [negb fst snd]; [|split; [discriminate | reflexivity]].
  destruct (Mqtt.subscribe m1 "$iothub/twin/PATCH/properties/desired/#" 0) as [ok2 m2].
  destruct ok2; cbn [negb fst snd]; [|split; [discriminate | reflexivity]].
  split; [intros _; repeat split | discriminate].
Qed.

End TwinPatchProperties.

Section PahoProperties.
Import Mqtt PahoMqttClient.

Lemma queueMessage_cases (msg : MqttMessage) (q : list MqttMessage) :
  (length q <= 100)%nat ->
  ((length q < 100)%nat /\ queueMessage msg q = q ++ [msg]) \/
  (length q = 100%nat /\ exists x q0, q = x :: q0 /\ queueMessage msg q = q0 ++ [msg]).
Proof.
  intros Hq. unfold queueMessage, kMaxOfflineQueueSize.
  destruct (100 <=? length q)%nat eqn:Hfull.
  - apply Nat.leb_le in Hfull. right. split; [lia|].
    destruct q as [|x q0]; [cbn in Hfull; lia|]. now exists x, q0.
  - apply Nat.leb_gt in Hfull. left. now split.
Qed.

Lemma queue_all_lastn (msgs q : list MqttMessage) :
  (length q <= 100)%nat ->
  fold_left (fun acc m => queueMessage m acc) msgs q = lastn 100 (q ++ msgs).
Proof.
  revert q. induction msgs as [|m msgs IH]; intros q Hq; cbn [fold_left].
  - rewrite app_nil_r. unfold lastn.
    replace (length q - 100)%nat with 0%nat by lia. reflexivity.
  - destruct (queueMessage_cases m q Hq) as [[Hlt ->]|[Hfull (x & q0 & -> & ->)]].
    + rewrite IH by (rewrite length_app; cbn [length]; lia).
      now rewrite <- app_assoc.
    + cbn [length] in Hfull.
      rewrite IH by (rewrite length_app; cbn [length]; lia).
      rewrite <- app_assoc. cbn [app]. unfold lastn.
      cbn [length app].
      assert (Hlen : length (q0 ++ m :: msgs) = (100 + length msgs)%nat)
        by (rewrite length_app; cbn [length]; lia).
      rewrite Hlen.
      replace (S (100 + length msgs) - 100)%nat with (S (length msgs)) by lia.
      replace (100 + length msgs - 100)%nat with (length msgs) by lia.
      reflexivity.
Qed.

(** While the client is disconnected [publish] is [queueMessage]. *)
Lemma publish_all_offline (rc : nat -> bool) (msgs : list MqttMessage) (w : wire) :
  connected_ (client_ w) = false ->
  publish_all rc msgs w =
    mkWire (mk false (fold_left (fun acc m => queueMessage m acc) msgs
                                (offlineQueue_ (client_ w))))
           (sendMessage_ w).
Proof.
  revert w. induction msgs as [|m msgs IH]; intros w Hc; cbn [publish_all fold_left].
  - destruct w as [[c q] sent]. cbn in Hc. now subst c.
  - unfold publish_all in IH. unfold publish at 2, paho_publish. rewrite Hc. cbn [negb snd].
    rewrite IH by reflexivity. destruct m; reflexivity.
Qed.

(** While the client is connected [publish] hands the message over. *)
Lemma publish_all_online (rc : nat -> bool) (msgs : list MqttMessage) (w : wire) :
  connected_ (client_ w) = true ->
  publish_all rc msgs w = mkWire (client_ w) (sendMessage_ w ++ map wire_message msgs).
Proof.
  revert w. induction msgs as [|m msgs IH]; intros w Hc; cbn [publish_all fold_left map].
  - rewrite app_nil_r. now destruct w.
  - unfold publish_all in IH. unfold publish at 2, paho_publish. rewrite Hc. cbn [negb snd].
    rewrite IH by exact Hc. cbn [client_ sendMessage_]. now rewrite <- app_assoc.
Qed.

Lemma flush_loop_online (rc : nat -> bool) (q : list MqttMessage) (w : wire) :
  connected_ (client_ w) = true ->
  flush_loop rc q w =
    match q with
    | [] => w
    | _ :: _ => mkWire (mk true []) (sendMessage_ w ++ map wire_message q)
    end.
Proof.
  revert w. induction q as [|m q IH]; intros w Hc; cbn [flush_loop]; [reflexivity|].
  rewrite Hc. unfold publish, paho_publish. rewrite Hc. cbn [negb snd client_ sendMessage_].
  rewrite IH by (cbn; exact Hc). cbn [sendMessage_ map].
  destruct q as [|m' q]; [now rewrite Hc | now rewrite <- app_assoc].
Qed.

(** Messages published while the client is disconnected are handed to
    the library at the next connection, after what the connection
    callback publishes: the last 100 of them, oldest first, each once,
    with the topic [publish] would have used; the offline queue is then
    empty.  Every one of these calls to [publish] had returned false,
    and what the library answers during the flush changes nothing. *)
Theorem offline_messages_are_sent_on_connect
    (rc : nat -> bool) (msgs callback_publishes : list MqttMessage) (w : wire) :
  connected_ (client_ w) = false ->
  (length (offlineQueue_ (client_ w)) <= 100)%nat ->
  let w1 := publish_all rc msgs w in
  let w2 := onConnected rc callback_publishes w1 in
  sendMessage_ w1 = sendMessage_ w /\
  sendMessage_ w2 =
    sendMessage_ w ++ map wire_message callback_publishes
                   ++ map wire_message (lastn 100 (offlineQueue_ (client_ w) ++ msgs)) /\
  offlineQueue_ (client_ w2) = [] /\
  connected_ (client_ w2) = true /\
  forall m w', connected_ (client_ w') = false ->
               fst (publish rc (topic m) (payload m) (qos m) (retained m) w') = false.
Proof.
  intros Hc Hq w1 w2. subst w1 w2.
  rewrite (publish_all_offline rc msgs w Hc), (queue_all_lastn msgs _ Hq).
  split; [reflexivity|].
  unfold onConnected, flushOfflineQueue. cbn [client_ sendMessage_ offlineQueue_].
  rewrite publish_all_online by reflexivity. cbn [client_ sendMessage_ offlineQueue_].
  rewrite flush_loop_online by reflexivity. cbn [sendMessage_].
  set (q := lastn 100 _).
  split; [|split; [|split]].
  - destruct q; cbn [sendMessage_ map]; [now rewrite !app_nil_r | now rewrite app_assoc].
  - now destruct q.
  - now destruct q.
  - intros m w' Hw'. unfold publish, paho_publish. now rewrite Hw'.
Qed.

Lemma offline_messages_witness :
  map payload (sendMessage_ (onConnected (fun _ => false) []
                 (publish_all (fun _ => false) (map numbered (seq 0 103)) offline_client))) =
  map (fun n => pretty (Z.of_nat n)) (seq 3 100).
Proof.
  pose proof (offline_messages_are_sent_on_connect (fun _ => false)
                (map numbered (seq 0 103)) [] offline_client eq_refl (Nat.le_0_l 100))
    as (_ & H & _).
  rewrite H. vm_compute. reflexivity.
Defined.

Lemma iotHubTopic_events (a b : string) :
  iotHubTopic (a +:+ "messages/events" +:+ b) =
    (a +:+ "messages/events" +:+ b) +:+ "$.ct=application%2Fjson&$.ce=utf-8".
Proof.
  unfold iotHubTopic.
  destruct (Str.find _ _ 0) eqn:E; [reflexivity|].
  now apply find_occurrence in E.
Qed.

(** Telemetry goes out with the content type: for every device id, the
    topic the pipeline builds for an event, the topic the connection
    manager builds from a relative topic and the events topic of the
    legacy connection are all handed to the library with
    "$.ct=application%2Fjson&$.ce=utf-8" appended, after the relative
    topic if there is one. *)
Theorem telemetry_topics_get_content_type
    {M : Type} (deviceId tp : string) (ev : Events.Event)
    (c : DpsConnectionManager.t M) :
  let ct := "$.ct=application%2Fjson&$.ce=utf-8" in
  iotHubTopic (Pipeline.buildTopic deviceId ev) = Pipeline.buildTopic deviceId ev +:+ ct /\
  iotHubTopic (DpsConnectionManager.buildDeviceTelemetryTopic c +:+ tp) =
    "devices/" +:+ DpsConnectionManager.deviceId_ c +:+ "/messages/events/" +:+ tp +:+ ct /\
  iotHubTopic (events_topic deviceId) = events_topic deviceId +:+ ct.
Proof.
  cbv zeta.
  assert (H : forall id rest,
            "devices/" +:+ id +:+ "/messages/events/" +:+ rest =
            ("devices/" +:+ id +:+ "/") +:+ "messages/events" +:+ ("/" +:+ rest)).
  { intros id rest. rewrite !string_app_assoc. reflexivity. }
  assert (H0 : forall id, "devices/" +:+ id +:+ "/messages/events/" =
                          "devices/" +:+ id +:+ "/messages/events/" +:+ "").
  { intros id. now rewrite string_app_empty. }
  repeat split.
  - unfold Pipeline.buildTopic. rewrite (H0 deviceId) at 1. rewrite H, iotHubTopic_events.
    now rewrite <- H, <- H0.
  - unfold DpsConnectionManager.buildDeviceTelemetryTopic.
    rewrite !string_app_assoc. rewrite H, iotHubTopic_events.
    rewrite <- H. now rewrite !string_app_assoc.
  - unfold events_topic. rewrite (H0 deviceId) at 1. rewrite H, iotHubTopic_events.
    now rewrite <- H, <- H0.
Qed.

End PahoProperties.

Section WorkflowProperties.
Import Mqtt DpsConnectionManager.

Context {M : Type} {client_ops : IMqttClient M}.

Lemma call_state cb b r (m : manager M) : state_ (core_ (call cb b r m)) = state_ (core_ m).
Proof. now destruct cb. Qed.

Lemma onProvisioningComplete_state result (m : manager M) :
  state_ (core_ (onProvisioningComplete result m)) <> Disconnected.
Proof.
  unfold onProvisioningComplete. destruct (DpsProvisioning.success result).
  - unfold on_hub. cbn [hubClient_].
    destruct (hubClient_ (core_ m)) as [hub|]; cbn.
    + destruct (connectWithTls _ _ _ _ _ _) as [started hub']. destruct started; cbn.
      * discriminate.
      * rewrite call_state. discriminate.
    + rewrite call_state. discriminate.
  - cbn. rewrite call_state. discriminate.
Qed.

Lemma after_results_state results (m : manager M) :
  state_ (core_ m) <> Disconnected ->
  state_ (core_ (fold_left (fun acc result => onProvisioningComplete result acc) results m))
    <> Disconnected.
Proof.
  revert m. induction results as [|r results IH]; intros m Hm; cbn [fold_left]; [exact Hm|].
  apply IH, onProvisioningComplete_state.
Qed.

Lemma after_engine_state e (m : manager M) :
  state_ (core_ m) <> Disconnected -> state_ (core_ (after_engine e m)) <> Disconnected.
Proof. intros Hm. unfold after_engine. now apply after_results_state. Qed.

Lemma on_hub_state (f : M -> bool * M) (c : DpsConnectionManager.t M) :
  state_ (snd (on_hub f c)) = state_ c.
Proof.
  unfold on_hub. destruct (hubClient_ c) as [hub|]; [|reflexivity].
  now destruct (f hub).
Qed.

Lemma operations_state (c : DpsConnectionManager.t M) tp pl q r :
  state_ (snd (publish tp pl q r c)) = state_ c /\
  state_ (snd (subscribe tp q c)) = state_ c /\
  state_ (snd (unsubscribe tp c)) = state_ c.
Proof.
  unfold publish, subscribe, unsubscribe.
  destruct (negb (isConnected c)); cbn [snd]; rewrite ?on_hub_state; repeat split.
Qed.

Lemma step_state (m : manager M) (i : Input) :
  is_disconnect i = false -> state_ (core_ m) <> Disconnected -> state_ (core_ (step m i)) <> Disconnected.
Proof.
  intros Hi Hm. destruct i; try discriminate Hi; cbn [step].
  - unfold connectToIotHub. rewrite bool_decide_eq_false_2 by exact Hm. cbn [negb].
    now rewrite call_state.
  - unfold processEvents.
    destruct (dpsProvisioning_ m) as [e|]; destruct (state_ (core_ m)) eqn:Hs;
      try (rewrite Hs; exact Hm);
      try (apply after_engine_state; rewrite Hs; exact Hm);
      destruct (hubClient_ (core_ m)); cbn; rewrite ?Hs; exact Hm.
  - destruct (dpsProvisioning_ m); [now apply after_engine_state | exact Hm].
  - destruct (dpsProvisioning_ m); [now apply after_engine_state | exact Hm].
  - destruct (hubCallback_ m); [|exact Hm]. unfold onHubConnected.
    destruct connected; rewrite call_state; cbn; [|discriminate].
    rewrite on_hub_state. discriminate.
  - cbn. now rewrite (proj1 (operations_state (core_ m) tp pl q r)).
  - cbn. now rewrite (proj1 (proj2 (operations_state (core_ m) tp "" q false))).
  - cbn. now rewrite (proj2 (proj2 (operations_state (core_ m) tp "" 0%Z false))).
Qed.

Lemma run_state (inputs : list Input) (m : manager M) :
  forallb (fun i => negb (is_disconnect i)) inputs = true ->
  state_ (core_ m) <> Disconnected -> state_ (core_ (fold_left step inputs m)) <> Disconnected.
Proof.
  revert m. induction inputs as [|i inputs IH]; intros m Hin Hm; cbn [fold_left]; [exact Hm|].
  cbn [forallb] in Hin. apply andb_true_iff in Hin as [Hi Hin].
  apply IH; [exact Hin|]. apply step_state; [now apply negb_true_iff | exact Hm].
Qed.

(** Only [disconnect] makes a manager accept a connection again.  A
    manager that is not in state Disconnected (it is provisioning,
    connecting, connected, or has failed) stays out of that state
    under every sequence of calls and client callbacks without
    [disconnect], and every [connectToIotHub] made meanwhile does
    nothing but call the given callback with false and "Connection
    already in progress or established": no engine is made and no
    client is touched. *)
Theorem connect_is_refused_until_disconnect
    (m : manager M) (inputs : list Input)
    (fs_exists : string -> bool) (now : Ports.time_point) (config : DeviceConfig)
    (callback : option nat) :
  state_ (core_ m) <> Disconnected ->
  forallb (fun i => negb (is_disconnect i)) inputs = true ->
  let m' := fold_left step inputs m in
  state_ (core_ m') <> Disconnected /\
  connectToIotHub fs_exists now config callback m' =
    call callback false "Connection already in progress or established" m' /\
  state_ (core_ (disconnect m')) = Disconnected.
Proof.
  intros Hm Hin m'. assert (Hm' : state_ (core_ m') <> Disconnected) by now apply run_state.
  split; [exact Hm'|]. split; [|reflexivity].
  unfold connectToIotHub. now rewrite bool_decide_eq_false_2 by exact Hm'.
Qed.

(** A provisioning that cannot start leaves the manager Failed: when
    the certificate files exist and the provisioning client refuses the
    connection at once, [connectToIotHub] from Disconnected ends in
    state Failed with the engine gone, and has called the callback once
    with false and the reason. *)
Theorem failed_start_leaves_manager_failed
    (m : manager M) (fs_exists : string -> bool) (now : Ports.time_point)
    (config : DeviceConfig) (k : nat) :
  state_ (core_ m) = Disconnected ->
  validateCertificatePaths fs_exists config = true ->
  fst (connectWithTls (provisioningClient_ m) "global.azure-devices-provisioning.net" 8883
         (imei config)
         (idScope config +:+ "/registrations/" +:+ imei config +:+ "/api-version=2019-03-31")
         (tls_of config)) = false ->
  let m' := connectToIotHub fs_exists now config (Some k) m in
  state_ (core_ m') = Failed /\
  dpsProvisioning_ m' = None /\
  callbackCalls_ m' =
    callbackCalls_ m ++
      [(k, false, "DPS provisioning failed: Failed to initiate connection to DPS")].
Proof.
  intros Hs Hv Hc m'. subst m'. unfold connectToIotHub.
  rewrite Hs, Hv. cbn [negb bool_decide decide_rel]. 
  rewrite bool_decide_eq_true_2 by reflexivity. cbn [negb].
  unfold DpsProvisioning.startProvisioning, dpsConfig_of.
  cbn [DpsProvisioning.idle DpsProvisioning.mqttClient_ DpsProvisioning.globalEndpoint
       DpsProvisioning.port DpsProvisioning.registrationId DpsProvisioning.idScope
       DpsProvisioning.tlsConfig provisioningClient_ DpsProvisioning.delivered_].
  unfold DpsProvisioning.kDpsApiVersion.
  destruct (connectWithTls _ _ _ _ _ _) as [connected c'] eqn:E.
  cbn in Hc. subst connected. cbn. repeat split.
Qed.

End WorkflowProperties.

Section WorkflowExamples.
Import Mqtt DpsConnectionManager.

Lemma refused_until_disconnect_witness :
  callbackCalls_ (connectToIotHub (fun _ => true) 5%Z device_config (Some 1%nat)
                    (fold_left step [ProcessEvents 1%Z; OnHubConnected true ""; Publish "" "{}" 1 false]
                       failed_manager)) =
    [(0%nat, false, "DPS provisioning failed: Failed to initiate connection to DPS");
     (1%nat, false, "Connection already in progress or established")].
Proof.
  pose proof (connect_is_refused_until_disconnect failed_manager
                [ProcessEvents 1%Z; OnHubConnected true ""; Publish "" "{}" 1 false]
                (fun _ => true) 5%Z device_config (Some 1%nat)
                ltac:(discriminate) eq_refl) as (_ & H & _).
  rewrite H. vm_compute. reflexivity.
Defined.

Lemma failed_start_witness :
  state_ (core_ failed_manager) = Failed.
Proof.
  exact (proj1 (failed_start_leaves_manager_failed (make refusing_client refusing_client)
                  (fun _ => true) 0%Z device_config 0%nat eq_refl eq_refl eq_refl)).
Defined.

End WorkflowExamples.

Section ExtractProperties.
Import DpsProvisioning.

Lemma searchKey_nonempty key : searchKey key <> "".
Proof. discriminate. Qed.

(** A member is read back when it is written without white space and
    is the first of its name: in a text that holds the key in quotes, a
    colon and the value in quotes, [extractJsonValue] returns the value,
    provided the value holds no quote and the text before holds no
    earlier occurrence of the quoted key with its colon and quote.  Up
    to the closing quote the text after the value plays no part. *)
Theorem extractJsonValue_reads_first_member (before key value after : string) :
  Str.find (before +:+ searchKey key) (searchKey key) 0 = Some (String.length before) ->
  Str.find value dquote 0 = None ->
  extractJsonValue (before +:+ searchKey key +:+ value +:+ dquote +:+ after) key = value.
Proof.
  intros Hkey Hvalue. unfold extractJsonValue. fold (searchKey key).
  rewrite (find_first before (searchKey key) (value +:+ dquote +:+ after)
             (searchKey_nonempty key)).
  2: { intros p Hp. unfold Str.find in Hkey.
       exact (String.index_correct2 _ _ _ _ Hkey p (Nat.le_0_l _) Hp). }
  rewrite <- (string_length_app before (searchKey key)).
  rewrite <- string_app_assoc.
  rewrite find_skip.
  rewrite (find_first value dquote after).
  - cbn [option_map]. unfold Str.substr.
    replace (String.length (before +:+ searchKey key) + String.length value -
             String.length (before +:+ searchKey key))%nat
      with (String.length value) by lia.
    rewrite substring_skip. apply substring_prefix.
  - discriminate.
  - intros p Hp Heq. unfold Str.find in Hvalue.
    apply (String.index_correct3 0 p _ _ Hvalue); [discriminate | lia |].
    rewrite substring_within in Heq; [exact Heq|]. cbn. lia.
Qed.

Lemma extractJsonValue_witness :
  extractJsonValue (registrationPayload "356938035643809") "registrationId" =
    "356938035643809".
Proof.
  exact (extractJsonValue_reads_first_member "{" "registrationId" "356938035643809" "}"
           eq_refl eq_refl).
Defined.

End ExtractProperties.
